(** * salt-incus-formula: the API client, the accessors and the state functions

    A shallow embedding of [_modules/incus.py] (the execution module: the
    [IncusClient] request layer, the asynchronous-operation wait loop and
    the resource accessors) and of [_states/incus.py] (the state functions
    [instance_present], [volume_detached] and [instance_snapshots_rotated]).

    Python dicts are finite maps ([gmap]); the dict-shaped results that the
    functions pass around are records whose optional members are [option]s
    ([None] is "the key is absent"); exceptions and the unbounded [while
    True] loop are outcomes of a small state monad over the control plane,
    the wall clock and the log of requests issued so far. *)

From Stdlib Require Import ZArith Ascii String.
From stdpp Require Import gmap strings list fin_maps sorting pretty.

Local Open Scope Z_scope.

(** ** Scalars

    The values found in YAML pillars and in JSON bodies that the modelled
    code compares or formats: [None], integers and strings. On these
    Python's [==] is structural equality. *)

Inductive scalar :=
  | SNone
  | SInt (z : Z)
  | SStr (s : string).

#[global] Instance scalar_eq_dec : EqDecision scalar.
Proof. solve_decision. Defined.

(** [str(value)] *)
Definition py_str (v : scalar) : string :=
  match v with
  | SNone => "None"
  | SInt z => pretty z
  | SStr s => s
  end.

(** [d.get(key, default)] on an optional member. *)
Definition dict_get {A} (member : option A) (dflt : A) : A :=
  match member with
  | Some v => v
  | None => dflt
  end.

(** [value != 0] *)
Definition py_ne0 (v : scalar) : bool :=
  match v with
  | SInt 0 => false
  | _ => true
  end.

(** [s.replace(old, new)] for a non-empty [old]: every non-overlapping
    occurrence, left to right. [skip] counts the characters of an
    occurrence that are still to be dropped. *)
Fixpoint replace_from (old new : string) (skip : nat) (s : string) : string :=
  match s with
  | EmptyString => EmptyString
  | String c s' =>
      match skip with
      | S k => replace_from old new k s'
      | O =>
          if String.prefix old s
          then new +:+ replace_from old new (String.length old - 1) s'
          else String c (replace_from old new O s')
      end
  end.

Definition py_replace (old new s : string) : string := replace_from old new O s.

(** [l[:k]] *)
Definition py_slice_to {A} (k : Z) (l : list A) : list A :=
  if k <? 0 then take (Z.to_nat (Z.of_nat (length l) + k)) l
  else take (Z.to_nat k) l.

(** ** Resources and wire format *)

Abbreviation config_map := (gmap string scalar).
Abbreviation device_map := (gmap string (gmap string scalar)).

(** An instance object as [GET /instances/<name>] returns it and as
    [PUT /instances/<name>] sends it back. *)
Record instance := Instance {
  i_name : option string;
  i_status : option string;
  i_config : option config_map;
  i_devices : option device_map;
  i_profiles : option (list string);
}.

(** The object without any of the members: [{}]. *)
Definition empty_object : instance := Instance None None None None None.

(** A snapshot object of a listing with [recursion=1]. *)
Record snapshot := Snapshot {
  snap_name : string;
  created_at : string;
}.

(** Operation metadata when polled: [{status_code: .., err: ..}]. *)
Record opmeta := OpMeta {
  status_code : option scalar;
  err : option string;
}.

(** Server settings: [{config: {...}, ...}]; [s_rest] stands for the other
    members, which the code passes through untouched. *)
Record settings := Settings {
  s_config : option config_map;
  s_rest : config_map;
}.

(** A storage pool, a volume or a network: [{config: {...},
    description: .., ...}], with [res_rest] for the other members. *)
Record resource := Resource {
  res_config : option config_map;
  res_description : option string;
  res_rest : config_map;
}.

Inductive metadata :=
  | MInstance (i : instance)
  | MSnapshots (l : list snapshot)
  | MOperation (o : opmeta)
  | MSettings (s : settings)
  | MResource (r : resource).

(** A decoded JSON body, and also the error dict [{error, error_code}]
    that [_request] builds. *)
Record envelope := Envelope {
  e_type : option string;
  e_error_code : option scalar;
  e_error : option string;
  e_operation : option string;
  e_metadata : option metadata;
}.

(** The dicts that come back from [_request], [_sync_request] and
    [_wait_for_operation]: an envelope, or one of the failure dicts
    [{"success": False, "error": .., ["operation": ..]}] that
    [_wait_for_operation] builds, where the attached operation is the
    polled result or the operation metadata. *)
Inductive result :=
  | Response (e : envelope)
  | WaitFailure (error : string) (operation : attached_operation)
with attached_operation :=
  | NoOperation
  | PolledResult (r : result)
  | OperationMeta (o : opmeta).

Definition get_error_code (r : result) : option scalar :=
  match r with
  | Response e => e_error_code e
  | WaitFailure _ _ => None
  end.

Definition get_error (r : result) : option string :=
  match r with
  | Response e => e_error e
  | WaitFailure error _ => Some error
  end.

Definition get_type (r : result) : option string :=
  match r with
  | Response e => e_type e
  | WaitFailure _ _ => None
  end.

Definition get_metadata (r : result) : option metadata :=
  match r with
  | Response e => e_metadata e
  | WaitFailure _ _ => None
  end.

(** [result.get("operation")] read as an operation URL; the dict that a
    failure carries under that key is never an URL. *)
Definition get_operation (r : result) : option string :=
  match r with
  | Response e => e_operation e
  | WaitFailure _ _ => None
  end.

(** The test every caller applies: [result.get('error_code') != 0]. *)
Definition failed (r : result) : bool :=
  py_ne0 (dict_get (get_error_code r) SNone).

(** Metadata read as an object of one family; a missing member, or an
    object of another family, has none of the keys looked up. *)
Definition as_instance (m : option metadata) : instance :=
  match m with
  | Some (MInstance i) => i
  | _ => empty_object
  end.

Definition as_opmeta (m : option metadata) : opmeta :=
  match m with
  | Some (MOperation o) => o
  | _ => OpMeta None None
  end.

Definition as_snapshots (m : option metadata) : list snapshot :=
  match m with
  | Some (MSnapshots l) => l
  | _ => []
  end.

Definition as_settings (m : option metadata) : settings :=
  match m with
  | Some (MSettings s) => s
  | _ => Settings None ∅
  end.

Definition as_resource (m : option metadata) : resource :=
  match m with
  | Some (MResource r) => r
  | _ => Resource None None ∅
  end.

Inductive method := GET | POST | PUT | DELETE | PATCH.

#[global] Instance method_eq_dec : EqDecision method.
Proof. solve_decision. Defined.

(** The payload of [instance_create]. *)
Record create_data := CreateData {
  c_name : string;
  c_type : string;
  c_ephemeral : bool;
  c_source : option config_map;
  c_config : option config_map;
  c_devices : option device_map;
  c_profiles : option (list string);
}.

Inductive body :=
  | BInstance (i : instance)
  | BCreate (c : create_data)
  | BSettings (s : settings)
  | BResource (r : resource).

Record request := Request {
  r_method : method;
  r_endpoint : string;
  r_data : option body;
  r_recursion : option Z;
}.

(** What [session.request] followed by [raise_for_status] and
    [response.json()] comes to. The first three are the
    [requests.exceptions.RequestException]s that [_request] catches: a
    connection failure or timeout (no response attached), an HTTP status
    outside 2xx, a 2xx response whose body is not JSON (the
    [JSONDecodeError] of requests 2.27 and later, an [InvalidJSONError]). *)
Inductive transport_outcome :=
  | TransportError (msg : string)
  | HttpError (status : Z) (msg : string)
  | BadBody (msg : string)
  | Json (e : envelope).

(** [raise_for_status] raises for the statuses 400 to 599 and for no
    other. *)
Definition raised_status (o : transport_outcome) : Prop :=
  match o with
  | HttpError status _ => 400 <= status < 600
  | _ => True
  end.

(** The value [_request] returns for each way the call can end: the
    decoded body, or the dict of the [except] branch, whose [error_code]
    is the status of the attached response or [None]. *)
Definition error_dict (error : string) (error_code : scalar) : result :=
  Response (Envelope None (Some error_code) (Some error) None None).

Definition request_result (o : transport_outcome) : result :=
  match o with
  | Json e => Response e
  | HttpError status msg => error_dict msg (SInt status)
  | TransportError msg | BadBody msg => error_dict msg SNone
  end.

(** ** Effects *)

Inductive exn :=
  | KeyError (key : string).

Inductive outcome (A : Type) :=
  | Returns (a : A)
  | Raises (e : exn)
  | OutOfFuel.
Arguments Returns {A} a.
Arguments Raises {A} e.
Arguments OutOfFuel {A}.

Definition is_mutation (r : request) : bool :=
  match r_method r with
  | GET => false
  | _ => true
  end.

(** The create, update and delete requests of a log. *)
Definition mutations (t : list request) : list request :=
  List.filter is_mutation t.

(** The dicts [{'success': True, ..}] and [{'success': False, 'error': ..}]
    that every accessor returns. *)

Inductive exec_result (A : Type) :=
  | Success (payload : A)
  | Failure (error : string).
Arguments Success {A} payload.
Arguments Failure {A} error.

Definition succeeded {A} (r : exec_result A) : bool :=
  match r with
  | Success _ => true
  | Failure _ => false
  end.

(** [if d:] on an optional dict argument. *)
Definition truthy {A} (d : option (gmap string A)) : option (gmap string A) :=
  match d with
  | Some m => if bool_decide (m = ∅) then None else Some m
  | None => None
  end.

(** [if l:] on an optional list argument. *)
Definition truthy_list {A} (l : option (list A)) : option (list A) :=
  match l with
  | Some [] => None
  | other => other
  end.

(** [current.update(new)] *)
Definition dict_update {A} (current new : gmap string A) : gmap string A :=
  new ∪ current.

(** The loop of [instance_update] over [devices.items()]: the properties
    of an existing device are updated, a new device is added. *)
Definition merge_devices (current devices : device_map) : device_map :=
  map_fold
    (λ dev_name dev_conf acc,
       match acc !! dev_name with
       | Some existing => <[dev_name := dict_update existing dev_conf]> acc
       | None => <[dev_name := dev_conf]> acc
       end)
    current devices.

Section Client.

(** The control plane and the wall clock are the environment [W]:
    [http] answers one request, [clock] is [time.time()] in ticks,
    [sleep] is [time.sleep]. [quote] is [urllib.parse.quote]. *)
Context {W : Type}.
Variable http : request → W → transport_outcome * W.
Variable clock : W → Z.
Variable sleep : Z → W → W.
Variable quote : string → string.

Record world := World {
  env : W;
  trace : list request;
}.

Definition M (A : Type) : Type := world → outcome A * world.

Definition ret {A} (a : A) : M A := λ w, (Returns a, w).

Definition raise {A} (e : exn) : M A := λ w, (Raises e, w).

Definition out_of_fuel {A} : M A := λ w, (OutOfFuel, w).

Definition bind {A B} (m : M A) (k : A → M B) : M B :=
  λ w, match m w with
       | (Returns a, w') => k a w'
       | (Raises e, w') => (Raises e, w')
       | (OutOfFuel, w') => (OutOfFuel, w')
       end.

Notation "x <~ m ;; k" := (bind m (λ x, k))
  (at level 100, m at next level, right associativity).
Notation "m ;;; k" := (bind m (λ _, k))
  (at level 100, right associativity).

Definition time_time : M Z := λ w, (Returns (clock (env w)), w).

Definition time_sleep (d : Z) : M unit :=
  λ w, (Returns tt, World (sleep d (env w)) (trace w)).

Definition session_request (r : request) : M transport_outcome :=
  λ w, let '(o, e') := http r (env w) in
       (Returns o, World e' (trace w ++ [r])).

(** [d[key]] *)
Definition subscript {A} (key : string) (member : option A) : M A :=
  match member with
  | Some v => ret v
  | None => raise (KeyError key)
  end.

(** *** IncusClient *)

(** [_request]: one call; every [RequestException] becomes the dict
    [{error: str(e), error_code: <status or None>}]. The logging of 5xx
    responses has no bearing on the value. *)
Definition _request (m : method) (endpoint : string) (data : option body)
    (recursion : option Z) : M result :=
  o <~ session_request (Request m endpoint data recursion) ;;
  ret (request_result o).

Definition non_terminal (c : scalar) : bool :=
  bool_decide (c = SInt 100) || bool_decide (c = SInt 101)
  || bool_decide (c = SInt 103).

Section Wait.

(** [client._sync_request("GET", endpoint)] on a fresh client. *)
Variable poll : string → M result.

(** The [while True] loop of [_wait_for_operation]. *)
Fixpoint wait_loop (fuel : nat) (operation_url : string)
    (timeout interval started : Z) : M result :=
  match fuel with
  | O => out_of_fuel
  | S fuel' =>
      now <~ time_time ;;
      if timeout <? now - started
      then ret (WaitFailure "Timeout waiting for operation to finish" NoOperation)
      else
        result <~ poll (py_replace "/1.0/" "/" operation_url) ;;
        if failed result
        then ret (WaitFailure (dict_get (get_error result) "Unknown error")
                    (PolledResult result))
        else
          let op := as_opmeta (get_metadata result) in
          let code := dict_get (status_code op) SNone in
          if non_terminal code
          then time_sleep interval ;;; wait_loop fuel' operation_url timeout interval started
          else if bool_decide (code = SInt 200)
          then ret result
          else if bool_decide (code = SInt 400)
          then ret (WaitFailure (dict_get (err op) "Operation failed") (OperationMeta op))
          else ret (WaitFailure ("Unexpected status_code: " +:+ py_str code)
                      (OperationMeta op))
  end.

Definition wait_for_operation (fuel : nat) (operation_url : string)
    (timeout interval : Z) : M result :=
  started <~ time_time ;;
  if negb (String.prefix "/1.0/operations/" operation_url)
  then ret (WaitFailure ("Invalid operation URL: " +:+ operation_url) NoOperation)
  else wait_loop fuel operation_url timeout interval started.

End Wait.

(** [_sync_request]; the wait runs with the defaults [timeout=300],
    [interval=1]. A wait nests a [_sync_request] for each poll, so [fuel]
    bounds both the nesting and the iterations of each loop. *)
Fixpoint _sync_request (fuel : nat) (m : method) (endpoint : string)
    (data : option body) (recursion : option Z) : M result :=
  result <~ _request m endpoint data recursion ;;
  if py_ne0 (dict_get (get_error_code result) (SStr EmptyString))
  then ret result
  else
    if bool_decide (get_type result = Some "async")
    then
      match get_operation result with
      | Some op =>
          if bool_decide (op = EmptyString)
          then ret result
          else
            match fuel with
            | O => out_of_fuel
            | S fuel' =>
                wait_for_operation
                  (λ url, _sync_request fuel' GET url None None)
                  fuel op 300 1
            end
      | None => ret result
      end
    else ret result.

(** [_wait_for_operation] as a method of the client. *)
Definition _wait_for_operation (fuel : nat) (operation_url : string)
    (timeout interval : Z) : M result :=
  wait_for_operation (λ url, _sync_request fuel GET url None None)
    fuel operation_url timeout interval.

(** *** Resource accessors *)

(** [return {'success': False, 'error': result['error']}] *)
Definition failure_of {A} (result : result) : M (exec_result A) :=
  error <~ subscript "error" (get_error result) ;;
  ret (Failure error).

Definition instance_get (name : string) : M (exec_result instance) :=
  result <~ _request GET ("/instances/" +:+ quote name) None None ;;
  if failed result
  then failure_of result
  else ret (Success (as_instance (get_metadata result))).

Definition instance_create (fuel : nat) (name : string)
    (source : option config_map) (instance_type : string)
    (config : option config_map) (devices : option device_map)
    (profiles : option (list string)) (ephemeral : bool)
    : M (exec_result string) :=
  let data := CreateData name instance_type ephemeral (truthy source)
                (truthy config) (truthy devices) (truthy_list profiles) in
  result <~ _sync_request fuel POST "/instances" (Some (BCreate data)) None ;;
  if failed result
  then failure_of result
  else ret (Success ("Instance " +:+ name +:+ " created successfully")).

(** The block [# Update fields] of [instance_update]. *)
Definition update_fields (instance_data : instance)
    (config : option config_map) (devices : option device_map)
    (profiles : option (list string)) : M instance :=
  instance_data <~
    match truthy config with
    | Some config =>
        current_config <~ subscript "config" (i_config instance_data) ;;
        ret (Instance (i_name instance_data) (i_status instance_data)
               (Some (dict_update current_config config))
               (i_devices instance_data) (i_profiles instance_data))
    | None => ret instance_data
    end ;;
  instance_data <~
    match truthy devices with
    | Some devices =>
        current_devices <~ subscript "devices" (i_devices instance_data) ;;
        ret (Instance (i_name instance_data) (i_status instance_data)
               (i_config instance_data)
               (Some (merge_devices current_devices devices))
               (i_profiles instance_data))
    | None => ret instance_data
    end ;;
  match profiles with
  | Some profiles =>
      ret (Instance (i_name instance_data) (i_status instance_data)
             (i_config instance_data) (i_devices instance_data) (Some profiles))
  | None => ret instance_data
  end.

Definition instance_update (fuel : nat) (name : string)
    (config : option config_map) (devices : option device_map)
    (profiles : option (list string)) : M (exec_result string) :=
  current <~ instance_get name ;;
  match current with
  | Failure error => ret (Failure error)
  | Success instance_data =>
      instance_data <~ update_fields instance_data config devices profiles ;;
      result <~ _sync_request fuel PUT ("/instances/" +:+ quote name)
                  (Some (BInstance instance_data)) None ;;
      if failed result
      then failure_of result
      else ret (Success ("Instance " +:+ name +:+ " updated successfully"))
  end.

Definition instance_snapshot_list (instance : string) (recursion : Z)
    : M (exec_result (list snapshot)) :=
  result <~ _request GET ("/instances/" +:+ quote instance +:+ "/snapshots")
              None (Some recursion) ;;
  if failed result
  then failure_of result
  else ret (Success (as_snapshots (get_metadata result))).

Definition instance_snapshot_delete (fuel : nat) (instance snapshot_name : string)
    : M (exec_result string) :=
  result <~ _sync_request fuel DELETE
              ("/instances/" +:+ quote instance +:+ "/snapshots/"
               +:+ quote snapshot_name) None None ;;
  if failed result
  then failure_of result
  else ret (Success ("Snapshot " +:+ snapshot_name +:+ " of instance "
                     +:+ instance +:+ " deleted successfully")).

(** The block [# Update fields] of [storage_pool_update] and of
    [volume_update]. *)
Definition update_config_and_description (data : resource)
    (config : option config_map) (description : option string) : M resource :=
  data <~
    match truthy config with
    | Some config =>
        current_config <~ subscript "config" (res_config data) ;;
        ret (Resource (Some (dict_update current_config config))
               (res_description data) (res_rest data))
    | None => ret data
    end ;;
  match description with
  | Some description =>
      ret (Resource (res_config data) (Some description) (res_rest data))
  | None => ret data
  end.

(** [storage_pool_update]; the guard is [if 'error' in current]. *)
Definition storage_pool_update (fuel : nat) (name : string)
    (config : option config_map) (description : option string)
    : M (exec_result string) :=
  current <~ _request GET ("/storage-pools/" +:+ quote name) None None ;;
  match get_error current with
  | Some error => ret (Failure error)
  | None =>
      pool_data <~ update_config_and_description
                     (as_resource (get_metadata current)) config description ;;
      result <~ _sync_request fuel PUT ("/storage-pools/" +:+ quote name)
                  (Some (BResource pool_data)) None ;;
      if failed result
      then failure_of result
      else ret (Success ("Storage pool " +:+ name +:+ " updated successfully"))
  end.

Definition volume_update (fuel : nat) (pool name volume_type : string)
    (config : option config_map) (description : option string)
    : M (exec_result string) :=
  let endpoint := "/storage-pools/" +:+ quote pool +:+ "/volumes/" +:+ volume_type
                  +:+ "/" +:+ quote name in
  current <~ _request GET endpoint None None ;;
  match get_error current with
  | Some error => ret (Failure error)
  | None =>
      volume_data <~ update_config_and_description
                       (as_resource (get_metadata current)) config description ;;
      result <~ _sync_request fuel PUT endpoint (Some (BResource volume_data)) None ;;
      if failed result
      then failure_of result
      else ret (Success ("Volume " +:+ name +:+ " updated successfully"))
  end.

(** [network_update]: the config is required and merged without a guard. *)
Definition network_update (fuel : nat) (name : string) (config : config_map)
    : M (exec_result string) :=
  current <~ _request GET ("/networks/" +:+ quote name) None None ;;
  match get_error current with
  | Some error => ret (Failure error)
  | None =>
      let network_data := as_resource (get_metadata current) in
      current_config <~ subscript "config" (res_config network_data) ;;
      let network_data :=
        Resource (Some (dict_update current_config config))
          (res_description network_data) (res_rest network_data) in
      result <~ _sync_request fuel PUT ("/networks/" +:+ quote name)
                  (Some (BResource network_data)) None ;;
      if failed result
      then failure_of result
      else ret (Success ("Network " +:+ name +:+ " updated successfully"))
  end.

Definition settings_update (fuel : nat) (config : option config_map)
    : M (exec_result string) :=
  match truthy config with
  | None => ret (Failure "config parameter must be a dictionary")
  | Some config =>
      current <~ _request GET EmptyString None None ;;
      if failed current
      then ret (Failure (dict_get (get_error current) "Failed to get current settings"))
      else
        let settings_data := as_settings (get_metadata current) in
        let current_config := dict_get (s_config settings_data) ∅ in
        let settings_data :=
          Settings (Some (dict_update current_config config)) (s_rest settings_data) in
        result <~ _sync_request fuel PUT EmptyString (Some (BSettings settings_data)) None ;;
        if failed result
        then ret (Failure (dict_get (get_error result) "Failed to update settings"))
        else ret (Success "Server settings updated successfully")
  end.

Definition settings_replace (fuel : nat) (config : option config_map)
    : M (exec_result string) :=
  match truthy config with
  | None => ret (Failure "config parameter must be a dictionary")
  | Some config =>
      current <~ _request GET EmptyString None None ;;
      if failed current
      then ret (Failure (dict_get (get_error current) "Failed to get current settings"))
      else
        let settings_data := as_settings (get_metadata current) in
        let settings_data := Settings (Some config) (s_rest settings_data) in
        result <~ _sync_request fuel PUT EmptyString (Some (BSettings settings_data)) None ;;
        if failed result
        then ret (Failure (dict_get (get_error result) "Failed to replace settings"))
        else ret (Success "Server settings replaced successfully")
  end.

End Client.

(** ** State functions *)

Record failed_delete := FailedDelete {
  fd_name : string;
  fd_error : string;
}.

(** [ret["comment"]]: the text, or the f-string
    [f"Failed to delete some snapshots: {failed}"] with the list it
    interpolates. *)
Inductive comment :=
  | Text (s : string)
  | FailedToDeleteSome (failed : list failed_delete).

(** The dict [{"name", "result", "changes", "comment"}] of a state
    function; [ret_result] is [True], [False] or [None]. *)
Record state_ret (C : Type) := StateRet {
  ret_name : string;
  ret_result : option bool;
  ret_changes : C;
  ret_comment : comment;
}.
Arguments StateRet {C} _ _ _ _.
Arguments ret_name {C} _.
Arguments ret_result {C} _.
Arguments ret_changes {C} _.
Arguments ret_comment {C} _.

(** [new_desc] of [instance_present]. *)
Record new_desc := NewDesc {
  nd_name : string;
  nd_type : string;
  nd_config : option config_map;
  nd_devices : option device_map;
  nd_profiles : option (list string);
  nd_ephemeral : bool;
  nd_source : option config_map;
}.

(** The ["new"] member of [{"instance": {"old": None, "new": ..}}]. *)
Inductive created :=
  | CreatedDescription (d : new_desc)
  | CreatedName (name : string).

(** [changes] of [instance_present]; a member is [None] when the key is
    not set. The pairs are [{"old": .., "new": ..}]. *)
Record instance_changes := InstanceChanges {
  ch_config : option (gmap string (scalar * string));
  ch_profiles : option (list string * list string);
  ch_devices : option (gmap string (option config_map * config_map));
  ch_instance : option created;
}.

(** [{}] *)
Definition no_changes : instance_changes := InstanceChanges None None None None.

(** [list.sort(key=lambda s: s.get("created_at", ""))]: the stable sort
    by the timestamp strings, written as an insertion sort. *)
Fixpoint insert_by_created (s : snapshot) (l : list snapshot) : list snapshot :=
  match l with
  | [] => [s]
  | x :: l' =>
      if String.leb (created_at s) (created_at x)
      then s :: l
      else x :: insert_by_created s l'
  end.

Definition sort_by_created (l : list snapshot) : list snapshot :=
  foldr insert_by_created [] l.

(** Of the attempted deletes, the names that [deleted] collects and the
    entries that [failed] collects. *)
Definition deleted_names (attempts : list (snapshot * exec_result string))
    : list string :=
  omap (λ a, match a.2 with
             | Success _ => Some (snap_name a.1)
             | Failure _ => None
             end) attempts.

Definition failed_deletes (attempts : list (snapshot * exec_result string))
    : list failed_delete :=
  omap (λ a, match a.2 with
             | Success _ => None
             | Failure error => Some (FailedDelete (snap_name a.1) error)
             end) attempts.

Section States.

Context {W : Type}.
Variable http : request → W → transport_outcome * W.
Variable clock : W → Z.
Variable sleep : Z → W → W.
Variable quote : string → string.
(** [fnmatch.fnmatch(name, pattern)] *)
Variable fnmatch : string → string → bool.
(** [__opts__.get("test")] *)
Variable test : bool.

Notation "x <~ m ;; k" := (bind m (λ x, k))
  (at level 100, m at next level, right associativity).

(** The config diff of [instance_present]: the keys whose live value is
    not the desired value's string. *)
Definition config_diff (current_config config : config_map)
    : gmap string (scalar * string) :=
  map_imap
    (λ key value,
       let new_val := py_str value in
       if bool_decide (current_config !! key = Some (SStr new_val))
       then None
       else Some (dict_get (current_config !! key) SNone, new_val))
    config.

(** The device diff of [instance_present]. *)
Definition device_diff (current_devices devices : device_map)
    : gmap string (option config_map * config_map) :=
  map_imap
    (λ dev_name dev_conf,
       if bool_decide (current_devices !! dev_name = Some dev_conf)
       then None
       else Some (current_devices !! dev_name, dev_conf))
    devices.

(** [changes] as [instance_present] computes it for an existing instance. *)
Definition compute_changes (instance : instance)
    (config : option config_map) (devices : option device_map)
    (profiles : option (list string)) : instance_changes :=
  InstanceChanges
    (match truthy config with
     | Some config =>
         truthy (Some (config_diff (dict_get (i_config instance) ∅) config))
     | None => None
     end)
    (match profiles with
     | Some profiles =>
         let current_profiles := dict_get (i_profiles instance) [] in
         if bool_decide ((list_to_set current_profiles : gset string)
                         = list_to_set profiles)
         then None
         else Some (current_profiles, profiles)
     | None => None
     end)
    (match truthy devices with
     | Some devices =>
         truthy (Some (device_diff (dict_get (i_devices instance) ∅) devices))
     | None => None
     end)
    None.

(** [if changes:] *)
Definition has_changes (c : instance_changes) : bool :=
  bool_decide (is_Some (ch_config c)) || bool_decide (is_Some (ch_profiles c))
  || bool_decide (is_Some (ch_devices c)) || bool_decide (is_Some (ch_instance c)).

Definition instance_present (fuel : nat) (name : string)
    (source : option config_map) (instance_type : string)
    (config : option config_map) (devices : option device_map)
    (profiles : option (list string)) (ephemeral : bool)
    : M (state_ret instance_changes) :=
  instance_info <~ instance_get http quote name ;;
  match instance_info with
  | Success instance =>
      let changes := compute_changes instance config devices profiles in
      if has_changes changes
      then
        if test
        then ret (StateRet name None changes
                    (Text ("Instance " +:+ name +:+ " would be updated")))
        else
          update_result <~ instance_update http clock sleep quote fuel name
                             config devices profiles ;;
          match update_result with
          | Success _ =>
              ret (StateRet name (Some true) changes
                     (Text ("Instance " +:+ name +:+ " updated")))
          | Failure error =>
              ret (StateRet name (Some false) no_changes
                     (Text ("Failed to update instance " +:+ name +:+ ": " +:+ error)))
          end
      else ret (StateRet name (Some true) no_changes
                  (Text ("Instance " +:+ name +:+ " already in desired state")))
  | Failure _ =>
      let new_desc := NewDesc name instance_type config devices profiles
                        ephemeral source in
      if test
      then ret (StateRet name None
                  (InstanceChanges None None None
                     (Some (CreatedDescription new_desc)))
                  (Text ("Instance " +:+ name +:+ " would be created")))
      else
        create_result <~ instance_create http clock sleep fuel name source
                           instance_type config devices profiles ephemeral ;;
        match create_result with
        | Success _ =>
            ret (StateRet name (Some true)
                   (InstanceChanges None None None (Some (CreatedName name)))
                   (Text ("Instance " +:+ name +:+ " created")))
        | Failure error =>
            ret (StateRet name (Some false) no_changes
                   (Text ("Failed to create instance " +:+ name +:+ ": " +:+ error)))
        end
  end.

(** [volume_detached]; [changes] is [{"device": {"old": device, "new":
    None}}] or [{}]. The dict [remaining_devices] that the function builds
    is stored into its own copy of the instance and never sent. *)
Definition volume_detached (fuel : nat) (name pool instance : string)
    (device_name : option string) : M (state_ret (option config_map)) :=
  let device_name :=
    match device_name with
    | Some d => if bool_decide (d = EmptyString) then name else d
    | None => name
    end in
  instance_info <~ instance_get http quote instance ;;
  match instance_info with
  | Failure error =>
      ret (StateRet name (Some false) None
             (Text ("Failed to get instance " +:+ instance +:+ ": " +:+ error)))
  | Success instance_data =>
      let current_devices := dict_get (i_devices instance_data) ∅ in
      match current_devices !! device_name with
      | None =>
          ret (StateRet name (Some true) None
                 (Text ("Volume " +:+ name +:+ " already detached from instance "
                        +:+ instance)))
      | Some device =>
          if negb (bool_decide (device !! "pool" = Some (SStr pool)))
             || negb (bool_decide (device !! "source" = Some (SStr name)))
          then ret (StateRet name (Some true) None
                      (Text ("Device " +:+ device_name +:+ " is not volume "
                             +:+ name +:+ " from pool " +:+ pool)))
          else if test
          then ret (StateRet name None (Some device)
                      (Text ("Volume " +:+ name +:+ " would be detached from instance "
                             +:+ instance)))
          else
            update_result <~ instance_update http clock sleep quote fuel instance
                               None (Some {[ device_name := ∅ ]}) None ;;
            match update_result with
            | Success _ =>
                ret (StateRet name (Some true) (Some device)
                       (Text ("Volume " +:+ name +:+ " detached from instance "
                              +:+ instance)))
            | Failure error =>
                ret (StateRet name (Some false) None
                       (Text ("Failed to detach volume " +:+ name +:+ ": " +:+ error)))
            end
      end
  end.

(** *** Snapshot rotation *)

(** [matching_snapshots] after the filter and the sort. *)
Definition matching_snapshots (pattern : string)
    (current_snapshots : list snapshot) : list snapshot :=
  sort_by_created
    (List.filter (λ s, fnmatch (snap_name s) pattern) current_snapshots).

(** [to_delete], and no snapshot at all on the early return. *)
Definition to_delete (pattern : string) (keep : Z)
    (current_snapshots : list snapshot) : list snapshot :=
  let matching := matching_snapshots pattern current_snapshots in
  if Z.of_nat (length matching) <=? keep
  then []
  else py_slice_to (Z.of_nat (length matching) - keep) matching.

(** The loop [for snap in to_delete]. *)
Fixpoint delete_old_snapshots (fuel : nat) (instance : string)
    (to_delete : list snapshot) (deleted : list string)
    (failed : list failed_delete) : M (list string * list failed_delete) :=
  match to_delete with
  | [] => ret (deleted, failed)
  | snap :: rest =>
      let snap_name := snap_name snap in
      delete_result <~ instance_snapshot_delete http clock sleep quote fuel
                         instance snap_name ;;
      match delete_result with
      | Success _ =>
          delete_old_snapshots fuel instance rest (deleted ++ [snap_name]) failed
      | Failure error =>
          delete_old_snapshots fuel instance rest deleted
            (failed ++ [FailedDelete snap_name error])
      end
  end.

(** The course of that loop: each snapshot with what its delete
    returned, in order, each delete in the world the one before left. *)
Inductive delete_attempts (fuel : nat) (instance : string)
    : world → list snapshot → list (snapshot * exec_result string) → world → Prop :=
  | no_attempt w : delete_attempts fuel instance w [] [] w
  | one_attempt w w1 w' snap rest o attempts :
      instance_snapshot_delete http clock sleep quote fuel instance (snap_name snap) w
      = (Returns o, w1) →
      delete_attempts fuel instance w1 rest attempts w' →
      delete_attempts fuel instance w (snap :: rest) ((snap, o) :: attempts) w'.

(** [instance_snapshots_rotated]; [changes] is [{"deleted": {"old":
    names, "new": None}}] or [{}]. *)
Definition instance_snapshots_rotated (fuel : nat) (instance pattern : string)
    (keep : Z) : M (state_ret (option (list string))) :=
  let name := instance +:+ "_rotate_" +:+ pattern in
  instance_info <~ instance_get http quote instance ;;
  if negb (succeeded instance_info)
  then ret (StateRet name (Some false) None
              (Text ("Instance " +:+ instance +:+ " does not exist")))
  else
    snapshots_result <~ instance_snapshot_list http quote instance 1 ;;
    match snapshots_result with
    | Failure error =>
        ret (StateRet name (Some false) None
               (Text ("Failed to list snapshots: " +:+ error)))
    | Success current_snapshots =>
        let matching := matching_snapshots pattern current_snapshots in
        if Z.of_nat (length matching) <=? keep
        then ret (StateRet name (Some true) None
                    (Text ("Snapshot rotation not needed: "
                           +:+ pretty (length matching) +:+ " snapshots (keeping "
                           +:+ pretty keep +:+ ")")))
        else
          let to_delete :=
            py_slice_to (Z.of_nat (length matching) - keep) matching in
          let to_delete_names := snap_name <$> to_delete in
          if test
          then ret (StateRet name None (Some to_delete_names)
                      (Text ("Would delete " +:+ pretty (length to_delete)
                             +:+ " old snapshots matching pattern '"
                             +:+ pattern +:+ "'")))
          else
            outcome <~ delete_old_snapshots fuel instance to_delete [] [] ;;
            let '(deleted, failed) := outcome in
            let changes :=
              match deleted with
              | [] => None
              | _ => Some deleted
              end in
            match failed with
            | [] =>
                ret (StateRet name (Some true) changes
                       (Text ("Deleted " +:+ pretty (length deleted)
                              +:+ " old snapshots matching pattern '"
                              +:+ pattern +:+ "'")))
            | _ => ret (StateRet name (Some false) changes (FailedToDeleteSome failed))
            end
    end.

End States.

(** ** A reference control plane

    A store of instances, snapshots and server settings behind the wire
    contract: [GET] reads, [PUT] replaces the stored object by the one
    sent, [POST /instances] creates, [DELETE] of a snapshot removes it
    unless it is locked. With [async] set, a mutation is answered by an
    operation that polls as running (103) until the clock reaches
    [done_at] and as success (200) from then on. Names need no escaping:
    [quote] is the identity. *)

Module Sim.

Record server := Server {
  instances : gmap string instance;
  snapshots : gmap string (list snapshot);
  locked : gset string;
  server_settings : settings;
  async : bool;
  done_at : Z;
  now : Z;
}.

Inductive route :=
  | Root
  | Instances
  | AnInstance (name : string)
  | Snapshots (name : string)
  | ASnapshot (name snap : string)
  | Operation (id : string)
  | Unknown.

Fixpoint strip_prefix (p s : string) : option string :=
  match p with
  | EmptyString => Some s
  | String c p' =>
      match s with
      | String d s' => if Ascii.eqb c d then strip_prefix p' s' else None
      | EmptyString => None
      end
  end.

(** The text before the first slash, and the rest from that slash on. *)
Fixpoint split_at_slash (s : string) : string * string :=
  match s with
  | EmptyString => (EmptyString, EmptyString)
  | String c s' =>
      if Ascii.eqb c "/" then (EmptyString, s)
      else let '(name, rest) := split_at_slash s' in (String c name, rest)
  end.

Definition route_of (endpoint : string) : route :=
  if bool_decide (endpoint = EmptyString) then Root
  else if bool_decide (endpoint = "/instances") then Instances
  else
    match strip_prefix "/instances/" endpoint with
    | Some rest =>
        let '(name, tail) := split_at_slash rest in
        if bool_decide (tail = EmptyString) then AnInstance name
        else
          match strip_prefix "/snapshots" tail with
          | Some tail' =>
              if bool_decide (tail' = EmptyString) then Snapshots name
              else
                match strip_prefix "/" tail' with
                | Some snap => ASnapshot name snap
                | None => Unknown
                end
          | None => Unknown
          end
    | None =>
        match strip_prefix "/operations/" endpoint with
        | Some id => Operation id
        | None => Unknown
        end
    end.

Definition ok (m : option metadata) : transport_outcome :=
  Json (Envelope (Some "sync") (Some (SInt 0)) (Some EmptyString)
          (Some EmptyString) m).

Definition accepted : transport_outcome :=
  Json (Envelope (Some "async") (Some (SInt 0)) (Some EmptyString)
          (Some "/1.0/operations/op")
          (Some (MOperation (OpMeta (Some (SInt 100)) None)))).

Definition not_found : transport_outcome :=
  HttpError 404 "404 Client Error: Not Found".

Definition reply (s : server) : transport_outcome :=
  if async s then accepted else ok None.

Definition with_instances (s : server) (m : gmap string instance) : server :=
  Server m (snapshots s) (locked s) (server_settings s) (async s) (done_at s) (now s).

Definition with_snapshots (s : server) (m : gmap string (list snapshot)) : server :=
  Server (instances s) m (locked s) (server_settings s) (async s) (done_at s) (now s).

Definition with_settings (s : server) (c : settings) : server :=
  Server (instances s) (snapshots s) (locked s) c (async s) (done_at s) (now s).

Definition http (r : request) (s : server) : transport_outcome * server :=
  match r_method r, route_of (r_endpoint r), r_data r with
  | GET, Root, _ => (ok (Some (MSettings (server_settings s))), s)
  | PUT, Root, Some (BSettings c) => (reply s, with_settings s c)
  | POST, Instances, Some (BCreate c) =>
      match instances s !! c_name c with
      | Some _ => (HttpError 409 "409 Client Error: Conflict", s)
      | None =>
          (reply s,
           with_instances s
             (<[c_name c :=
                  Instance (Some (c_name c)) (Some "Stopped")
                    (Some (dict_get (c_config c) ∅))
                    (Some (dict_get (c_devices c) ∅))
                    (Some (dict_get (c_profiles c) []))]> (instances s)))
      end
  | GET, AnInstance name, _ =>
      match instances s !! name with
      | Some i => (ok (Some (MInstance i)), s)
      | None => (not_found, s)
      end
  | PUT, AnInstance name, Some (BInstance i) =>
      match instances s !! name with
      | Some _ => (reply s, with_instances s (<[name := i]> (instances s)))
      | None => (not_found, s)
      end
  | GET, Snapshots name, _ =>
      match instances s !! name with
      | Some _ => (ok (Some (MSnapshots (dict_get (snapshots s !! name) []))), s)
      | None => (not_found, s)
      end
  | DELETE, ASnapshot name snap, _ =>
      if bool_decide (snap ∈ locked s)
      then (HttpError 500 "500 Server Error: Internal Server Error", s)
      else
        (reply s,
         with_snapshots s
           (<[name := List.filter (λ x, negb (String.eqb (snap_name x) snap))
                        (dict_get (snapshots s !! name) [])]> (snapshots s)))
  | GET, Operation _, _ =>
      (ok (Some (MOperation
                   (OpMeta (Some (SInt (if now s <? done_at s then 103 else 200)))
                      None))), s)
  | _, _, _ => (not_found, s)
  end.

Definition clock (s : server) : Z := now s.

Definition sleep (d : Z) (s : server) : server :=
  Server (instances s) (snapshots s) (locked s) (server_settings s) (async s)
    (done_at s) (now s + d).

Definition quote (name : string) : string := name.

(** [fnmatch.fnmatch] on a POSIX host for patterns without bracket
    expressions: [*] matches any run of characters, [?] any one
    character, any other character itself. *)
Fixpoint glob (pattern : string) : string → bool :=
  match pattern with
  | EmptyString => λ name, bool_decide (name = EmptyString)
  | String c pattern' =>
      if Ascii.eqb c "*"
      then fix star (name : string) : bool :=
             glob pattern' name
             || match name with
                | EmptyString => false
                | String _ name' => star name'
                end
      else λ name,
             match name with
             | EmptyString => false
             | String d name' =>
                 (Ascii.eqb c "?" || Ascii.eqb c d) && glob pattern' name'
             end
  end.

Definition fnmatch (name pattern : string) : bool := glob pattern name.

(** A server that holds nothing, at time 0. *)
Definition empty : server :=
  Server ∅ ∅ ∅ (Settings (Some ∅) ∅) false 0 0.

(** The world a call starts in: the server and an empty log. *)
Definition start (s : server) : world := World s [].

(** *** Sample states *)

Definition disk : config_map :=
  {[ "type" := SStr "disk"; "pool" := SStr "default";
     "source" := SStr "vol1"; "path" := SStr "/mnt/data" ]}.

Definition c1 : instance :=
  Instance (Some "c1") (Some "Running")
    (Some {[ "a" := SStr "1"; "b" := SStr "2" ]})
    (Some {[ "data" := disk ]})
    (Some ["default"]).

Definition listing : list snapshot :=
  [ Snapshot "daily-3" "2024-01-03T00:00:00Z";
    Snapshot "weekly-1" "2024-01-01T12:00:00Z";
    Snapshot "daily-1" "2024-01-01T00:00:00Z";
    Snapshot "daily-2" "2024-01-02T00:00:00Z" ].

(** One instance, [c1], with four snapshots. *)
Definition one_instance : server :=
  Server {[ "c1" := c1 ]} {[ "c1" := listing ]} ∅
    (Settings (Some {[ "a" := SStr "1"; "b" := SStr "2" ]}) ∅) false 0 0.

(** The same, with the snapshot [daily-1] locked against deletion. *)
Definition locked_snapshot : server :=
  Server {[ "c1" := c1 ]} {[ "c1" := listing ]} {[ "daily-1" ]}
    (Settings (Some ∅) ∅) false 0 0.

(** An instance object without its [config] and [devices] members. *)
Definition bare_instance : server :=
  with_instances empty {[ "c1" := Instance (Some "c1") (Some "Running") None None None ]}.

(** The device [data] as a specification that leaves its [path] out. *)
Definition data_without_path : option device_map :=
  Some {[ "data" := {[ "type" := SStr "disk"; "pool" := SStr "default";
                       "source" := SStr "vol1" ]} ]}.

Definition two_cpus : option config_map := Some {[ "limits.cpu" := SStr "2" ]}.

(** Mutations are asynchronous and finish at time 1. *)
Definition slow : server := Server ∅ ∅ ∅ (Settings (Some ∅) ∅) true 1 0.

End Sim.

(** A control plane that cannot be reached: every call ends in a
    connection error. The environment is the clock. *)
Module Down.

Definition http (r : request) (t : Z) : transport_outcome * Z :=
  (TransportError "Connection refused", t).

Definition clock (t : Z) : Z := t.

Definition sleep (d t : Z) : Z := t + d.

End Down.

(** A control plane on which every poll finds the operation running. *)
Module Stuck.

Definition http (r : request) (t : Z) : transport_outcome * Z :=
  (Sim.ok (Some (MOperation (OpMeta (Some (SInt 103)) None))), t).

End Stuck.

(** ** Client configuration *)

(** A value of the configuration: [None], a boolean, a string or a
    nested dict. *)
#[warnings="-register-all"]
Inductive value :=
  | VNone
  | VBool (b : bool)
  | VStr (s : string)
  | VDict (d : gmap string value).

(** What [base[k]] holds after the body of the loop of [deep_merge] has
    run for the item [(k, v)] of [override]: the merge of [v] into the
    dict that was there, or [v] itself. *)
Fixpoint merged_value (current : option value) (v : value) {struct v} : value :=
  match current, v with
  | Some (VDict b), VDict o =>
      VDict (map_fold (λ k v' acc, <[k := merged_value (acc !! k) v']> acc) b o)
  | _, _ => v
  end.

(** [deep_merge(base, override)], by the value of [base] when it returns:
    the loop over [override.items()]. *)
Definition deep_merge (base override : gmap string value) : gmap string value :=
  map_fold (λ k v acc, <[k := merged_value (acc !! k) v]> acc) base override.

(** The size of a value, the measure for inductions on nested dicts. *)
Fixpoint value_size (v : value) : nat :=
  match v with
  | VDict d => S (map_fold (λ _ v' n, (value_size v' + n)%nat) 0%nat d)
  | _ => 1%nat
  end.

Definition INCUS_SOCKET_PATH : string := "/var/lib/incus/unix.socket".

Definition DEFAULT_CFG : gmap string value :=
  {[ "connection" :=
       VDict {[ "type" := VStr "unix";
                "socket" := VStr INCUS_SOCKET_PATH;
                "url" := VNone;
                "cert" := VNone;
                "key" := VNone;
                "verify" := VBool true ]} ]}.

(** [_load_config] on the module's [DEFAULT_CFG] as it stands, returning
    the configuration and [DEFAULT_CFG] as the call leaves it.
    [DEFAULT_CFG.copy()] is a shallow copy: a dict nested in the copy is
    the very dict nested in [DEFAULT_CFG], so where [deep_merge] descends
    into [base[k]] it updates the dict that [DEFAULT_CFG] holds under [k],
    and where it assigns [base[k] = v] it changes the copy alone. *)
Definition _load_config (pillar_cfg default_cfg : gmap string value)
    : gmap string value * gmap string value :=
  (deep_merge default_cfg pillar_cfg,
   map_imap
     (λ k current,
        match current, pillar_cfg !! k with
        | VDict b, Some (VDict o) => Some (VDict (deep_merge b o))
        | _, _ => Some current
        end)
     default_cfg).

(** [s.rstrip("/")] *)
Fixpoint rstrip_slash (s : string) : string :=
  match s with
  | EmptyString => EmptyString
  | String c s' =>
      let rest := rstrip_slash s' in
      if Ascii.eqb c "/" && bool_decide (rest = EmptyString)
      then EmptyString
      else String c rest
  end.

(** The exceptions of [_get_base_url]: the two [ValueError]s, the second
    with the value its message interpolates, and the [AttributeError] of
    [.get] or [.rstrip] on a value that has no such method. *)
Inductive config_error :=
  | HttpsRequiresUrl
  | UnsupportedConnectionType (ctype : value)
  | AttributeError.

(** [_get_base_url] on [self.config]. *)
Definition _get_base_url (config : gmap string value) : config_error + string :=
  match dict_get (config !! "connection") (VDict ∅) with
  | VDict conn =>
      let ctype := dict_get (conn !! "type") (VStr "unix") in
      match ctype with
      | VStr t =>
          if bool_decide (t = "unix")
          then inr "http://localhost/1.0"
          else if bool_decide (t = "https")
          then
            match conn !! "url" with
            | Some (VStr url) =>
                if bool_decide (url = EmptyString)
                then inl HttpsRequiresUrl
                else inr (rstrip_slash url +:+ "/1.0")
            | Some (VDict d) =>
                if bool_decide (d = ∅) then inl HttpsRequiresUrl else inl AttributeError
            | Some (VBool true) => inl AttributeError
            | Some (VBool false) | Some VNone | None => inl HttpsRequiresUrl
            end
          else inl (UnsupportedConnectionType ctype)
      | _ => inl (UnsupportedConnectionType ctype)
      end
  | _ => inl AttributeError
  end.

(** ** Further accessors and states *)

(** The character that [settings_unset] puts around the key. *)
Definition double_quote : string := String "034" EmptyString.

(** The device that [volume_attached] attaches. *)
Definition disk_device (pool name : string) : config_map :=
  {[ "type" := SStr "disk"; "pool" := SStr pool; "source" := SStr name ]}.

(** [all_changes] of [settings_managed]: the keys to add or update, then
    the keys to remove. *)
Definition managed_changes (current_config : config_map)
    (desired_config : gmap string string) : gmap string (scalar * option string) :=
  map_imap
    (λ key current_val,
       match desired_config !! key with
       | None => Some (current_val, None)
       | Some _ => None
       end)
    current_config
  ∪ map_imap
      (λ key value,
         if bool_decide (current_config !! key = Some (SStr value))
         then None
         else Some (dict_get (current_config !! key) SNone, Some value))
      desired_config.

(** On the reference control plane, the test for the snapshots of a
    listing that are left once the deletes of [selected] are done: those
    whose name is not the name of a selected one. *)
Definition left_after (selected : list snapshot) (x : snapshot) : bool :=
  negb (existsb (λ t, String.eqb (snap_name x) (snap_name t)) selected).

Section Settings.

Context {W : Type}.
Variable http : request → W → transport_outcome * W.
Variable clock : W → Z.
Variable sleep : Z → W → W.
Variable quote : string → string.
(** [__opts__.get("test")] *)
Variable test : bool.

Notation "x <~ m ;; k" := (bind m (λ x, k))
  (at level 100, m at next level, right associativity).

Definition settings_get : M (exec_result settings) :=
  result <~ _request http GET EmptyString None None ;;
  if failed result
  then ret (Failure (dict_get (get_error result) "Failed to get settings"))
  else ret (Success (as_settings (get_metadata result))).

Definition settings_set (fuel : nat) (key : string) (value : scalar)
    : M (exec_result string) :=
  if bool_decide (key = EmptyString)
  then ret (Failure "key parameter must be a non-empty string")
  else settings_update http clock sleep fuel (Some {[ key := SStr (py_str value) ]}).

Definition settings_unset (fuel : nat) (key : string) : M (exec_result string) :=
  if bool_decide (key = EmptyString)
  then ret (Failure "key parameter must be a non-empty string")
  else
    current <~ _request http GET EmptyString None None ;;
    if failed current
    then ret (Failure (dict_get (get_error current) "Failed to get current settings"))
    else
      let settings_data := as_settings (get_metadata current) in
      let not_found :=
        Failure ("Configuration key " +:+ double_quote +:+ key +:+ double_quote
                 +:+ " not found") in
      match s_config settings_data with
      | Some config =>
          match config !! key with
          | Some _ =>
              let settings_data :=
                Settings (Some (delete key config)) (s_rest settings_data) in
              result <~ _sync_request http clock sleep fuel PUT EmptyString
                          (Some (BSettings settings_data)) None ;;
              if failed result
              then ret (Failure (dict_get (get_error result) "Failed to update settings"))
              else ret (Success ("Configuration key " +:+ double_quote +:+ key
                                 +:+ double_quote +:+ " unset successfully"))
          | None => ret not_found
          end
      | None => ret not_found
      end.

Definition storage_pool_get (name : string) : M (exec_result resource) :=
  result <~ _request http GET ("/storage-pools/" +:+ quote name) None None ;;
  if failed result
  then failure_of result
  else ret (Success (as_resource (get_metadata result))).

(** [settings_present]; [changes] is [{"config": config_changes}] or
    [{}], and [config_changes] is computed as [instance_present] computes
    its config diff. *)
Definition settings_present (fuel : nat) (name : string) (config : option config_map)
    : M (state_ret (option (gmap string (scalar * string)))) :=
  settings_info <~ settings_get ;;
  match settings_info with
  | Failure error =>
      ret (StateRet name (Some false) None
             (Text ("Failed to get server settings: " +:+ error)))
  | Success current_settings =>
      let current_config := dict_get (s_config current_settings) ∅ in
      let config_changes := config_diff current_config (dict_get config ∅) in
      if bool_decide (config_changes = ∅)
      then ret (StateRet name (Some true) None
                  (Text "Server settings already in desired state"))
      else if test
      then ret (StateRet name None (Some config_changes)
                  (Text "Server settings would be updated"))
      else
        update_result <~ settings_update http clock sleep fuel config ;;
        match update_result with
        | Success _ =>
            ret (StateRet name (Some true) (Some config_changes)
                   (Text "Server settings updated"))
        | Failure error =>
            ret (StateRet name (Some false) None
                   (Text ("Failed to update server settings: " +:+ error)))
        end
  end.

(** [settings_config]; [changes] is [{key: {"old": .., "new": ..}}] or
    [{}]. *)
Definition settings_config (fuel : nat) (name key : string) (value : scalar)
    : M (state_ret (gmap string (scalar * string))) :=
  settings_info <~ settings_get ;;
  match settings_info with
  | Failure error =>
      ret (StateRet name (Some false) ∅
             (Text ("Failed to get server settings: " +:+ error)))
  | Success current_settings =>
      let current_config := dict_get (s_config current_settings) ∅ in
      let new_val := py_str value in
      let current_val := dict_get (current_config !! key) SNone in
      if bool_decide (current_config !! key = Some (SStr new_val))
      then ret (StateRet name (Some true) ∅
                  (Text ("Setting " +:+ key +:+ " already has value " +:+ new_val)))
      else if test
      then ret (StateRet name None {[ key := (current_val, new_val) ]}
                  (Text ("Setting " +:+ key +:+ " would be updated")))
      else
        update_result <~ settings_set fuel key value ;;
        match update_result with
        | Success _ =>
            ret (StateRet name (Some true) {[ key := (current_val, new_val) ]}
                   (Text ("Setting " +:+ key +:+ " updated to " +:+ new_val)))
        | Failure error =>
            ret (StateRet name (Some false) ∅
                   (Text ("Failed to update setting " +:+ key +:+ ": " +:+ error)))
        end
  end.

(** [settings_absent]; [changes] is [{key: {"old": .., "new": None}}],
    kept as the old value under the key, or [{}]. *)
Definition settings_absent (fuel : nat) (name key : string)
    : M (state_ret (gmap string scalar)) :=
  settings_info <~ settings_get ;;
  match settings_info with
  | Failure error =>
      ret (StateRet name (Some false) ∅
             (Text ("Failed to get server settings: " +:+ error)))
  | Success current_settings =>
      let current_config := dict_get (s_config current_settings) ∅ in
      match current_config !! key with
      | None =>
          ret (StateRet name (Some true) ∅
                 (Text ("Setting " +:+ key +:+ " already absent")))
      | Some current_val =>
          if test
          then ret (StateRet name None {[ key := current_val ]}
                      (Text ("Setting " +:+ key +:+ " would be removed")))
          else
            unset_result <~ settings_unset fuel key ;;
            match unset_result with
            | Success _ =>
                ret (StateRet name (Some true) {[ key := current_val ]}
                       (Text ("Setting " +:+ key +:+ " removed")))
            | Failure error =>
                ret (StateRet name (Some false) ∅
                       (Text ("Failed to remove setting " +:+ key +:+ ": " +:+ error)))
            end
      end
  end.

(** [settings_managed]; [changes] is [{"config": all_changes}] or [{}]. *)
Definition settings_managed (fuel : nat) (name : string) (config : option config_map)
    : M (state_ret (option (gmap string (scalar * option string)))) :=
  settings_info <~ settings_get ;;
  match settings_info with
  | Failure error =>
      ret (StateRet name (Some false) None
             (Text ("Failed to get server settings: " +:+ error)))
  | Success current_settings =>
      let current_config := dict_get (s_config current_settings) ∅ in
      let desired_config : gmap string string := py_str <$> dict_get config ∅ in
      let all_changes := managed_changes current_config desired_config in
      if bool_decide (all_changes = ∅)
      then ret (StateRet name (Some true) None
                  (Text "Server settings already match desired state exactly"))
      else if test
      then ret (StateRet name None (Some all_changes)
                  (Text "Server settings would be replaced"))
      else
        replace_result <~ settings_replace http clock sleep fuel
                            (Some (SStr <$> desired_config)) ;;
        match replace_result with
        | Success _ =>
            ret (StateRet name (Some true) (Some all_changes)
                   (Text "Server settings replaced"))
        | Failure error =>
            ret (StateRet name (Some false) None
                   (Text ("Failed to replace server settings: " +:+ error)))
        end
  end.

(** [volume_attached]; [changes] is [{"device": {"old": .., "new": ..}}]
    or [{}]. The dry run reports the new device with its [path] member
    whatever [path] is; the real run sends and reports [path] when it is
    set and not empty. The function does not use its parameter
    [volume_type]. *)
Definition volume_attached (fuel : nat) (name pool instance : string)
    (device_name path : option string)
    : M (state_ret (option (option config_map * config_map))) :=
  let device_name :=
    match device_name with
    | Some d => if bool_decide (d = EmptyString) then name else d
    | None => name
    end in
  instance_info <~ instance_get http quote instance ;;
  match instance_info with
  | Failure error =>
      ret (StateRet name (Some false) None
             (Text ("Failed to get instance " +:+ instance +:+ ": " +:+ error)))
  | Success instance_data =>
      let current_devices := dict_get (i_devices instance_data) ∅ in
      let attached :=
        match current_devices !! device_name with
        | Some device =>
            bool_decide (device !! "type" = Some (SStr "disk"))
            && bool_decide (device !! "pool" = Some (SStr pool))
            && bool_decide (device !! "source" = Some (SStr name))
        | None => false
        end in
      if attached
      then ret (StateRet name (Some true) None
                  (Text ("Volume " +:+ name +:+ " already attached to instance "
                         +:+ instance)))
      else if test
      then ret (StateRet name None
                  (Some (current_devices !! device_name,
                         <["path" := match path with
                                     | Some p => SStr p
                                     | None => SNone
                                     end]> (disk_device pool name)))
                  (Text ("Volume " +:+ name +:+ " would be attached to instance "
                         +:+ instance)))
      else
        let new_device :=
          match path with
          | Some p =>
              if bool_decide (p = EmptyString) then disk_device pool name
              else <["path" := SStr p]> (disk_device pool name)
          | None => disk_device pool name
          end in
        update_result <~ instance_update http clock sleep quote fuel instance
                           None (Some {[ device_name := new_device ]}) None ;;
        match update_result with
        | Success _ =>
            ret (StateRet name (Some true)
                   (Some (current_devices !! device_name, new_device))
                   (Text ("Volume " +:+ name +:+ " attached to instance "
                          +:+ instance)))
        | Failure error =>
            ret (StateRet name (Some false) None
                   (Text ("Failed to attach volume " +:+ name +:+ ": " +:+ error)))
        end
  end.

(** [instance_snapshot_absent]; [changes] is [{"snapshot": {"old": name,
    "new": None}}], kept as the name, or [{}]. *)
Definition instance_snapshot_absent (fuel : nat) (instance name : string)
    : M (state_ret (option string)) :=
  let ret_name := instance +:+ "/" +:+ name in
  instance_info <~ instance_get http quote instance ;;
  if negb (succeeded instance_info)
  then ret (StateRet ret_name (Some false) None
              (Text ("Instance " +:+ instance +:+ " does not exist")))
  else
    snapshots <~ instance_snapshot_list http quote instance 1 ;;
    match snapshots with
    | Failure error =>
        ret (StateRet ret_name (Some false) None
               (Text ("Failed to list snapshots: " +:+ error)))
    | Success snapshot_list =>
        if negb (existsb (λ s, String.eqb (snap_name s) name) snapshot_list)
        then ret (StateRet ret_name (Some true) None
                    (Text ("Snapshot " +:+ name +:+ " already absent from instance "
                           +:+ instance)))
        else if test
        then ret (StateRet ret_name None (Some name)
                    (Text ("Snapshot " +:+ name +:+ " would be deleted from instance "
                           +:+ instance)))
        else
          delete_result <~ instance_snapshot_delete http clock sleep quote fuel
                             instance name ;;
          match delete_result with
          | Success _ =>
              ret (StateRet ret_name (Some true) (Some name)
                     (Text ("Snapshot " +:+ name +:+ " deleted from instance "
                            +:+ instance)))
          | Failure error =>
              ret (StateRet ret_name (Some false) None
                     (Text ("Failed to delete snapshot " +:+ name +:+ ": " +:+ error)))
          end
    end.

End Settings.

(** * Properties *)

(** ** The request layer *)

Ltac unfold_monad :=
  unfold bind, ret, raise, out_of_fuel, subscript, time_time, time_sleep,
    session_request in *; simpl in *.

Section ClientFacts.

Context {W : Type}.
Variable http : request → W → transport_outcome * W.
Variable clock : W → Z.
Variable sleep : Z → W → W.

(** [_request] never raises and issues exactly one call. *)
Lemma request_spec m endpoint data recursion (w : world) :
  let req := Request m endpoint data recursion in
  _request http m endpoint data recursion w
  = (Returns (request_result (http req (env w)).1),
     World (http req (env w)).2 (trace w ++ [req])).
Proof.
  unfold _request. unfold_monad.
  destruct (http _ (env w)) as [o e']. reflexivity.
Qed.

(** The dict of the [except] branch fails the callers' test and names
    its error. *)
Lemma request_result_failure o :
  (∀ e, o ≠ Json e) →
  raised_status o →
  failed (request_result o) = true ∧ is_Some (get_error (request_result o)).
Proof.
  intros Ho Hst. destruct o as [msg|status msg|msg|body]; simpl in *.
  - split; [reflexivity | eexists; reflexivity].
  - split; [|eexists; reflexivity].
    unfold failed; simpl. destruct status; first lia; reflexivity.
  - split; [reflexivity | eexists; reflexivity].
  - exfalso. by apply (Ho body).
Qed.

(** *** What the wait protocol leaves unchanged

    A property of the world that sleeping and polling (a [GET]) preserve
    is preserved by the whole wait, and so by everything that
    [_sync_request] does after its own request. *)
Section Invariant.

Variable J : @world W → Prop.
Hypothesis J_sleep : ∀ d w, J w → J (World (sleep d (env w)) (trace w)).
Hypothesis J_get : ∀ url w,
  J w →
  J (World (http (Request GET url None None) (env w)).2
       (trace w ++ [Request GET url None None])).

Lemma wait_loop_invariant (poll : string → M result) :
  (∀ url w, J w → J (poll url w).2) →
  ∀ fuel url timeout interval started w,
    J w → J (wait_loop clock sleep poll fuel url timeout interval started w).2.
Proof.
  intros Hpoll. induction fuel as [|fuel IH]; intros url timeout interval started w Hw.
  - exact Hw.
  - simpl. unfold_monad.
    destruct (timeout <? clock (env w) - started); [exact Hw|].
    specialize (Hpoll (py_replace "/1.0/" "/" url) w Hw).
    destruct (poll _ w) as [[result| |] w1]; simpl in *; try exact Hpoll.
    destruct (failed result); [exact Hpoll|].
    destruct (non_terminal _).
    + apply IH. by apply J_sleep.
    + repeat case_bool_decide; exact Hpoll.
Qed.

Lemma wait_for_operation_invariant (poll : string → M result) :
  (∀ url w, J w → J (poll url w).2) →
  ∀ fuel url timeout interval w,
    J w → J (wait_for_operation clock sleep poll fuel url timeout interval w).2.
Proof.
  intros Hpoll fuel url timeout interval w Hw.
  unfold wait_for_operation. unfold_monad.
  destruct (negb _); [exact Hw|].
  by apply wait_loop_invariant.
Qed.

Lemma sync_request_invariant fuel :
  ∀ m endpoint data recursion w,
    J (_request http m endpoint data recursion w).2 →
    J (_sync_request http clock sleep fuel m endpoint data recursion w).2.
Proof.
  induction fuel as [|fuel IH]; intros m endpoint data recursion w;
    rewrite request_spec; simpl; intros Hw;
    unfold bind; rewrite request_spec; simpl;
    (destruct (py_ne0 _); [exact Hw|]);
    (case_bool_decide; [|exact Hw]);
    (destruct (get_operation _) as [op|]; [|exact Hw]);
    (case_bool_decide; [exact Hw|]).
  - exact Hw.
  - apply wait_for_operation_invariant; [|exact Hw].
    intros url w' Hw'. apply IH. rewrite request_spec. simpl. by apply J_get.
Qed.


End Invariant.

(** C10. A response without an [error_code] member comes back from
    [_sync_request] as it is, after the one request and without a single
    poll, whatever its [type] and [operation] members say: the default of
    the lookup differs from 0 as a non-zero code does. *)
Theorem sync_request_missing_error_code fuel m endpoint data recursion
    (w : world) e env' :
  http (Request m endpoint data recursion) (env w) = (Json e, env') →
  e_error_code e = None →
  _sync_request http clock sleep fuel m endpoint data recursion w
  = (Returns (Response e),
     World env' (trace w ++ [Request m endpoint data recursion])).
Proof.
  intros Hhttp Hcode.
  destruct fuel; simpl; unfold bind; rewrite request_spec, Hhttp; simpl;
    by rewrite Hcode.
Qed.

(** *** The operation state machine *)

Lemma wait_loop_timed_out (poll : string → M result) fuel url timeout interval
    started (w : world) :
  timeout < clock (env w) - started →
  wait_loop clock sleep poll (S fuel) url timeout interval started w
  = (Returns (WaitFailure "Timeout waiting for operation to finish" NoOperation), w).
Proof.
  intros Hlate. simpl. unfold_monad.
  by rewrite (proj2 (Z.ltb_lt _ _) Hlate).
Qed.


(** A wait that returns something passing the callers' test returns a
    polled response whose status code is 200. *)
Lemma wait_loop_success (poll : string → M result) fuel :
  ∀ url timeout interval started (w w' : world) r,
    wait_loop clock sleep poll fuel url timeout interval started w = (Returns r, w') →
    failed r = false →
    ∃ e, r = Response e
         ∧ dict_get (status_code (as_opmeta (e_metadata e))) SNone = SInt 200.
Proof.
  induction fuel as [|fuel IH]; intros url timeout interval started w w' r Hrun Hok.
  - discriminate.
  - simpl in Hrun. unfold_monad.
    destruct (timeout <? clock (env w) - started); [by simplify_eq|].
    destruct (poll _ w) as [[result| |] w1]; try discriminate.
    destruct (failed result) eqn:Hfailed; [by simplify_eq|].
    destruct (non_terminal _); [by eapply IH|].
    case_bool_decide as Hcode.
    + simplify_eq. destruct r as [e|]; [|discriminate]. by exists e.
    + case_bool_decide; by simplify_eq.
Qed.

Lemma wait_for_operation_success (poll : string → M result) fuel url timeout
    interval (w w' : world) r :
  wait_for_operation clock sleep poll fuel url timeout interval w = (Returns r, w') →
  failed r = false →
  ∃ e, r = Response e
       ∧ dict_get (status_code (as_opmeta (e_metadata e))) SNone = SInt 200.
Proof.
  unfold wait_for_operation. unfold_monad.
  destruct (negb _); [intros; by simplify_eq|].
  apply wait_loop_success.
Qed.

(** *** Termination under an advancing clock *)

Section Termination.

Hypothesis sleep_advances : ∀ d e, clock e + d <= clock (sleep d e).
Hypothesis http_takes_time : ∀ r e, clock e <= clock (http r e).2.
(** The control plane answers a poll with the operation, never with
    another operation to wait for. *)
Hypothesis polls_are_sync : ∀ url e,
  match (http (Request GET url None None) e).1 with
  | Json b => e_type b ≠ Some "async"
  | _ => True
  end.

Lemma poll_is_one_request fuel url (w : world) :
  _sync_request http clock sleep fuel GET url None None w
  = _request http GET url None None w.
Proof.
  pose proof (polls_are_sync url (env w)) as Hsync.
  destruct fuel; simpl; unfold bind; rewrite request_spec; simpl;
    (destruct (py_ne0 _); [reflexivity|]);
    (destruct ((http _ (env w)).1) as [msg|status msg|msg|b]; simpl;
     [reflexivity..|]);
    by rewrite bool_decide_eq_false_2.
Qed.

Lemma wait_loop_terminates fuel0 url timeout interval started :
  1 <= interval →
  ∀ (k fuel : nat) (w : world),
    timeout - (clock (env w) - started) < Z.of_nat k →
    (k < fuel)%nat →
    ∃ r w',
      wait_loop clock sleep
        (λ url, _sync_request http clock sleep fuel0 GET url None None)
        fuel url timeout interval started w = (Returns r, w').
Proof.
  intros Hinterval. induction k as [|k IH]; intros fuel w Hk Hfuel.
  - destruct fuel as [|fuel]; [lia|].
    rewrite wait_loop_timed_out; [eauto | lia].
  - destruct fuel as [|fuel]; [lia|].
    destruct (Z.ltb_spec timeout (clock (env w) - started)) as [Hlate|Hearly].
    { rewrite wait_loop_timed_out; [eauto | lia]. }
    simpl. unfold bind at 1. unfold time_time at 1.
    rewrite (proj2 (Z.ltb_ge _ _) Hearly).
    unfold bind at 1. rewrite poll_is_one_request, request_spec. simpl.
    destruct (failed _); [by unfold_monad; eauto|].
    destruct (non_terminal _).
    + unfold bind at 1. unfold time_sleep at 1.
      apply IH; [|lia]. simpl.
      pose proof (http_takes_time
                    (Request GET (py_replace "/1.0/" "/" url) None None) (env w)).
      pose proof (sleep_advances interval
                    (http (Request GET (py_replace "/1.0/" "/" url) None None)
                       (env w)).2).
      lia.
    + repeat case_bool_decide; unfold_monad; eauto.
Qed.

Lemma wait_for_operation_terminates fuel0 url timeout interval fuel (w : world) :
  1 <= interval →
  (Z.to_nat timeout + 1 < fuel)%nat →
  ∃ r w',
    wait_for_operation clock sleep
      (λ url, _sync_request http clock sleep fuel0 GET url None None)
      fuel url timeout interval w = (Returns r, w').
Proof.
  intros Hinterval Hfuel.
  unfold wait_for_operation.
  unfold bind at 1. unfold time_time at 1.
  destruct (negb _); [by unfold_monad; eauto|].
  apply (wait_loop_terminates fuel0 url timeout interval _ Hinterval
           (Z.to_nat timeout + 1)); lia.
Qed.

(** Every failing body that the control plane sends names its error, as
    the error envelope of the wire contract does. *)
Hypothesis errors_are_named : ∀ r e b,
  (http r e).1 = Json b → failed (Response b) = true → is_Some (e_error b).

Lemma request_names_error r e :
  failed (request_result (http r e).1) = true →
  is_Some (get_error (request_result (http r e).1)).
Proof.
  intros Hfailed.
  destruct ((http r e).1) as [msg|status msg|msg|b] eqn:Ho; simpl;
    try (eexists; reflexivity).
  by eapply errors_are_named.
Qed.

Lemma wait_loop_names_error (poll : string → M result) fuel :
  ∀ url timeout interval started (w w' : world) r,
    wait_loop clock sleep poll fuel url timeout interval started w = (Returns r, w') →
    failed r = true → is_Some (get_error r).
Proof.
  induction fuel as [|fuel IH]; intros url timeout interval started w w' r Hrun Hfailed.
  - discriminate.
  - simpl in Hrun. unfold_monad.
    destruct (timeout <? clock (env w) - started);
      [simplify_eq; eexists; reflexivity|].
    destruct (poll _ w) as [[result| |] w1]; try discriminate.
    destruct (failed result) eqn:Hres; [simplify_eq; eexists; reflexivity|].
    destruct (non_terminal _); [by eapply IH|].
    repeat case_bool_decide; simplify_eq; try (eexists; reflexivity).
    congruence.
Qed.

(** With the defaults [timeout=300] and [interval=1] a wait takes at most
    302 rounds: [_sync_request] returns, and a result that fails the
    callers' test has an [error] member to read. *)
Lemma sync_request_returns fuel m endpoint data recursion (w : world) :
  (302 ≤ fuel)%nat →
  ∃ r w',
    _sync_request http clock sleep fuel m endpoint data recursion w = (Returns r, w')
    ∧ (failed r = true → is_Some (get_error r)).
Proof.
  intros Hfuel. destruct fuel as [|fuel]; [lia|].
  simpl. unfold bind at 1. rewrite request_spec. simpl.
  set (req := Request m endpoint data recursion).
  pose proof (request_names_error req (env w)) as Hnamed.
  destruct (py_ne0 _); [unfold ret; eauto|].
  case_bool_decide; [|unfold ret; eauto].
  destruct (get_operation _) as [op|]; [|unfold ret; eauto].
  case_bool_decide; [unfold ret; eauto|].
  destruct (wait_for_operation_terminates fuel op 300 1 (S fuel)
              (World (http req (env w)).2 (trace w ++ [req])))
    as (r & w' & Hrun); [lia|lia|].
  exists r, w'. split; [exact Hrun|].
  revert Hrun. unfold wait_for_operation. unfold bind at 1.
  unfold time_time at 1.
  destruct (negb _); [unfold ret; intros; simplify_eq; eexists; reflexivity|].
  apply wait_loop_names_error.
Qed.

End Termination.


End ClientFacts.

(** ** The accessors *)

Lemma mutations_app t1 t2 : mutations (t1 ++ t2) = mutations t1 ++ mutations t2.
Proof. unfold mutations. by rewrite List.filter_app. Qed.

Lemma dict_update_lookup {A} (current new : gmap string A) k :
  dict_update current new !! k
  = match new !! k with
    | Some v => Some v
    | None => current !! k
    end.
Proof.
  unfold dict_update. destruct (new !! k) as [v|] eqn:Hnew.
  - by apply lookup_union_Some_l.
  - by rewrite lookup_union_r.
Qed.

Lemma truthy_Some {A} (d : option (gmap string A)) m :
  truthy d = Some m → d = Some m ∧ m ≠ ∅.
Proof.
  destruct d as [m'|]; simpl; [|discriminate].
  case_bool_decide; [discriminate|]. intros; by simplify_eq.
Qed.


(** The loop over the desired devices, device by device. *)
Lemma merge_devices_lookup (current devices : device_map) d :
  merge_devices current devices !! d
  = match devices !! d with
    | Some dev_conf =>
        Some (match current !! d with
              | Some existing => dict_update existing dev_conf
              | None => dev_conf
              end)
    | None => current !! d
    end.
Proof.
  unfold merge_devices.
  induction devices as [|name conf devices Hfresh Hfold IH] using map_first_key_ind.
  - by rewrite map_fold_empty, lookup_empty.
  - rewrite map_fold_insert_first_key by done.
    set (acc := map_fold _ current devices) in *.
    destruct (decide (name = d)) as [->|Hne].
    + rewrite lookup_insert_eq. rewrite Hfresh in IH.
      rewrite <- IH. destruct (acc !! d); by rewrite lookup_insert_eq.
    + rewrite (lookup_insert_ne devices) by done. rewrite <- IH.
      destruct (acc !! name); by rewrite lookup_insert_ne.
Qed.

Section AccessorFacts.

Context {W : Type}.
Variable http : request → W → transport_outcome * W.
Variable clock : W → Z.
Variable sleep : Z → W → W.
Variable quote : string → string.

(** A continuation that leaves the world alone does not change where the
    computation ends. *)
Lemma bind_world {A B} (m : M A) (k : A → M B) (w : @world W) :
  (∀ a w', (k a w').2 = w') → (bind m k w).2 = (m w).2.
Proof.
  intros Hk. unfold bind. destruct (m w) as [[a|e|] w']; simpl; auto.
Qed.

Lemma failure_of_world {A} (r : result) (w : @world W) :
  (failure_of (A := A) r w).2 = w.
Proof. unfold failure_of. unfold_monad. by destruct (get_error r). Qed.

(** [_sync_request] adds its own request to the mutations of the log, if
    it is one, and nothing else: the polls are reads. *)
Lemma sync_request_mutations fuel m endpoint data recursion (w : world) :
  mutations (trace (_sync_request http clock sleep fuel m endpoint data recursion w).2)
  = mutations (trace w) ++ mutations [Request m endpoint data recursion].
Proof.
  apply (sync_request_invariant http clock sleep
           (λ w', mutations (trace w')
                  = mutations (trace w) ++ mutations [Request m endpoint data recursion])).
  - done.
  - intros url w' Hw'. simpl. by rewrite mutations_app, Hw', app_nil_r.
  - rewrite request_spec. simpl. by rewrite mutations_app.
Qed.

Lemma instance_get_spec name (w : world) :
  let req := Request GET ("/instances/" +:+ quote name) None None in
  let result := request_result (http req (env w)).1 in
  instance_get http quote name w
  = (if failed result
     then match get_error result with
          | Some error => Returns (Failure error)
          | None => Raises (KeyError "error")
          end
     else Returns (Success (as_instance (get_metadata result))),
     World (http req (env w)).2 (trace w ++ [req])).
Proof.
  unfold instance_get, bind. rewrite request_spec. simpl.
  destruct (failed _); [|reflexivity].
  unfold failure_of. unfold_monad. by destruct (get_error _).
Qed.

Lemma instance_get_found name (w : world) e env1 :
  http (Request GET ("/instances/" +:+ quote name) None None) (env w) = (Json e, env1) →
  failed (Response e) = false →
  instance_get http quote name w
  = (Returns (Success (as_instance (e_metadata e))),
     World env1 (trace w ++ [Request GET ("/instances/" +:+ quote name) None None])).
Proof.
  intros Hhttp Hok. rewrite instance_get_spec. simpl. rewrite Hhttp. simpl.
  by rewrite Hok.
Qed.

(** On a live object that has its [config] and [devices] members the
    fields are updated without an exception. *)
Lemma update_fields_spec live config devices profiles (w : @world W) C Dv :
  i_config live = Some C →
  i_devices live = Some Dv →
  update_fields live config devices profiles w
  = (Returns
       (Instance (i_name live) (i_status live)
          (Some (dict_update C (dict_get (truthy config) ∅)))
          (Some (merge_devices Dv (dict_get (truthy devices) ∅)))
          (match profiles with
           | Some profiles => Some profiles
           | None => i_profiles live
           end)), w).
Proof.
  intros HC HDv. unfold update_fields.
  assert (dict_update C ∅ = C) as HC0 by (unfold dict_update; apply (left_id _ _)).
  assert (merge_devices Dv ∅ = Dv) as HD0 by (unfold merge_devices; apply map_fold_empty).
  destruct live as [n st c d p]; simpl in *; subst c d.
  destruct (truthy config), (truthy devices), profiles; unfold_monad;
    by rewrite ?HC0, ?HD0.
Qed.

Lemma instance_update_found fuel name config devices profiles (w : world)
    e env1 C Dv :
  http (Request GET ("/instances/" +:+ quote name) None None) (env w) = (Json e, env1) →
  failed (Response e) = false →
  i_config (as_instance (e_metadata e)) = Some C →
  i_devices (as_instance (e_metadata e)) = Some Dv →
  instance_update http clock sleep quote fuel name config devices profiles w
  = bind
      (_sync_request http clock sleep fuel PUT ("/instances/" +:+ quote name)
         (Some (BInstance
                  (Instance (i_name (as_instance (e_metadata e)))
                     (i_status (as_instance (e_metadata e)))
                     (Some (dict_update C (dict_get (truthy config) ∅)))
                     (Some (merge_devices Dv (dict_get (truthy devices) ∅)))
                     (match profiles with
                      | Some profiles => Some profiles
                      | None => i_profiles (as_instance (e_metadata e))
                      end)))) None)
      (λ result,
         if failed result then failure_of result
         else ret (Success ("Instance " +:+ name +:+ " updated successfully")))
      (World env1 (trace w ++ [Request GET ("/instances/" +:+ quote name) None None])).
Proof.
  intros Hhttp Hok HC HDv. unfold instance_update.
  unfold bind at 1. rewrite (instance_get_found _ _ _ _ Hhttp Hok).
  unfold bind at 1. by rewrite (update_fields_spec _ _ _ _ _ C Dv).
Qed.

Lemma instance_update_mutations fuel name config devices profiles (w : world)
    e env1 C Dv :
  http (Request GET ("/instances/" +:+ quote name) None None) (env w) = (Json e, env1) →
  failed (Response e) = false →
  i_config (as_instance (e_metadata e)) = Some C →
  i_devices (as_instance (e_metadata e)) = Some Dv →
  mutations
    (trace (instance_update http clock sleep quote fuel name config devices profiles w).2)
  = mutations (trace w)
    ++ [Request PUT ("/instances/" +:+ quote name)
          (Some (BInstance
                   (Instance (i_name (as_instance (e_metadata e)))
                      (i_status (as_instance (e_metadata e)))
                      (Some (dict_update C (dict_get (truthy config) ∅)))
                      (Some (merge_devices Dv (dict_get (truthy devices) ∅)))
                      (match profiles with
                       | Some profiles => Some profiles
                       | None => i_profiles (as_instance (e_metadata e))
                       end)))) None].
Proof.
  intros Hhttp Hok HC HDv.
  rewrite (instance_update_found _ _ _ _ _ _ _ _ _ _ Hhttp Hok HC HDv).
  rewrite bind_world.
  - rewrite sync_request_mutations. simpl.
    by rewrite mutations_app, app_nil_r.
  - intros r w'. destruct (failed r); [apply failure_of_world|reflexivity].
Qed.

Lemma settings_update_mutations fuel D (w : world) e env1 :
  D ≠ ∅ →
  http (Request GET EmptyString None None) (env w) = (Json e, env1) →
  failed (Response e) = false →
  mutations (trace (settings_update http clock sleep fuel (Some D) w).2)
  = mutations (trace w)
    ++ [Request PUT EmptyString
          (Some (BSettings
                   (Settings
                      (Some (dict_update
                               (dict_get (s_config (as_settings (e_metadata e))) ∅) D))
                      (s_rest (as_settings (e_metadata e)))))) None].
Proof.
  intros HD Hhttp Hok. unfold settings_update. simpl.
  rewrite bool_decide_eq_false_2 by done.
  unfold bind at 1. rewrite request_spec, Hhttp. simpl. rewrite Hok.
  rewrite bind_world.
  - rewrite sync_request_mutations. simpl.
    by rewrite mutations_app, app_nil_r.
  - intros r w'. by destruct (failed r).
Qed.

Lemma settings_replace_mutations fuel D (w : world) e env1 :
  D ≠ ∅ →
  http (Request GET EmptyString None None) (env w) = (Json e, env1) →
  failed (Response e) = false →
  mutations (trace (settings_replace http clock sleep fuel (Some D) w).2)
  = mutations (trace w)
    ++ [Request PUT EmptyString
          (Some (BSettings (Settings (Some D) (s_rest (as_settings (e_metadata e))))))
          None].
Proof.
  intros HD Hhttp Hok. unfold settings_replace. simpl.
  rewrite bool_decide_eq_false_2 by done.
  unfold bind at 1. rewrite request_spec, Hhttp. simpl. rewrite Hok.
  rewrite bind_world.
  - rewrite sync_request_mutations. simpl.
    by rewrite mutations_app, app_nil_r.
  - intros r w'. by destruct (failed r).
Qed.

(** The object that [storage_pool_update], [volume_update] and
    [network_update] send back, when the live object came without an
    [error] member and has its [config]. *)
Lemma update_config_and_description_spec data config description
    (w : @world W) C :
  res_config data = Some C →
  update_config_and_description data config description w
  = (Returns
       (Resource (Some (dict_update C (dict_get (truthy config) ∅)))
          (match description with
           | Some description => Some description
           | None => res_description data
           end) (res_rest data)), w).
Proof.
  intros HC. unfold update_config_and_description.
  assert (dict_update C ∅ = C) as HC0 by (unfold dict_update; apply (left_id _ _)).
  destruct data as [c d r]; simpl in *; subst c.
  destruct (truthy config), description; unfold_monad; by rewrite ?HC0.
Qed.

Lemma storage_pool_update_mutations fuel name config description (w : world)
    e env1 C :
  http (Request GET ("/storage-pools/" +:+ quote name) None None) (env w)
  = (Json e, env1) →
  e_error e = None →
  res_config (as_resource (e_metadata e)) = Some C →
  mutations
    (trace (storage_pool_update http clock sleep quote fuel name config
              description w).2)
  = mutations (trace w)
    ++ [Request PUT ("/storage-pools/" +:+ quote name)
          (Some (BResource
                   (Resource (Some (dict_update C (dict_get (truthy config) ∅)))
                      (match description with
                       | Some description => Some description
                       | None => res_description (as_resource (e_metadata e))
                       end) (res_rest (as_resource (e_metadata e)))))) None].
Proof.
  intros Hhttp Herror HC. unfold storage_pool_update.
  unfold bind at 1. rewrite request_spec, Hhttp. simpl. rewrite Herror.
  unfold bind at 1. rewrite (update_config_and_description_spec _ _ _ _ C HC).
  rewrite bind_world.
  - rewrite sync_request_mutations. simpl.
    by rewrite mutations_app, app_nil_r.
  - intros r w'. destruct (failed r); [apply failure_of_world|reflexivity].
Qed.

Lemma volume_update_mutations fuel pool name volume_type config description
    (w : world) e env1 C :
  http (Request GET ("/storage-pools/" +:+ quote pool +:+ "/volumes/"
                     +:+ volume_type +:+ "/" +:+ quote name) None None) (env w)
  = (Json e, env1) →
  e_error e = None →
  res_config (as_resource (e_metadata e)) = Some C →
  mutations
    (trace (volume_update http clock sleep quote fuel pool name volume_type config
              description w).2)
  = mutations (trace w)
    ++ [Request PUT ("/storage-pools/" +:+ quote pool +:+ "/volumes/"
                     +:+ volume_type +:+ "/" +:+ quote name)
          (Some (BResource
                   (Resource (Some (dict_update C (dict_get (truthy config) ∅)))
                      (match description with
                       | Some description => Some description
                       | None => res_description (as_resource (e_metadata e))
                       end) (res_rest (as_resource (e_metadata e)))))) None].
Proof.
  intros Hhttp Herror HC. unfold volume_update.
  unfold bind at 1. rewrite request_spec, Hhttp. simpl. rewrite Herror.
  unfold bind at 1. rewrite (update_config_and_description_spec _ _ _ _ C HC).
  rewrite bind_world.
  - rewrite sync_request_mutations. simpl.
    by rewrite mutations_app, app_nil_r.
  - intros r w'. destruct (failed r); [apply failure_of_world|reflexivity].
Qed.

Lemma network_update_mutations fuel name config (w : world) e env1 C :
  http (Request GET ("/networks/" +:+ quote name) None None) (env w)
  = (Json e, env1) →
  e_error e = None →
  res_config (as_resource (e_metadata e)) = Some C →
  mutations (trace (network_update http clock sleep quote fuel name config w).2)
  = mutations (trace w)
    ++ [Request PUT ("/networks/" +:+ quote name)
          (Some (BResource
                   (Resource (Some (dict_update C config))
                      (res_description (as_resource (e_metadata e)))
                      (res_rest (as_resource (e_metadata e)))))) None].
Proof.
  intros Hhttp Herror HC. unfold network_update.
  unfold bind at 1. rewrite request_spec, Hhttp. simpl. rewrite Herror, HC.
  unfold bind at 1. simpl.
  rewrite bind_world.
  - rewrite sync_request_mutations. simpl.
    by rewrite mutations_app, app_nil_r.
  - intros r w'. destruct (failed r); [apply failure_of_world|reflexivity].
Qed.

Lemma dict_update_truthy {A} (C D : gmap string A) :
  dict_update C (dict_get (truthy (Some D)) ∅) = dict_update C D.
Proof.
  simpl. case_bool_decide as HD; [|done]. by rewrite HD.
Qed.


End AccessorFacts.

(** ** The sort of the rotation *)

Lemma string_leb_refl a : String.leb a a = true.
Proof. by destruct (String.leb_total a a). Qed.

Lemma string_leb_trans a b c :
  String.leb a b = true → String.leb b c = true → String.leb a c = true.
Proof.
  revert b c. induction a as [|x a IH]; intros [|y b] [|z c];
    unfold String.leb; simpl; try done.
  unfold Ascii.compare.
  destruct (N.compare_spec (N_of_ascii x) (N_of_ascii y)) as [Hxy|Hxy|Hxy],
    (N.compare_spec (N_of_ascii y) (N_of_ascii z)) as [Hyz|Hyz|Hyz],
    (N.compare_spec (N_of_ascii x) (N_of_ascii z)) as [Hxz|Hxz|Hxz];
    try done; try lia.
  apply IH.
Qed.

Local Abbreviation older_or_same x y :=
  (String.leb (created_at x) (created_at y) = true).

Lemma insert_by_created_perm s l : insert_by_created s l ≡ₚ s :: l.
Proof.
  induction l as [|x l IH]; simpl; [done|].
  destruct (String.leb _ _); [done|].
  rewrite IH. apply Permutation_swap.
Qed.

Lemma sort_by_created_perm l : sort_by_created l ≡ₚ l.
Proof.
  induction l as [|x l IH]; simpl; [done|].
  by rewrite insert_by_created_perm, IH.
Qed.

Lemma insert_by_created_sorted s l :
  StronglySorted (λ x y, older_or_same x y) l →
  StronglySorted (λ x y, older_or_same x y) (insert_by_created s l).
Proof.
  induction 1 as [|x l Hsorted IH Hx]; simpl.
  - repeat constructor.
  - destruct (String.leb (created_at s) (created_at x)) eqn:Hs.
    + constructor; [by constructor|].
      constructor; [done|].
      eapply Forall_impl; [exact Hx|]. simpl. intros y Hy.
      by eapply string_leb_trans.
    + constructor; [exact IH|].
      rewrite insert_by_created_perm. constructor; [|exact Hx].
      destruct (String.leb_total (created_at s) (created_at x)); congruence.
Qed.

Lemma sort_by_created_sorted l :
  StronglySorted (λ x y, older_or_same x y) (sort_by_created l).
Proof.
  induction l as [|x l IH]; simpl; [constructor|].
  by apply insert_by_created_sorted.
Qed.

(** The sort is stable: the snapshots of one timestamp keep the order
    they had. *)
Lemma insert_by_created_stable t s l :
  filter (λ x, created_at x = t) (insert_by_created s l)
  = filter (λ x, created_at x = t) (s :: l).
Proof.
  induction l as [|x l IH]; simpl; [done|].
  destruct (String.leb (created_at s) (created_at x)) eqn:Hs; [done|].
  rewrite filter_cons, IH, !filter_cons.
  destruct (decide (created_at x = t)) as [Hx|Hx];
    destruct (decide (created_at s = t)) as [Hst|Hst]; try done.
  exfalso. rewrite Hx, Hst, string_leb_refl in Hs. discriminate.
Qed.

Lemma sort_by_created_stable t l :
  filter (λ x, created_at x = t) (sort_by_created l)
  = filter (λ x, created_at x = t) l.
Proof.
  induction l as [|x l IH]; simpl; [done|].
  by rewrite insert_by_created_stable, !filter_cons, IH.
Qed.

Lemma py_slice_to_take {A} (k : Z) (l : list A) :
  0 <= k → py_slice_to k l = take (Z.to_nat k) l.
Proof.
  intros Hk. unfold py_slice_to. by rewrite (proj2 (Z.ltb_ge _ _) Hk).
Qed.

(** ** Snapshot rotation *)

Section RotationFacts.

Context {W : Type}.
Variable http : request → W → transport_outcome * W.
Variable clock : W → Z.
Variable sleep : Z → W → W.
Variable quote : string → string.
Variable fnmatch : string → string → bool.

(** The request that deletes one snapshot. *)
Local Abbreviation delete_request instance s :=
  (Request DELETE
     ("/instances/" +:+ quote instance +:+ "/snapshots/" +:+ quote (snap_name s))
     None None).

Lemma to_delete_take pattern keep current_snapshots :
  0 <= keep →
  to_delete fnmatch pattern keep current_snapshots
  = take (length (matching_snapshots fnmatch pattern current_snapshots)
          - Z.to_nat keep)
      (matching_snapshots fnmatch pattern current_snapshots).
Proof.
  intros Hkeep. unfold to_delete.
  set (matching := matching_snapshots fnmatch pattern current_snapshots).
  destruct (Z.leb_spec (Z.of_nat (length matching)) keep) as [Hle|Hgt].
  - replace (length matching - Z.to_nat keep)%nat with 0%nat by lia. done.
  - rewrite py_slice_to_take by lia. f_equal. lia.
Qed.

(** There is one attempt for each snapshot, in order. *)
Lemma delete_attempts_snapshots fuel instance (w w' : world) selected attempts :
  delete_attempts http clock sleep quote fuel instance w selected attempts w' →
  attempts.*1 = selected.
Proof. induction 1; simpl; [done|]. by f_equal. Qed.

(** A name is reported as deleted, or listed as failed, according to
    what its delete returned. *)
Lemma deleted_names_spec attempts name :
  name ∈ deleted_names attempts
  ↔ ∃ s msg, (s, Success msg) ∈ attempts ∧ snap_name s = name.
Proof.
  unfold deleted_names. rewrite list_elem_of_omap. split.
  - intros ([s [msg|error]] & Hin & Heq); simpl in *; simplify_eq. eauto.
  - intros (s & msg & Hin & <-). by exists (s, Success msg).
Qed.

Lemma failed_deletes_spec attempts name error :
  FailedDelete name error ∈ failed_deletes attempts
  ↔ ∃ s, (s, Failure error) ∈ attempts ∧ snap_name s = name.
Proof.
  unfold failed_deletes. rewrite list_elem_of_omap. split.
  - intros ([s [msg|error']] & Hin & Heq); simpl in *; simplify_eq. eauto.
  - intros (s & Hin & <-). by exists (s, Failure error).
Qed.

Lemma instance_get_mutations name (w : world) :
  mutations (trace (instance_get http quote name w).2) = mutations (trace w).
Proof.
  rewrite instance_get_spec. simpl. by rewrite mutations_app, app_nil_r.
Qed.

Lemma instance_snapshot_list_spec instance recursion (w : world) :
  let req := Request GET ("/instances/" +:+ quote instance +:+ "/snapshots")
               None (Some recursion) in
  let result := request_result (http req (env w)).1 in
  instance_snapshot_list http quote instance recursion w
  = (if failed result
     then match get_error result with
          | Some error => Returns (Failure error)
          | None => Raises (KeyError "error")
          end
     else Returns (Success (as_snapshots (get_metadata result))),
     World (http req (env w)).2 (trace w ++ [req])).
Proof.
  unfold instance_snapshot_list, bind. rewrite request_spec. simpl.
  destruct (failed _); [|reflexivity].
  unfold failure_of. unfold_monad. by destruct (get_error _).
Qed.

Lemma instance_snapshot_list_mutations instance recursion (w : world) :
  mutations (trace (instance_snapshot_list http quote instance recursion w).2)
  = mutations (trace w).
Proof.
  rewrite instance_snapshot_list_spec. simpl. by rewrite mutations_app, app_nil_r.
Qed.

(** In dry-run the state reports the names of [to_delete] and leaves the
    world as the two reads left it. *)
Lemma rotated_dry_run fuel instance pattern keep (w w1 w2 : world) i
    current_snapshots :
  0 <= keep →
  instance_get http quote instance w = (Returns (Success i), w1) →
  instance_snapshot_list http quote instance 1 w1
  = (Returns (Success current_snapshots), w2) →
  ∃ r,
    instance_snapshots_rotated http clock sleep quote fnmatch true fuel
      instance pattern keep w = (Returns r, w2)
    ∧ ret_changes r
      = match to_delete fnmatch pattern keep current_snapshots with
        | [] => None
        | selected => Some (snap_name <$> selected)
        end
    ∧ ret_result r
      = match to_delete fnmatch pattern keep current_snapshots with
        | [] => Some true
        | _ => None
        end.
Proof.
  intros Hkeep Hget Hlist. unfold instance_snapshots_rotated, to_delete.
  unfold bind at 1. rewrite Hget. simpl.
  unfold bind at 1. rewrite Hlist.
  set (matching := matching_snapshots fnmatch pattern current_snapshots).
  destruct (Z.leb_spec (Z.of_nat (length matching)) keep) as [Hle|Hgt].
  - eexists. split; [reflexivity|]. done.
  - eexists. split; [reflexivity|]. simpl.
    rewrite py_slice_to_take by lia.
    destruct matching as [|x matching']; simpl in *; [lia|].
    destruct (Z.to_nat _) eqn:Hn; [lia|]. done.
Qed.

Section Aggregation.

Hypothesis sleep_advances : ∀ d e, clock e + d <= clock (sleep d e).
Hypothesis http_takes_time : ∀ r e, clock e <= clock (http r e).2.
Hypothesis polls_are_sync : ∀ url e,
  match (http (Request GET url None None) e).1 with
  | Json b => e_type b ≠ Some "async"
  | _ => True
  end.
Hypothesis errors_are_named : ∀ r e b,
  (http r e).1 = Json b → failed (Response b) = true → is_Some (e_error b).

(** One delete returns a success or a failure, and logs its request. *)
Lemma instance_snapshot_delete_returns fuel instance snapshot_name (w : world) :
  (302 ≤ fuel)%nat →
  ∃ (o : exec_result string) w',
    instance_snapshot_delete http clock sleep quote fuel instance snapshot_name w
    = (Returns o, w')
    ∧ mutations (trace w')
      = mutations (trace w)
        ++ [Request DELETE
              ("/instances/" +:+ quote instance +:+ "/snapshots/"
               +:+ quote snapshot_name) None None].
Proof.
  intros Hfuel. unfold instance_snapshot_delete.
  set (endpoint := "/instances/" +:+ quote instance +:+ "/snapshots/"
                   +:+ quote snapshot_name).
  pose proof (sync_request_mutations http clock sleep fuel DELETE endpoint
                None None w) as Hmut.
  destruct (sync_request_returns http clock sleep sleep_advances http_takes_time
              polls_are_sync errors_are_named fuel DELETE endpoint None None w Hfuel)
    as (r & w' & Hrun & Hnamed).
  rewrite Hrun in Hmut. simpl in Hmut.
  unfold bind. rewrite Hrun.
  destruct (failed r) eqn:Hfailed.
  - destruct (Hnamed eq_refl) as [error Herror].
    exists (Failure error), w'. split; [|exact Hmut].
    unfold failure_of. unfold_monad. by rewrite Herror.
  - eexists _, w'. split; [reflexivity|exact Hmut].
Qed.

(** The loop attempts the delete of every selected snapshot, in order,
    whatever the earlier deletes came to, and sorts the names into the
    deleted and the failed by what each delete returned. *)
Lemma delete_old_snapshots_spec fuel instance selected :
  (302 ≤ fuel)%nat →
  ∀ deleted0 failed0 (w : world),
    ∃ attempts w',
      delete_attempts http clock sleep quote fuel instance w selected attempts w'
      ∧ delete_old_snapshots http clock sleep quote fuel instance selected
          deleted0 failed0 w
        = (Returns (deleted0 ++ deleted_names attempts,
                    failed0 ++ failed_deletes attempts), w')
      ∧ mutations (trace w')
        = mutations (trace w) ++ ((λ s, delete_request instance s) <$> selected).
Proof.
  intros Hfuel. induction selected as [|snap rest IH]; intros deleted0 failed0 w.
  - exists [], w. split; [constructor|]. simpl. by rewrite !app_nil_r.
  - destruct (instance_snapshot_delete_returns fuel instance (snap_name snap) w Hfuel)
      as (o & w1 & Hrun & Hmut).
    simpl. unfold bind. rewrite Hrun.
    destruct o as [msg|error].
    + destruct (IH (deleted0 ++ [snap_name snap]) failed0 w1)
        as (attempts & w' & Hattempts & Hloop & Hmut').
      exists ((snap, Success msg) :: attempts), w'. split; [|split].
      * by econstructor.
      * rewrite Hloop. unfold deleted_names, failed_deletes. simpl.
        by rewrite <- app_assoc.
      * rewrite Hmut', Hmut. by rewrite <- app_assoc.
    + destruct (IH deleted0 (failed0 ++ [FailedDelete (snap_name snap) error]) w1)
        as (attempts & w' & Hattempts & Hloop & Hmut').
      exists ((snap, Failure error) :: attempts), w'. split; [|split].
      * by econstructor.
      * rewrite Hloop. unfold deleted_names, failed_deletes. simpl.
        by rewrite <- app_assoc.
      * rewrite Hmut', Hmut. by rewrite <- app_assoc.
Qed.

(** The real run: every selected snapshot is attempted, the changes
    report the names whose delete succeeded, the comment lists the ones
    whose delete failed, and the result is [True] exactly when none
    failed. *)
Lemma rotated_real_run fuel instance pattern keep (w w1 w2 : world) i
    current_snapshots :
  (302 ≤ fuel)%nat →
  instance_get http quote instance w = (Returns (Success i), w1) →
  instance_snapshot_list http quote instance 1 w1
  = (Returns (Success current_snapshots), w2) →
  ∃ r attempts w',
    instance_snapshots_rotated http clock sleep quote fnmatch false fuel
      instance pattern keep w = (Returns r, w')
    ∧ delete_attempts http clock sleep quote fuel instance w2
        (to_delete fnmatch pattern keep current_snapshots) attempts w'
    ∧ mutations (trace w')
      = mutations (trace w)
        ++ ((λ s, delete_request instance s)
              <$> to_delete fnmatch pattern keep current_snapshots)
    ∧ ret_changes r
      = match deleted_names attempts with
        | [] => None
        | deleted => Some deleted
        end
    ∧ (failed_deletes attempts ≠ [] →
       ret_comment r = FailedToDeleteSome (failed_deletes attempts))
    ∧ (ret_result r = Some true ↔ failed_deletes attempts = []).
Proof.
  intros Hfuel Hget Hlist.
  assert (mutations (trace w2) = mutations (trace w)) as Hreads.
  { pose proof (instance_get_mutations instance w) as H1.
    pose proof (instance_snapshot_list_mutations instance 1 w1) as H2.
    rewrite Hget in H1. rewrite Hlist in H2. simpl in *. congruence. }
  unfold instance_snapshots_rotated, to_delete.
  unfold bind at 1. rewrite Hget. simpl.
  unfold bind at 1. rewrite Hlist.
  set (matching := matching_snapshots fnmatch pattern current_snapshots).
  destruct (Z.of_nat (length matching) <=? keep).
  - eexists _, [], w2. split; [reflexivity|]. split; [constructor|]. simpl.
    rewrite app_nil_r. repeat split; done.
  - set (selected := py_slice_to (Z.of_nat (length matching) - keep) matching).
    destruct (delete_old_snapshots_spec fuel instance selected Hfuel [] [] w2)
      as (attempts & w' & Hattempts & Hloop & Hmut).
    simpl in Hloop. unfold bind. rewrite Hloop.
    destruct (failed_deletes attempts) as [|f failed] eqn:Hfailed.
    + eexists _, attempts, w'. split; [reflexivity|]. split; [exact Hattempts|].
      rewrite Hfailed, <- Hreads. simpl.
      repeat split; try done; by destruct (deleted_names attempts).
    + eexists _, attempts, w'. split; [reflexivity|]. split; [exact Hattempts|].
      rewrite Hfailed, <- Hreads. simpl.
      repeat split; try done; by destruct (deleted_names attempts).
Qed.

End Aggregation.



End RotationFacts.

(** ** The states *)

(** The config diff is empty once the live config holds, for every
    desired key, the desired string. *)
Lemma config_diff_merged (C config : config_map) :
  (∀ k v, config !! k = Some v → ∃ str, v = SStr str) →
  config_diff (dict_update C config) config = ∅.
Proof.
  intros Hstr. apply map_eq. intros k.
  unfold config_diff. rewrite map_lookup_imap, lookup_empty.
  destruct (config !! k) as [v|] eqn:Hk; simpl; [|done].
  destruct (Hstr k v Hk) as [str ->]. simpl.
  rewrite dict_update_lookup, Hk. by rewrite bool_decide_eq_true_2.
Qed.

(** The device diff is empty once every desired device is live as
    desired; merging leaves it so when the desired device names every
    property of the live one. *)
Lemma device_diff_merged (Dv devices : device_map) :
  (∀ d conf old k,
     devices !! d = Some conf → Dv !! d = Some old →
     is_Some (old !! k) → is_Some (conf !! k)) →
  device_diff (merge_devices Dv devices) devices = ∅.
Proof.
  intros Hcover. apply map_eq. intros d.
  unfold device_diff. rewrite map_lookup_imap, lookup_empty.
  destruct (devices !! d) as [conf|] eqn:Hd; simpl; [|done].
  rewrite merge_devices_lookup, Hd.
  rewrite bool_decide_eq_true_2; [done|]. f_equal.
  destruct (Dv !! d) as [old|] eqn:Hold; [|done].
  apply map_eq. intros k. rewrite dict_update_lookup.
  destruct (conf !! k) as [v|] eqn:Hk; [done|].
  destruct (old !! k) as [v'|] eqn:Hk'; [|done].
  destruct (Hcover d conf old k Hd Hold) as [v'' Hv'']; [by eexists|congruence].
Qed.


(** Nothing is left to change on the object that [instance_update] sent,
    when the desired config values are strings and the desired devices
    cover the live ones. *)
Lemma compute_changes_after_update live C Dv config devices profiles :
  (∀ k v, dict_get config ∅ !! k = Some v → ∃ str, v = SStr str) →
  (∀ d conf old k,
     dict_get devices ∅ !! d = Some conf → Dv !! d = Some old →
     is_Some (old !! k) → is_Some (conf !! k)) →
  compute_changes
    (Instance (i_name live) (i_status live)
       (Some (dict_update C (dict_get (truthy config) ∅)))
       (Some (merge_devices Dv (dict_get (truthy devices) ∅)))
       (match profiles with
        | Some profiles => Some profiles
        | None => i_profiles live
        end))
    config devices profiles
  = no_changes.
Proof.
  intros Hstr Hcover. unfold compute_changes, no_changes. simpl. f_equal.
  - destruct (truthy config) as [c|] eqn:Hc; [|done].
    apply truthy_Some in Hc as [-> Hne]. simpl in *.
    rewrite config_diff_merged by done. simpl.
    by rewrite bool_decide_eq_true_2.
  - destruct profiles as [p|]; [|done]. simpl.
    by rewrite bool_decide_eq_true_2.
  - destruct (truthy devices) as [dv|] eqn:Hd; [|done].
    apply truthy_Some in Hd as [-> Hne]. simpl in *.
    rewrite device_diff_merged by done. simpl.
    by rewrite bool_decide_eq_true_2.
Qed.

(** ** The reference control plane *)

Lemma sim_get_unchanged url data recursion s :
  (Sim.http (Request GET url data recursion) s).2 = s.
Proof. unfold Sim.http. simpl. by repeat case_match. Qed.

Lemma sim_sleep_advances d s : Sim.clock s + d <= Sim.clock (Sim.sleep d s).
Proof. unfold Sim.clock, Sim.sleep. simpl. lia. Qed.

Lemma sim_http_takes_time r s : Sim.clock s <= Sim.clock (Sim.http r s).2.
Proof.
  unfold Sim.clock, Sim.http.
  repeat case_match; simpl; lia.
Qed.

Lemma sim_polls_are_sync url s :
  match (Sim.http (Request GET url None None) s).1 with
  | Json b => e_type b ≠ Some "async"
  | _ => True
  end.
Proof.
  unfold Sim.http. simpl.
  destruct (Sim.route_of url) as [| |name|name|name snap|id|]; simpl; try done;
    by destruct (Sim.instances s !! name).
Qed.

Lemma sim_errors_are_named r s b :
  (Sim.http r s).1 = Json b → failed (Response b) = true → is_Some (e_error b).
Proof.
  unfold Sim.http, Sim.reply, Sim.ok, Sim.accepted, Sim.not_found.
  repeat case_match; simpl; intros; simplify_eq; by eexists.
Qed.

Lemma sim_strip_prefix_app p s : Sim.strip_prefix p (p +:+ s) = Some s.
Proof. induction p as [|c p IH]; simpl; [done|]. by rewrite Ascii.eqb_refl. Qed.

Lemma sim_route_of_instance name :
  Sim.split_at_slash name = (name, EmptyString) →
  Sim.route_of ("/instances/" +:+ name) = Sim.AnInstance name.
Proof.
  intros Hname. unfold Sim.route_of.
  rewrite bool_decide_eq_false_2 by done.
  rewrite bool_decide_eq_false_2 by (simpl; intros H; by simplify_eq).
  rewrite sim_strip_prefix_app, Hname. cbv beta iota.
  by rewrite bool_decide_eq_true_2.
Qed.

Lemma sim_get_instance name s live :
  Sim.split_at_slash name = (name, EmptyString) →
  Sim.instances s !! name = Some live →
  Sim.http (Request GET ("/instances/" +:+ Sim.quote name) None None) s
  = (Sim.ok (Some (MInstance live)), s).
Proof.
  intros Hname Hlive. unfold Sim.http, Sim.quote. cbn [r_method r_endpoint r_data].
  by rewrite sim_route_of_instance, Hlive.
Qed.

Lemma sim_put_instance name s live sent :
  Sim.split_at_slash name = (name, EmptyString) →
  Sim.instances s !! name = Some live →
  Sim.instances
    (Sim.http (Request PUT ("/instances/" +:+ Sim.quote name)
                 (Some (BInstance sent)) None) s).2
  = <[name := sent]> (Sim.instances s).
Proof.
  intros Hname Hlive. unfold Sim.http, Sim.quote. cbn [r_method r_endpoint r_data].
  by rewrite sim_route_of_instance, Hlive.
Qed.

Local Abbreviation sim_present test :=
  (instance_present Sim.http Sim.clock Sim.sleep Sim.quote test).

Lemma has_changes_false live config devices profiles :
  has_changes (compute_changes live config devices profiles) = false →
  compute_changes live config devices profiles = no_changes.
Proof.
  unfold has_changes, no_changes.
  destruct (compute_changes live config devices profiles) as [c p d i] eqn:Hch.
  assert (i = None) as ->.
  { unfold compute_changes in Hch. by simplify_eq. }
  simpl. destruct c, p, d; simpl; try done.
Qed.

(** On a live instance on which nothing is left to change the state
    reads once and reports no changes. *)
Lemma sim_present_converged test fuel name source instance_type config devices
    profiles ephemeral (w : world) live :
  Sim.split_at_slash name = (name, EmptyString) →
  Sim.instances (env w) !! name = Some live →
  compute_changes live config devices profiles = no_changes →
  sim_present test fuel name source instance_type config devices profiles ephemeral w
  = (Returns (StateRet name (Some true) no_changes
                (Text ("Instance " +:+ name +:+ " already in desired state"))),
     World (env w)
       (trace w ++ [Request GET ("/instances/" +:+ Sim.quote name) None None])).
Proof.
  intros Hname Hlive Hnone. unfold instance_present.
  unfold bind at 1.
  rewrite (instance_get_found Sim.http Sim.quote name w _ _
             (sim_get_instance name (env w) live Hname Hlive) eq_refl).
  simpl. by rewrite Hnone.
Qed.

(** After a converge the live instance is one on which nothing is left
    to change. *)
Lemma sim_present_converges fuel name source instance_type config devices
    profiles ephemeral s live C Dv :
  Sim.split_at_slash name = (name, EmptyString) →
  Sim.instances s !! name = Some live →
  i_config live = Some C →
  i_devices live = Some Dv →
  (∀ k v, dict_get config ∅ !! k = Some v → ∃ str, v = SStr str) →
  (∀ d conf old k,
     dict_get devices ∅ !! d = Some conf → Dv !! d = Some old →
     is_Some (old !! k) → is_Some (conf !! k)) →
  ∃ live',
    Sim.instances
      (env (sim_present false fuel name source instance_type config devices
              profiles ephemeral (Sim.start s)).2) !! name = Some live'
    ∧ compute_changes live' config devices profiles = no_changes.
Proof.
  intros Hname Hlive HC HDv Hstr Hcover. unfold instance_present.
  pose proof (sim_get_instance name s live Hname Hlive) as Hget.
  unfold bind at 1.
  rewrite (instance_get_found Sim.http Sim.quote name (Sim.start s) _ _ Hget eq_refl).
  cbn [e_metadata Sim.ok as_instance].
  destruct (has_changes (compute_changes live config devices profiles)) eqn:Hch.
  - rewrite bind_world by (intros [msg|error] w'; reflexivity).
    match goal with
    | |- context [instance_update _ _ _ _ _ _ _ _ _ ?w] =>
        rewrite (instance_update_found Sim.http Sim.clock Sim.sleep Sim.quote
                   fuel name config devices profiles w _ s C Dv Hget eq_refl HC HDv)
    end.
    rewrite bind_world
      by (intros r w'; destruct (failed r); [apply failure_of_world|reflexivity]).
    cbn [e_metadata Sim.ok as_instance].
    eexists. split; [|by apply (compute_changes_after_update live C Dv)].
    match goal with
    | |- Sim.instances (env (_sync_request _ _ _ _ ?m ?ep ?d ?r ?w).2) !! _ = _ =>
        pose proof (sync_request_invariant Sim.http Sim.clock Sim.sleep
                      (λ w', Sim.instances (env w')
                             = Sim.instances (env (_request Sim.http m ep d r w).2))
                      ltac:(done)
                      ltac:(intros url w' Hw'; simpl; by rewrite sim_get_unchanged)
                      fuel m ep d r w eq_refl) as Hinv
    end.
    cbv beta in Hinv. rewrite Hinv, request_spec. cbn [snd env].
    rewrite (sim_put_instance name s live _ Hname Hlive).
    apply lookup_insert_eq.
  - exists live. split; [exact Hlive|]. by apply has_changes_false.
Qed.

(** C1, as amended. On a control plane that stores the object it is
    sent, for a live instance that has its [config] and [devices]
    members and a desired specification whose config values are strings
    and whose devices each name every property of the live device of the
    same name: after one converge, a second converge with the same
    specification reads the instance once, reports no changes with result
    [True], and issues no mutation. *)
Theorem second_converge_is_noop fuel fuel' name source instance_type config
    devices profiles ephemeral s live C Dv :
  Sim.split_at_slash name = (name, EmptyString) →
  Sim.instances s !! name = Some live →
  i_config live = Some C →
  i_devices live = Some Dv →
  (∀ k v, dict_get config ∅ !! k = Some v → ∃ str, v = SStr str) →
  (∀ d conf old k,
     dict_get devices ∅ !! d = Some conf → Dv !! d = Some old →
     is_Some (old !! k) → is_Some (conf !! k)) →
  let w1 :=
    (sim_present false fuel name source instance_type config devices profiles
       ephemeral (Sim.start s)).2 in
  ∃ r2,
    sim_present false fuel' name source instance_type config devices profiles
      ephemeral w1
    = (Returns r2,
       World (env w1)
         (trace w1 ++ [Request GET ("/instances/" +:+ Sim.quote name) None None]))
    ∧ ret_result r2 = Some true
    ∧ ret_changes r2 = no_changes.
Proof.
  intros Hname Hlive HC HDv Hstr Hcover w1.
  destruct (sim_present_converges fuel name source instance_type config devices
              profiles ephemeral s live C Dv Hname Hlive HC HDv Hstr Hcover)
    as (live' & Hlive' & Hnone).
  eexists. split; [|split].
  - by apply (sim_present_converged false fuel' name source instance_type config
                devices profiles ephemeral w1 live').
  - reflexivity.
  - reflexivity.
Qed.

Section StateFacts.

Context {W : Type}.
Variable http : request → W → transport_outcome * W.
Variable clock : W → Z.
Variable sleep : Z → W → W.
Variable quote : string → string.


End StateFacts.

(** ** Failures are returned *)

Section ReturnFacts.

Context {W : Type}.
Variable http : request → W → transport_outcome * W.
Variable clock : W → Z.
Variable sleep : Z → W → W.
Variable quote : string → string.

Hypothesis sleep_advances : ∀ d e, clock e + d <= clock (sleep d e).
Hypothesis http_takes_time : ∀ r e, clock e <= clock (http r e).2.
Hypothesis polls_are_sync : ∀ url e,
  match (http (Request GET url None None) e).1 with
  | Json b => e_type b ≠ Some "async"
  | _ => True
  end.
Hypothesis errors_are_named : ∀ r e b,
  (http r e).1 = Json b → failed (Response b) = true → is_Some (e_error b).
Hypothesis statuses_are_raised : ∀ r e, raised_status (http r e).1.
(** Every instance object that is served has its [config] and [devices]
    members. *)
Hypothesis instances_are_shaped : ∀ name e b,
  (http (Request GET ("/instances/" +:+ quote name) None None) e).1 = Json b →
  failed (Response b) = false →
  is_Some (i_config (as_instance (e_metadata b)))
  ∧ is_Some (i_devices (as_instance (e_metadata b))).

Lemma instance_get_returns name (w : world) :
  let req := Request GET ("/instances/" +:+ quote name) None None in
  ∃ o,
    instance_get http quote name w
    = (Returns o, World (http req (env w)).2 (trace w ++ [req]))
    ∧ ∀ live, o = Success live →
        ∃ b, http req (env w) = (Json b, (http req (env w)).2)
             ∧ failed (Response b) = false
             ∧ live = as_instance (e_metadata b).
Proof.
  intros req. rewrite instance_get_spec. fold req.
  pose proof (request_names_error http errors_are_named req (env w)) as Hnamed.
  pose proof (statuses_are_raised req (env w)) as Hst.
  destruct (failed (request_result (http req (env w)).1)) eqn:Hfailed.
  - destruct (Hnamed eq_refl) as [error ->].
    eexists. split; [reflexivity|]. intros live Heq. discriminate.
  - eexists. split; [reflexivity|]. intros live Heq. simplify_eq.
    destruct (http req (env w)) as [o env1] eqn:Hhttp. simpl in *.
    destruct o as [msg|status msg|msg|b]; simpl in *; try discriminate.
    + unfold failed in Hfailed. simpl in Hfailed. destruct status; try done; lia.
    + by exists b.
Qed.

Lemma accessor_result_returns {A} fuel m endpoint data recursion (w : world)
    (payload : A) :
  (302 ≤ fuel)%nat →
  ∃ (o : exec_result A) w',
    bind (_sync_request http clock sleep fuel m endpoint data recursion)
      (λ result, if failed result then failure_of result else ret (Success payload))
      w = (Returns o, w')
    ∧ mutations (trace w')
      = mutations (trace w) ++ mutations [Request m endpoint data recursion].
Proof.
  intros Hfuel.
  pose proof (sync_request_mutations http clock sleep fuel m endpoint data
                recursion w) as Hmut.
  destruct (sync_request_returns http clock sleep sleep_advances http_takes_time
              polls_are_sync errors_are_named fuel m endpoint data recursion w Hfuel)
    as (r & w' & Hrun & Hnamed).
  rewrite Hrun in Hmut. simpl in Hmut.
  unfold bind. rewrite Hrun.
  destruct (failed r) eqn:Hfailed.
  - destruct (Hnamed eq_refl) as [error Herror].
    exists (Failure error), w'. split; [|exact Hmut].
    unfold failure_of. unfold_monad. by rewrite Herror.
  - eexists _, w'. split; [reflexivity|exact Hmut].
Qed.

Lemma instance_update_returns fuel name config devices profiles (w : world) :
  (302 ≤ fuel)%nat →
  ∃ o w',
    instance_update http clock sleep quote fuel name config devices profiles w
    = (Returns o, w')
    ∧ (length (mutations (trace w')) ≤ length (mutations (trace w)) + 1)%nat.
Proof.
  intros Hfuel.
  destruct (instance_get_returns name w) as (o & Hget & Hlive).
  destruct o as [live|error].
  - destruct (Hlive live eq_refl) as (b & Hhttp & Hok & ->).
    destruct (instances_are_shaped name (env w) b) as [[C HC] [Dv HDv]];
      [by rewrite Hhttp|done|].
    rewrite (instance_update_found http clock sleep quote fuel name config devices
               profiles w b _ C Dv Hhttp Hok HC HDv).
    match goal with
    | |- context [bind (_sync_request _ _ _ _ ?m ?ep ?d ?r) _ ?w0] =>
        destruct (accessor_result_returns fuel m ep d r w0
                    ("Instance " +:+ name +:+ " updated successfully") Hfuel)
          as (o & w' & Hrun & Hmut)
    end.
    exists o, w'. split; [exact Hrun|].
    rewrite Hmut. simpl. rewrite mutations_app, !length_app. simpl. lia.
  - exists (Failure error), (World (http (Request GET ("/instances/" +:+ quote name)
                                            None None) (env w)).2
                               (trace w ++ [Request GET ("/instances/" +:+ quote name)
                                              None None])).
    split.
    + unfold instance_update, bind. by rewrite Hget.
    + simpl. rewrite mutations_app, length_app. simpl. lia.
Qed.

Lemma instance_present_returns test fuel name source instance_type config
    devices profiles ephemeral (w : world) :
  (302 ≤ fuel)%nat →
  ∃ r w',
    instance_present http clock sleep quote test fuel name source instance_type
      config devices profiles ephemeral w = (Returns r, w')
    ∧ (length (mutations (trace w')) ≤ length (mutations (trace w)) + 1)%nat.
Proof.
  intros Hfuel.
  destruct (instance_get_returns name w) as (o & Hget & _).
  set (w1 := World (http (Request GET ("/instances/" +:+ quote name) None None)
                      (env w)).2
               (trace w ++ [Request GET ("/instances/" +:+ quote name) None None]))
    in *.
  assert (mutations (trace w1) = mutations (trace w)) as Hw1.
  { subst w1. simpl. by rewrite mutations_app, app_nil_r. }
  unfold instance_present. unfold bind at 1. rewrite Hget.
  destruct o as [live|error].
  - destruct (has_changes _);
      [|eexists _, w1; split; [reflexivity|rewrite Hw1; lia]].
    destruct test; [eexists _, w1; split; [reflexivity|rewrite Hw1; lia]|].
    destruct (instance_update_returns fuel name config devices profiles w1 Hfuel)
      as (o & w' & Hrun & Hmut).
    rewrite Hw1 in Hmut.
    unfold bind. rewrite Hrun.
    destruct o; eexists _, w'; (split; [reflexivity|lia]).
  - destruct test; [eexists _, w1; split; [reflexivity|rewrite Hw1; lia]|].
    unfold instance_create.
    match goal with
    | |- context [bind (_sync_request _ _ _ _ ?m ?ep ?d ?r) _] =>
        destruct (accessor_result_returns fuel m ep d r w1
                    ("Instance " +:+ name +:+ " created successfully") Hfuel)
          as (o & w' & Hrun & Hmut)
    end.
    unfold bind at 1. rewrite Hrun.
    assert (length (mutations (trace w')) ≤ length (mutations (trace w)) + 1)%nat.
    { rewrite Hmut, Hw1, length_app. simpl. lia. }
    destruct o; eexists _, w'; (split; [reflexivity|lia]).
Qed.

End ReturnFacts.

Section Propagation.

Context {W : Type}.
Variable http : request → W → transport_outcome * W.
Variable clock : W → Z.
Variable sleep : Z → W → W.
Variable quote : string → string.

(** A call that ends in a connection failure, an error status or a body
    that is not JSON is not waited on: [_sync_request] returns the error
    dict of [_request] after that one call. *)
Lemma sync_request_failure fuel m endpoint data recursion (w : world) :
  (∀ e, (http (Request m endpoint data recursion) (env w)).1 ≠ Json e) →
  raised_status (http (Request m endpoint data recursion) (env w)).1 →
  _sync_request http clock sleep fuel m endpoint data recursion w
  = _request http m endpoint data recursion w.
Proof.
  intros Hnot Hst.
  destruct fuel; simpl; unfold bind; rewrite request_spec; simpl;
    destruct ((http _ (env w)).1) as [msg|status msg|msg|b]; simpl in *;
    try reflexivity; try (by destruct (Hnot b));
    destruct status; try reflexivity; lia.
Qed.


End Propagation.

(** * Worked cases *)

(** ** Reconciliation *)

(** C1 fails as stated: the live device [data] of [c1] has a [path]; the
    desired device leaves it out. The diff compares whole devices and
    reports a change; the update merges properties and sends the device
    back as it was; the second converge reports the same change and
    issues the same update again. *)
Lemma second_converge_reports_changes :
  ∃ r1 w1 r2 w2,
    sim_present false 5 "c1" None "container" None Sim.data_without_path None false
      (Sim.start Sim.one_instance) = (Returns r1, w1)
    ∧ sim_present false 5 "c1" None "container" None Sim.data_without_path None
        false w1 = (Returns r2, w2)
    ∧ ret_result r1 = Some true
    ∧ ret_result r2 = Some true
    ∧ ret_changes r2 ≠ no_changes
    ∧ length (mutations (trace w1)) = 1%nat
    ∧ length (mutations (trace w2)) = 2%nat.
Proof.
  eexists _, _, _, _.
  split; [vm_compute; reflexivity|].
  split; [vm_compute; reflexivity|].
  repeat split; try reflexivity.
  vm_compute. discriminate.
Qed.

Lemma second_converge_is_noop_witness :
  let config : option config_map := Some {[ "limits.memory" := SStr "4GB" ]} in
  let converge :=
    sim_present false 5 "c1" None "container" config None (Some ["default"]) false in
  let w1 := (converge (Sim.start Sim.one_instance)).2 in
  ∃ r2,
    converge w1
    = (Returns r2,
       World (env w1) (trace w1 ++ [Request GET "/instances/c1" None None]))
    ∧ ret_result r2 = Some true
    ∧ ret_changes r2 = no_changes.
Proof.
  apply (second_converge_is_noop 5 5 "c1" None "container"
           (Some {[ "limits.memory" := SStr "4GB" ]}) None (Some ["default"]) false
           Sim.one_instance Sim.c1
           {[ "a" := SStr "1"; "b" := SStr "2" ]} {[ "data" := Sim.disk ]}).
  - reflexivity.
  - reflexivity.
  - reflexivity.
  - reflexivity.
  - intros k v Hk. simpl in Hk. apply lookup_singleton_Some in Hk as [_ <-].
    by eexists.
  - intros d conf old k Hd. simpl in Hd. by rewrite lookup_empty in Hd.
Defined.


(** The real run on [c1] with one more config key. *)
Example real_run_updates :
  sim_present false 5 "c1" None "container"
    (Some {[ "limits.memory" := SStr "4GB" ]}) None None false
    (Sim.start Sim.one_instance)
  = (Returns
       (StateRet "c1" (Some true)
          (InstanceChanges (Some {[ "limits.memory" := (SNone, "4GB") ]})
             None None None)
          (Text "Instance c1 updated")),
     World
       (Sim.with_instances Sim.one_instance
          {[ "c1" :=
               Instance (Some "c1") (Some "Running")
                 (Some {[ "a" := SStr "1"; "b" := SStr "2";
                          "limits.memory" := SStr "4GB" ]})
                 (Some {[ "data" := Sim.disk ]}) (Some ["default"]) ]})
       [ Request GET "/instances/c1" None None;
         Request GET "/instances/c1" None None;
         Request PUT "/instances/c1"
           (Some (BInstance
                    (Instance (Some "c1") (Some "Running")
                       (Some {[ "a" := SStr "1"; "b" := SStr "2";
                                "limits.memory" := SStr "4GB" ]})
                       (Some {[ "data" := Sim.disk ]}) (Some ["default"]))))
           None ]).
Proof. vm_compute. reflexivity. Qed.


(** ** The client *)

Lemma sync_request_missing_error_code_witness :
  let e := Envelope (Some "async") None None (Some "/1.0/operations/abc") None in
  let http := λ (_ : request) (t : Z), (Json e, t) in
  _sync_request http Down.clock Down.sleep 5 POST "/instances" None None (World 0 [])
  = (Returns (Response e), World 0 [Request POST "/instances" None None]).
Proof.
  intros e http.
  apply (sync_request_missing_error_code http Down.clock Down.sleep 5 POST
           "/instances" None None (World 0 []) e 0); reflexivity.
Defined.



(** An operation that stays at 103 past the timeout: the wait polls at
    the times 0 to 3 and returns the timeout failure. *)
Example stuck_operation_times_out :
  let run :=
    _wait_for_operation Stuck.http Down.clock Down.sleep 10 "/1.0/operations/abc"
      3 1 (World 0 []) in
  run.1 = Returns (WaitFailure "Timeout waiting for operation to finish" NoOperation)
  ∧ trace run.2 = replicate 4 (Request GET "/operations/abc" None None)
  ∧ env run.2 = 4.
Proof.
  intros run. subst run.
  split; [|split]; vm_compute; reflexivity.
Qed.

(** A create that is answered by an operation which polls as running
    and then as success: two polls, and the create succeeds. *)
Example create_waits_for_operation :
  let run :=
    instance_create Sim.http Sim.clock Sim.sleep 5 "c1" None "container" None None
      None false (Sim.start Sim.slow) in
  run.1 = Returns (Success "Instance c1 created successfully")
  ∧ r_method <$> trace run.2 = [POST; GET; GET]
  ∧ is_Some (Sim.instances (env run.2) !! "c1").
Proof.
  intros run. subst run.
  split; [|split]; vm_compute; [reflexivity..|by eexists].
Qed.

(** ** Merging *)


(** The merge of the specification: [{a: 1, b: 2}] updated with
    [{b: 3, c: 4}] is [{a: 1, b: 3, c: 4}]. *)
Example merge_scenario :
  dict_update ({[ "a" := SStr "1"; "b" := SStr "2" ]} : config_map)
    {[ "b" := SStr "3"; "c" := SStr "4" ]}
  = {[ "a" := SStr "1"; "b" := SStr "3"; "c" := SStr "4" ]}.
Proof. vm_compute. reflexivity. Qed.

(** A device that exists and is set to the empty map stays as it is. *)
Lemma merge_devices_empty_map (current : device_map) d properties :
  current !! d = Some properties →
  merge_devices current {[ d := ∅ ]} = current.
Proof.
  intros Hd. apply map_eq. intros d'. rewrite merge_devices_lookup.
  destruct (decide (d = d')) as [<-|Hne].
  - rewrite lookup_singleton_eq, Hd. f_equal.
    unfold dict_update. apply (left_id _ _).
  - by rewrite lookup_singleton_ne.
Qed.

(** C6, the code against the claim. [volume_detached] asks
    [instance_update] to remove the device [data] of [c1] by mapping it to
    the empty map, and reports the volume as detached; the object that
    [instance_update] sends still has the device with all its properties,
    and so has the control plane afterwards. *)
Theorem detach_keeps_device :
  let run :=
    volume_detached Sim.http Sim.clock Sim.sleep Sim.quote false 5 "vol1" "default"
      "c1" (Some "data") (Sim.start Sim.one_instance) in
  run.1 = Returns (StateRet "vol1" (Some true) (Some Sim.disk)
                     (Text "Volume vol1 detached from instance c1"))
  ∧ mutations (trace run.2)
    = [Request PUT "/instances/c1" (Some (BInstance Sim.c1)) None]
  ∧ Sim.instances (env run.2) !! "c1" = Some Sim.c1
  ∧ i_devices Sim.c1 = Some {[ "data" := Sim.disk ]}.
Proof.
  intros run. subst run.
  split; [|split; [|split]]; vm_compute; reflexivity.
Qed.

(** ** Rotation *)

(** The scenario of the specification on [c1]: of the matches of
    [daily-*], created on the 1st, 2nd and 3rd, a rotation that keeps two
    selects [daily-1]. *)
Example rotation_scenario :
  snap_name <$> to_delete Sim.fnmatch "daily-*" 2 Sim.listing = ["daily-1"]
  ∧ snap_name <$> to_delete Sim.fnmatch "daily-*" 3 Sim.listing = []
  ∧ snap_name <$> to_delete Sim.fnmatch "daily-*" 0 Sim.listing
    = ["daily-1"; "daily-2"; "daily-3"].
Proof. split; [|split]; vm_compute; reflexivity. Qed.


(** With [daily-1] locked and one snapshot to keep, the deletes of
    [daily-1] and of [daily-2] are both attempted; the first fails, the
    second succeeds, and the result is [False]. *)
Example rotation_with_a_failure :
  let run :=
    instance_snapshots_rotated Sim.http Sim.clock Sim.sleep Sim.quote Sim.fnmatch
      false 302 "c1" "daily-*" 1 (Sim.start Sim.locked_snapshot) in
  run.1
  = Returns
      (StateRet "c1_rotate_daily-*" (Some false) (Some ["daily-2"])
         (FailedToDeleteSome
            [FailedDelete "daily-1" "500 Server Error: Internal Server Error"]))
  ∧ mutations (trace run.2)
    = [ Request DELETE "/instances/c1/snapshots/daily-1" None None;
        Request DELETE "/instances/c1/snapshots/daily-2" None None ].
Proof.
  intros run. subst run. split; vm_compute; reflexivity.
Qed.


(** ** Exceptions *)



(** On the unreachable control plane the converge ends with a failure
    that carries the connection error, after one read and one create. *)
Example converge_on_unreachable_control_plane :
  let run :=
    instance_present Down.http Down.clock Down.sleep Sim.quote false 302 "c1" None
      "container" None None None false (World 0 []) in
  run.1
  = Returns (StateRet "c1" (Some false) no_changes
               (Text "Failed to create instance c1: Connection refused"))
  ∧ r_method <$> trace run.2 = [GET; POST].
Proof.
  intros run. subst run. split; vm_compute; reflexivity.
Qed.

(** * Further properties *)

(** ** The wait protocol *)

Section WaitFacts.

Context {W : Type}.
Variable http : request → W → transport_outcome * W.
Variable clock : W → Z.
Variable sleep : Z → W → W.

(** A result that fails the callers' test is what [_sync_request]
    returns, after its one request. *)
Lemma sync_request_failed fuel m endpoint data recursion (w : world) :
  failed (request_result (http (Request m endpoint data recursion) (env w)).1) = true →
  _sync_request http clock sleep fuel m endpoint data recursion w
  = _request http m endpoint data recursion w.
Proof.
  intros Hfailed.
  assert (py_ne0 (dict_get
                    (get_error_code
                       (request_result
                          (http (Request m endpoint data recursion) (env w)).1))
                    (SStr EmptyString)) = true) as Hne.
  { unfold failed in Hfailed.
    by destruct (get_error_code _) as [code|]. }
  destruct fuel; simpl; unfold bind; rewrite request_spec; simpl;
    by rewrite Hne.
Qed.

Section Budget.

Hypothesis sleep_advances : ∀ d e, clock e + d <= clock (sleep d e).
Hypothesis http_takes_time : ∀ r e, clock e <= clock (http r e).2.
Hypothesis polls_are_sync : ∀ url e,
  match (http (Request GET url None None) e).1 with
  | Json b => e_type b ≠ Some "async"
  | _ => True
  end.

Lemma wait_loop_polls fuel0 url timeout interval started fuel :
  1 <= interval →
  ∀ (w : world),
    ∃ n,
      trace (wait_loop clock sleep
               (λ url, _sync_request http clock sleep fuel0 GET url None None)
               fuel url timeout interval started w).2
      = trace w ++ replicate n (Request GET (py_replace "/1.0/" "/" url) None None)
      ∧ Z.of_nat n <= Z.max 0 (timeout - (clock (env w) - started) + 1).
Proof.
  intros Hinterval. induction fuel as [|fuel IH]; intros w.
  - exists 0%nat. simpl. rewrite app_nil_r. split; [done|lia].
  - simpl. unfold bind at 1. unfold time_time at 1.
    destruct (Z.ltb_spec timeout (clock (env w) - started)) as [Hlate|Hearly]; cbv iota.
    { exists 0%nat. simpl. rewrite app_nil_r. split; [done|lia]. }
    unfold bind at 1.
    rewrite (poll_is_one_request http clock sleep polls_are_sync), request_spec.
    set (req := Request GET (py_replace "/1.0/" "/" url) None None).
    cbn zeta.
    pose proof (http_takes_time req (env w)) as Hhttp.
    destruct (failed _).
    { exists 1%nat. simpl. split; [done|lia]. }
    destruct (non_terminal _).
    + unfold bind at 1. unfold time_sleep at 1. cbn [env trace].
      destruct (IH (World (sleep interval (http req (env w)).2) (trace w ++ [req])))
        as (n & Htrace & Hn).
      exists (S n). split.
      * rewrite Htrace. cbn [trace]. by rewrite <- app_assoc.
      * cbn [env] in Hn.
        pose proof (sleep_advances interval (http req (env w)).2). lia.
    + exists 1%nat. split; [|lia].
      by repeat case_bool_decide.
Qed.

End Budget.

(** X1. A wait reads one endpoint only, the operation's URL without its
    [/1.0] prefix, and under an advancing clock it reads it at most
    [timeout + 1] times, whatever the fuel; an URL that does not start
    with [/1.0/operations/] is not polled at all. *)
Theorem wait_polls_within_budget fuel url timeout interval (w : world) :
  (∀ d e, clock e + d <= clock (sleep d e)) →
  (∀ r e, clock e <= clock (http r e).2) →
  (∀ url e,
     match (http (Request GET url None None) e).1 with
     | Json b => e_type b ≠ Some "async"
     | _ => True
     end) →
  1 <= interval →
  ∃ n,
    trace (_wait_for_operation http clock sleep fuel url timeout interval w).2
    = trace w ++ replicate n (Request GET (py_replace "/1.0/" "/" url) None None)
    ∧ Z.of_nat n <= Z.max 0 (timeout + 1)
    ∧ (String.prefix "/1.0/operations/" url = false → n = 0%nat).
Proof.
  intros Hsleep Hhttp Hsync Hinterval.
  unfold _wait_for_operation, wait_for_operation.
  unfold bind at 1. unfold time_time at 1.
  destruct (String.prefix "/1.0/operations/" url) eqn:Hprefix; simpl.
  - destruct (wait_loop_polls Hsleep Hhttp Hsync fuel url timeout interval
                (clock (env w)) fuel Hinterval w) as (n & Htrace & Hn).
    exists n. split; [exact Htrace|]. split; [lia|done].
  - exists 0%nat. simpl. rewrite app_nil_r. split; [done|]. split; [lia|done].
Qed.

(** X2. A poll that fails ends the wait: when the first poll of an
    operation comes back failing the callers' test (a connection error,
    an error status, a body that is not JSON, a body with a non-zero or
    missing error code), the wait returns a failure with the error of
    that poll and the polled result attached, after this one request and
    without sleeping or polling again. *)
Theorem failed_poll_ends_wait fuel url timeout interval (w : world) o env1 :
  String.prefix "/1.0/operations/" url = true →
  0 <= timeout →
  http (Request GET (py_replace "/1.0/" "/" url) None None) (env w) = (o, env1) →
  failed (request_result o) = true →
  _wait_for_operation http clock sleep (S fuel) url timeout interval w
  = (Returns (WaitFailure (dict_get (get_error (request_result o)) "Unknown error")
                (PolledResult (request_result o))),
     World env1
       (trace w ++ [Request GET (py_replace "/1.0/" "/" url) None None])).
Proof.
  intros Hprefix Htimeout Hhttp Hfailed.
  unfold _wait_for_operation, wait_for_operation.
  unfold bind at 1. unfold time_time at 1. rewrite Hprefix.
  cbn [negb wait_loop]. unfold bind at 1. unfold time_time at 1.
  rewrite (proj2 (Z.ltb_ge _ _)) by lia.
  unfold bind at 1.
  rewrite sync_request_failed by (by rewrite Hhttp).
  rewrite request_spec, Hhttp. simpl. by rewrite Hfailed.
Qed.

End WaitFacts.

(** ** Server settings *)

Section SettingsFacts.

Context {W : Type}.
Variable http : request → W → transport_outcome * W.
Variable clock : W → Z.
Variable sleep : Z → W → W.

Lemma settings_get_spec (w : world) :
  let req := Request GET EmptyString None None in
  let result := request_result (http req (env w)).1 in
  settings_get http w
  = (Returns (if failed result
              then Failure (dict_get (get_error result) "Failed to get settings")
              else Success (as_settings (get_metadata result))),
     World (http req (env w)).2 (trace w ++ [req])).
Proof.
  unfold settings_get, bind. rewrite request_spec. simpl.
  by destruct (failed _).
Qed.

Lemma settings_get_found (w : world) e env1 :
  http (Request GET EmptyString None None) (env w) = (Json e, env1) →
  failed (Response e) = false →
  settings_get http w
  = (Returns (Success (as_settings (e_metadata e))),
     World env1 (trace w ++ [Request GET EmptyString None None])).
Proof.
  intros Hhttp Hok. rewrite settings_get_spec. simpl. rewrite Hhttp. simpl.
  by rewrite Hok.
Qed.

(** What [settings_unset] does once the key is not empty and the
    settings are read. *)
Lemma settings_unset_found fuel key (w : world) e env1 :
  key ≠ EmptyString →
  http (Request GET EmptyString None None) (env w) = (Json e, env1) →
  failed (Response e) = false →
  settings_unset http clock sleep fuel key w
  = let live := as_settings (e_metadata e) in
    let w1 := World env1 (trace w ++ [Request GET EmptyString None None]) in
    match dict_get (s_config live) ∅ !! key with
    | Some _ =>
        bind
          (_sync_request http clock sleep fuel PUT EmptyString
             (Some (BSettings (Settings (Some (delete key (dict_get (s_config live) ∅)))
                                 (s_rest live)))) None)
          (λ result,
             if failed result
             then ret (Failure (dict_get (get_error result) "Failed to update settings"))
             else ret (Success ("Configuration key " +:+ double_quote +:+ key
                                +:+ double_quote +:+ " unset successfully")))
          w1
    | None =>
        (Returns (Failure ("Configuration key " +:+ double_quote +:+ key
                           +:+ double_quote +:+ " not found")), w1)
    end.
Proof.
  intros Hkey Hhttp Hok. unfold settings_unset.
  rewrite bool_decide_eq_false_2 by done.
  unfold bind at 1. rewrite request_spec, Hhttp. simpl. rewrite Hok.
  destruct (s_config (as_settings (e_metadata e))) as [C|]; simpl; [|done].
  by destruct (C !! key).
Qed.

(** X5. [settings_unset] on a key that the live configuration does not
    have returns the failure that names the key, after its read and
    without any request to change the settings; on a key that is there
    its one mutation is the [PUT] of the live settings with that key
    deleted from the config, every other key and every other member as
    read. An empty key is refused before any request. *)
Theorem unset_removes_one_key fuel key (w : world) e env1 :
  http (Request GET EmptyString None None) (env w) = (Json e, env1) →
  failed (Response e) = false →
  let live := as_settings (e_metadata e) in
  let C := dict_get (s_config live) ∅ in
  (key ≠ EmptyString → C !! key = None →
   settings_unset http clock sleep fuel key w
   = (Returns (Failure ("Configuration key " +:+ double_quote +:+ key
                        +:+ double_quote +:+ " not found")),
      World env1 (trace w ++ [Request GET EmptyString None None])))
  ∧ (key ≠ EmptyString → is_Some (C !! key) →
     mutations (trace (settings_unset http clock sleep fuel key w).2)
     = mutations (trace w)
       ++ [Request PUT EmptyString
             (Some (BSettings (Settings (Some (delete key C)) (s_rest live)))) None])
  ∧ settings_unset http clock sleep fuel EmptyString w
    = (Returns (Failure "key parameter must be a non-empty string"), w).
Proof.
  intros Hhttp Hok live C. split; [|split].
  - intros Hkey Hnone. rewrite (settings_unset_found _ _ _ _ _ Hkey Hhttp Hok).
    cbv zeta. fold live. fold C. by rewrite Hnone.
  - intros Hkey [v Hv]. rewrite (settings_unset_found _ _ _ _ _ Hkey Hhttp Hok).
    cbv zeta. fold live. fold C. rewrite Hv.
    rewrite bind_world by (intros r w'; by destruct (failed r)).
    rewrite sync_request_mutations. simpl.
    by rewrite mutations_app, app_nil_r.
  - reflexivity.
Qed.

End SettingsFacts.

(** *** On the reference control plane *)

(** Whatever [_sync_request] does after its own request leaves the
    store as that request left it: only the clock moves. *)
Lemma sim_sync_request_store {A} (f : Sim.server → A) fuel m endpoint data recursion
    (w : world) :
  (∀ d s, f (Sim.sleep d s) = f s) →
  f (env (_sync_request Sim.http Sim.clock Sim.sleep fuel m endpoint data recursion w).2)
  = f (Sim.http (Request m endpoint data recursion) (env w)).2.
Proof.
  intros Hsleep.
  pose proof (sync_request_invariant Sim.http Sim.clock Sim.sleep
                (λ w', f (env w')
                       = f (env (_request Sim.http m endpoint data recursion w).2))
                ltac:(intros d w' Hw'; simpl; by rewrite Hsleep)
                ltac:(intros url w' Hw'; simpl; by rewrite sim_get_unchanged)
                fuel m endpoint data recursion w eq_refl) as Hinv.
  cbv beta in Hinv. by rewrite Hinv, request_spec.
Qed.

Lemma sim_get_settings s :
  Sim.http (Request GET EmptyString None None) s
  = (Sim.ok (Some (MSettings (Sim.server_settings s))), s).
Proof. reflexivity. Qed.

Lemma sim_settings_get (w : world) :
  settings_get Sim.http w
  = (Returns (Success (Sim.server_settings (env w))),
     World (env w) (trace w ++ [Request GET EmptyString None None])).
Proof. by rewrite (settings_get_found Sim.http w _ _ (sim_get_settings _) eq_refl). Qed.

(** The settings that the server holds after a [PUT] of settings, with
    or without a wait. *)
Lemma sim_put_settings fuel c (w : world) :
  Sim.server_settings
    (env (_sync_request Sim.http Sim.clock Sim.sleep fuel PUT EmptyString
            (Some (BSettings c)) None w).2)
  = c.
Proof. by rewrite (sim_sync_request_store Sim.server_settings). Qed.

Lemma sim_settings_update fuel D (w : world) :
  D ≠ ∅ →
  Sim.server_settings
    (env (settings_update Sim.http Sim.clock Sim.sleep fuel (Some D) w).2)
  = Settings (Some (dict_update (dict_get (s_config (Sim.server_settings (env w))) ∅) D))
      (s_rest (Sim.server_settings (env w))).
Proof.
  intros HD. unfold settings_update. simpl.
  rewrite bool_decide_eq_false_2 by done.
  unfold bind at 1. rewrite request_spec, sim_get_settings. simpl.
  rewrite bind_world by (intros r w'; by destruct (failed r)).
  by rewrite sim_put_settings.
Qed.

Lemma sim_settings_replace fuel D (w : world) :
  D ≠ ∅ →
  Sim.server_settings
    (env (settings_replace Sim.http Sim.clock Sim.sleep fuel (Some D) w).2)
  = Settings (Some D) (s_rest (Sim.server_settings (env w))).
Proof.
  intros HD. unfold settings_replace. simpl.
  rewrite bool_decide_eq_false_2 by done.
  unfold bind at 1. rewrite request_spec, sim_get_settings. simpl.
  rewrite bind_world by (intros r w'; by destruct (failed r)).
  by rewrite sim_put_settings.
Qed.

Lemma sim_settings_set fuel key value (w : world) :
  key ≠ EmptyString →
  Sim.server_settings
    (env (settings_set Sim.http Sim.clock Sim.sleep fuel key value w).2)
  = Settings
      (Some (<[key := SStr (py_str value)]>
               (dict_get (s_config (Sim.server_settings (env w))) ∅)))
      (s_rest (Sim.server_settings (env w))).
Proof.
  intros Hkey. unfold settings_set. rewrite bool_decide_eq_false_2 by done.
  rewrite sim_settings_update by apply insert_non_empty.
  unfold dict_update. by rewrite insert_union_singleton_l.
Qed.

Lemma sim_settings_unset fuel key (w : world) v :
  key ≠ EmptyString →
  dict_get (s_config (Sim.server_settings (env w))) ∅ !! key = Some v →
  Sim.server_settings
    (env (settings_unset Sim.http Sim.clock Sim.sleep fuel key w).2)
  = Settings
      (Some (delete key (dict_get (s_config (Sim.server_settings (env w))) ∅)))
      (s_rest (Sim.server_settings (env w))).
Proof.
  intros Hkey Hv.
  rewrite (settings_unset_found Sim.http Sim.clock Sim.sleep fuel key w _ _ Hkey
             (sim_get_settings _) eq_refl).
  cbn [Sim.ok e_metadata as_settings]. cbv zeta. rewrite Hv.
  rewrite bind_world by (intros r w'; by destruct (failed r)).
  by rewrite sim_put_settings.
Qed.

(** X6. Setting a key stores the string of the value under it and leaves
    every other key and every other member of the settings as they were;
    unsetting the key afterwards gives back the settings that were there
    before, when the key was not set then. *)
Theorem set_then_unset_restores fuel fuel' key value s C :
  key ≠ EmptyString →
  s_config (Sim.server_settings s) = Some C →
  let w1 := (settings_set Sim.http Sim.clock Sim.sleep fuel key value (Sim.start s)).2 in
  let w2 := (settings_unset Sim.http Sim.clock Sim.sleep fuel' key w1).2 in
  Sim.server_settings (env w1)
  = Settings (Some (<[key := SStr (py_str value)]> C)) (s_rest (Sim.server_settings s))
  ∧ (C !! key = None → Sim.server_settings (env w2) = Sim.server_settings s).
Proof.
  intros Hkey HC w1 w2.
  assert (Sim.server_settings (env w1)
          = Settings (Some (<[key := SStr (py_str value)]> C))
              (s_rest (Sim.server_settings s))) as H1.
  { subst w1. rewrite sim_settings_set by done. simpl. by rewrite HC. }
  split; [exact H1|]. intros Hfresh. subst w2.
  rewrite (sim_settings_unset fuel' key w1 (SStr (py_str value)) Hkey)
    by (rewrite H1; simpl; apply lookup_insert_eq).
  rewrite H1. simpl. rewrite delete_insert_id by done.
  destruct (Sim.server_settings s) as [c rest]. simpl in *. by subst c.
Qed.

(** *** The settings states *)

Local Abbreviation sim_settings_config test :=
  (settings_config Sim.http Sim.clock Sim.sleep test).
Local Abbreviation sim_settings_present test :=
  (settings_present Sim.http Sim.clock Sim.sleep test).
Local Abbreviation sim_settings_absent test :=
  (settings_absent Sim.http Sim.clock Sim.sleep test).
Local Abbreviation sim_settings_managed test :=
  (settings_managed Sim.http Sim.clock Sim.sleep test).

(** X7. [settings_config] converges in one run, for every value: after
    a real run the server holds the string of the value under the key,
    and a second run, real or dry, reads the settings once, finds the
    key at its value and changes nothing. *)
Theorem settings_config_converges test fuel fuel' name key value s :
  key ≠ EmptyString →
  let w1 := (sim_settings_config false fuel name key value (Sim.start s)).2 in
  dict_get (s_config (Sim.server_settings (env w1))) ∅ !! key
  = Some (SStr (py_str value))
  ∧ sim_settings_config test fuel' name key value w1
    = (Returns (StateRet name (Some true) ∅
                  (Text ("Setting " +:+ key +:+ " already has value "
                         +:+ py_str value))),
       World (env w1) (trace w1 ++ [Request GET EmptyString None None])).
Proof.
  intros Hkey w1.
  assert (dict_get (s_config (Sim.server_settings (env w1))) ∅ !! key
          = Some (SStr (py_str value))) as Hlive.
  { subst w1. unfold settings_config.
    unfold bind at 1. rewrite sim_settings_get. cbn [Sim.start env trace].
    case_bool_decide as Hnow; [exact Hnow|].
    rewrite bind_world by (intros [msg|error] w'; reflexivity).
    rewrite sim_settings_set by done. simpl. apply lookup_insert_eq. }
  split; [exact Hlive|].
  unfold settings_config. unfold bind at 1. rewrite sim_settings_get.
  by rewrite bool_decide_eq_true_2.
Qed.

(** X8. [settings_present] sends the desired values as they are given
    and compares their strings: when the desired values are strings,
    after a real run nothing is left to change, and a second run, real
    or dry, reads the settings once and changes nothing. *)
Theorem settings_present_converges test fuel fuel' name config s :
  (∀ k v, dict_get config ∅ !! k = Some v → ∃ str, v = SStr str) →
  let w1 := (sim_settings_present false fuel name config (Sim.start s)).2 in
  sim_settings_present test fuel' name config w1
  = (Returns (StateRet name (Some true) None
                (Text "Server settings already in desired state")),
     World (env w1) (trace w1 ++ [Request GET EmptyString None None])).
Proof.
  intros Hstr w1.
  assert (config_diff (dict_get (s_config (Sim.server_settings (env w1))) ∅)
            (dict_get config ∅) = ∅) as Hlive.
  { subst w1. unfold settings_present.
    unfold bind at 1. rewrite sim_settings_get. cbn [Sim.start env trace].
    case_bool_decide as Hnow; [exact Hnow|].
    rewrite bind_world by (intros [msg|error] w'; reflexivity).
    destruct config as [D|]; [|done]. simpl in *.
    assert (D ≠ ∅) as HD by (intros ->; by apply Hnow).
    rewrite sim_settings_update by done. simpl.
    by apply config_diff_merged. }
  unfold settings_present. unfold bind at 1. rewrite sim_settings_get.
  by rewrite bool_decide_eq_true_2.
Qed.

(** Nothing is to change exactly when the live configuration is the
    desired one, key for key. *)
Lemma managed_changes_empty (C : config_map) (D : gmap string string) :
  managed_changes C D = ∅ ↔ C = SStr <$> D.
Proof.
  unfold managed_changes. split.
  - intros Hempty. apply map_eq. intros k.
    pose proof (f_equal (.!! k) Hempty) as Hk. simpl in Hk.
    rewrite lookup_empty in Hk. apply lookup_union_None in Hk as [Hdel Hupd].
    rewrite map_lookup_imap in Hdel. rewrite map_lookup_imap in Hupd.
    rewrite lookup_fmap.
    destruct (D !! k) as [v|] eqn:HD; simpl in *.
    + by case_bool_decide.
    + by destruct (C !! k).
  - intros ->. apply map_eq. intros k. rewrite lookup_empty.
    apply lookup_union_None. rewrite !map_lookup_imap, lookup_fmap.
    destruct (D !! k) as [v|] eqn:HD; simpl; [|done].
    by rewrite bool_decide_eq_true_2.
Qed.

(** X9. [settings_managed] with a desired configuration that is not
    empty converges in one run and exactly: after a real run the server
    holds the strings of the desired values and no other key, and a
    second run, real or dry, reads the settings once and changes
    nothing. *)
Theorem settings_managed_converges_exactly test fuel fuel' name config s :
  config ≠ ∅ →
  let w1 := (sim_settings_managed false fuel name (Some config) (Sim.start s)).2 in
  s_config (Sim.server_settings (env w1)) = Some (SStr <$> (py_str <$> config))
  ∧ sim_settings_managed test fuel' name (Some config) w1
    = (Returns (StateRet name (Some true) None
                  (Text "Server settings already match desired state exactly")),
       World (env w1) (trace w1 ++ [Request GET EmptyString None None])).
Proof.
  intros Hconfig w1.
  assert (SStr <$> (py_str <$> config) ≠ (∅ : config_map)) as Hdesired.
  { intros Hempty. apply fmap_empty_inv in Hempty. by apply fmap_empty_inv in Hempty. }
  assert (s_config (Sim.server_settings (env w1))
          = Some (SStr <$> (py_str <$> config))) as Hlive.
  { subst w1. unfold settings_managed.
    unfold bind at 1. rewrite sim_settings_get. cbn [Sim.start env trace dict_get].
    case_bool_decide as Hnow.
    - apply managed_changes_empty in Hnow.
      simpl.
      destruct (s_config (Sim.server_settings s)) as [C|]; simpl in *;
        [by rewrite <- Hnow | by destruct Hdesired].
    - rewrite bind_world by (intros [msg|error] w'; reflexivity).
      by rewrite sim_settings_replace. }
  split; [exact Hlive|].
  unfold settings_managed. unfold bind at 1. rewrite sim_settings_get.
  rewrite Hlive. cbn [dict_get].
  by rewrite bool_decide_eq_true_2 by by apply managed_changes_empty.
Qed.

(** X11. [settings_absent] converges in one run: after a real run the
    server's configuration is the one it had with the key deleted, and a
    second run, real or dry, reads the settings once and changes
    nothing. *)
Theorem settings_absent_converges test fuel fuel' name key s :
  key ≠ EmptyString →
  let C := dict_get (s_config (Sim.server_settings s)) ∅ in
  let w1 := (sim_settings_absent false fuel name key (Sim.start s)).2 in
  dict_get (s_config (Sim.server_settings (env w1))) ∅ = delete key C
  ∧ sim_settings_absent test fuel' name key w1
    = (Returns (StateRet name (Some true) ∅
                  (Text ("Setting " +:+ key +:+ " already absent"))),
       World (env w1) (trace w1 ++ [Request GET EmptyString None None])).
Proof.
  intros Hkey C w1.
  assert (dict_get (s_config (Sim.server_settings (env w1))) ∅ = delete key C)
    as Hlive.
  { subst w1 C. unfold settings_absent.
    unfold bind at 1. rewrite sim_settings_get. cbn [Sim.start env trace].
    destruct (dict_get (s_config (Sim.server_settings s)) ∅ !! key)
      as [v|] eqn:Hv.
    - rewrite bind_world by (intros [msg|error] w'; reflexivity).
      match goal with
      | |- context [settings_unset _ _ _ _ _ ?w] =>
          by rewrite (sim_settings_unset fuel key w v Hkey Hv)
      end.
    - simpl. by rewrite delete_id. }
  split; [exact Hlive|].
  unfold settings_absent. unfold bind at 1. rewrite sim_settings_get.
  rewrite Hlive. cbn [env]. by rewrite lookup_delete_eq.
Qed.

(** ** Accessors and states on any control plane *)

(** With nothing desired, every live key is a removal. *)
Lemma managed_changes_nothing_desired (C : config_map) :
  managed_changes C ∅ = (λ v, (v, None)) <$> C.
Proof.
  unfold managed_changes. apply map_eq. intros k.
  rewrite lookup_union, !map_lookup_imap, lookup_fmap, !lookup_empty.
  by destruct (C !! k).
Qed.

Section AccessorEdges.

Context {W : Type}.
Variable http : request → W → transport_outcome * W.
Variable clock : W → Z.
Variable sleep : Z → W → W.
Variable quote : string → string.

(** X10. [settings_managed] cannot empty the configuration: with no
    desired key ([config] missing or empty) and a live configuration that
    has keys, the dry run reports the removal of every live key, while
    the real run fails with the message of [settings_replace], which
    refuses an empty dict, and sends nothing after the read. *)
Theorem managed_cannot_empty test fuel name config (w : world) e env1 C :
  http (Request GET EmptyString None None) (env w) = (Json e, env1) →
  failed (Response e) = false →
  s_config (as_settings (e_metadata e)) = Some C →
  C ≠ ∅ →
  dict_get config ∅ = ∅ →
  settings_managed http clock sleep test fuel name config w
  = (Returns
       (if test
        then StateRet name None (Some ((λ v, (v, None)) <$> C))
               (Text "Server settings would be replaced")
        else StateRet name (Some false) None
               (Text ("Failed to replace server settings: "
                      +:+ "config parameter must be a dictionary"))),
     World env1 (trace w ++ [Request GET EmptyString None None])).
Proof.
  intros Hhttp Hok HC Hlive Hconfig. unfold settings_managed.
  unfold bind at 1. rewrite (settings_get_found http w e env1 Hhttp Hok).
  rewrite HC, Hconfig. cbn [dict_get]. rewrite fmap_empty.
  rewrite managed_changes_nothing_desired.
  rewrite bool_decide_eq_false_2
    by (intros Hempty; by apply fmap_empty_inv in Hempty).
  destruct test; [reflexivity|].
  unfold settings_replace. rewrite fmap_empty. simpl.
  by rewrite bool_decide_eq_true_2.
Qed.

(** X12. The updates of storage pools, volumes and networks test the
    read for an [error] member, not for its error code: a body that has
    the member, whatever it holds and even with the error code 0, makes
    the update return it as a failure after the read, with no [PUT];
    [storage_pool_get] takes the same body with the error code 0 for a
    success. *)
Theorem error_member_blocks_update fuel config description (w : world) e env1 error :
  e_error e = Some error →
  (∀ name,
     http (Request GET ("/storage-pools/" +:+ quote name) None None) (env w)
     = (Json e, env1) →
     storage_pool_update http clock sleep quote fuel name config description w
     = (Returns (Failure error),
        World env1
          (trace w ++ [Request GET ("/storage-pools/" +:+ quote name) None None]))
     ∧ (e_error_code e = Some (SInt 0) →
        storage_pool_get http quote name w
        = (Returns (Success (as_resource (e_metadata e))),
           World env1
             (trace w
              ++ [Request GET ("/storage-pools/" +:+ quote name) None None]))))
  ∧ (∀ pool name volume_type,
       let endpoint := "/storage-pools/" +:+ quote pool +:+ "/volumes/"
                       +:+ volume_type +:+ "/" +:+ quote name in
       http (Request GET endpoint None None) (env w) = (Json e, env1) →
       volume_update http clock sleep quote fuel pool name volume_type config
         description w
       = (Returns (Failure error),
          World env1 (trace w ++ [Request GET endpoint None None])))
  ∧ (∀ name net_config,
       http (Request GET ("/networks/" +:+ quote name) None None) (env w)
       = (Json e, env1) →
       network_update http clock sleep quote fuel name net_config w
       = (Returns (Failure error),
          World env1
            (trace w ++ [Request GET ("/networks/" +:+ quote name) None None]))).
Proof.
  intros Herror. split; [|split].
  - intros name Hhttp. split.
    + unfold storage_pool_update. unfold bind at 1.
      rewrite request_spec, Hhttp. simpl. by rewrite Herror.
    + intros Hcode. unfold storage_pool_get. unfold bind at 1.
      rewrite request_spec, Hhttp. simpl. unfold failed. simpl.
      by rewrite Hcode.
  - intros pool name volume_type endpoint Hhttp.
    unfold volume_update. unfold bind at 1. fold endpoint.
    rewrite request_spec, Hhttp. simpl. by rewrite Herror.
  - intros name net_config Hhttp.
    unfold network_update. unfold bind at 1.
    rewrite request_spec, Hhttp. simpl. by rewrite Herror.
Qed.

(** X3. [instance_update] cannot remove a device or a property of a
    device. The devices it sends are the live ones with the desired ones
    merged in: a device that is not desired is sent as it is live, a
    desired device that is not live is sent as desired, and a device that
    is both has the desired properties and, beside them, every live
    property that the desired device does not name. *)
Theorem update_keeps_devices fuel name config devices profiles (w : world)
    e env1 C Dv :
  http (Request GET ("/instances/" +:+ quote name) None None) (env w) = (Json e, env1) →
  failed (Response e) = false →
  i_config (as_instance (e_metadata e)) = Some C →
  i_devices (as_instance (e_metadata e)) = Some Dv →
  ∃ sent merged,
    mutations
      (trace (instance_update http clock sleep quote fuel name config (Some devices)
                profiles w).2)
    = mutations (trace w)
      ++ [Request PUT ("/instances/" +:+ quote name) (Some (BInstance sent)) None]
    ∧ i_devices sent = Some merged
    ∧ (∀ d, devices !! d = None → merged !! d = Dv !! d)
    ∧ (∀ d conf, devices !! d = Some conf → Dv !! d = None → merged !! d = Some conf)
    ∧ (∀ d conf live,
         devices !! d = Some conf → Dv !! d = Some live →
         ∃ both,
           merged !! d = Some both
           ∧ ∀ k, both !! k = match conf !! k with
                              | Some v => Some v
                              | None => live !! k
                              end)
    ∧ (∀ d live k v,
         Dv !! d = Some live → live !! k = Some v →
         ∃ both, merged !! d = Some both ∧ is_Some (both !! k)).
Proof.
  intros Hhttp Hok HC HDv.
  eexists _, (merge_devices Dv devices).
  split; [|split; [|split; [|split; [|split]]]].
  - by apply (instance_update_mutations http clock sleep quote fuel name config
                (Some devices) profiles w e env1 C Dv).
  - simpl. f_equal. case_bool_decide as Hempty; [|done].
    rewrite Hempty. unfold merge_devices. by rewrite !map_fold_empty.
  - intros d Hd. by rewrite merge_devices_lookup, Hd.
  - intros d conf Hd Hlive. by rewrite merge_devices_lookup, Hd, Hlive.
  - intros d conf live Hd Hlive. eexists. split.
    + by rewrite merge_devices_lookup, Hd, Hlive.
    + intros k. by rewrite dict_update_lookup.
  - intros d live k v Hlive Hk. rewrite merge_devices_lookup, Hlive.
    destruct (devices !! d) as [conf|]; (eexists; split; [reflexivity|]).
    + rewrite dict_update_lookup, Hk. by destruct (conf !! k).
    + by rewrite Hk.
Qed.

(** X4. [instance_present] takes every failed read for absence: when the
    read of the instance fails in any way that names an error (a refused
    connection, an error status, a body that is not JSON, an error
    envelope), the real run goes on to create the instance, and its one
    mutation is the [POST /instances] with the creation payload, in which
    an empty [source], [config], [devices] or [profiles] is left out. *)
Theorem failed_read_is_taken_for_absence fuel name source instance_type config
    devices profiles ephemeral (w : world) o env1 :
  http (Request GET ("/instances/" +:+ quote name) None None) (env w) = (o, env1) →
  failed (request_result o) = true →
  is_Some (get_error (request_result o)) →
  mutations
    (trace (instance_present http clock sleep quote false fuel name source
              instance_type config devices profiles ephemeral w).2)
  = mutations (trace w)
    ++ [Request POST "/instances"
          (Some (BCreate (CreateData name instance_type ephemeral (truthy source)
                            (truthy config) (truthy devices) (truthy_list profiles))))
          None].
Proof.
  intros Hhttp Hfailed [error Herror]. unfold instance_present.
  unfold bind at 1. rewrite instance_get_spec. cbv zeta.
  rewrite Hhttp. cbn [fst snd]. rewrite Hfailed, Herror.
  rewrite bind_world by (intros [msg|error'] w'; reflexivity).
  unfold instance_create.
  rewrite bind_world
    by (intros r w'; destruct (failed r); [apply failure_of_world|reflexivity]).
  rewrite sync_request_mutations. cbn [trace].
  by rewrite mutations_app, app_nil_r.
Qed.

End AccessorEdges.

(** ** Volumes and snapshots on the reference control plane *)

(** With no desired config, [instance_update] reads the [devices] member
    alone. *)
Lemma update_fields_devices {W} live devices (w : @world W) Dv :
  i_devices live = Some Dv →
  devices ≠ ∅ →
  update_fields live None (Some devices) None w
  = (Returns (Instance (i_name live) (i_status live) (i_config live)
                (Some (merge_devices Dv devices)) (i_profiles live)), w).
Proof.
  intros HDv Hdevices. unfold update_fields.
  destruct live as [n st c d p]; simpl in *; subst d.
  rewrite bool_decide_eq_false_2 by done. by unfold_monad.
Qed.

Lemma instance_update_devices fuel name devices (w : world) live Dv :
  Sim.split_at_slash name = (name, EmptyString) →
  Sim.instances (env w) !! name = Some live →
  i_devices live = Some Dv →
  devices ≠ ∅ →
  Sim.instances
    (env (instance_update Sim.http Sim.clock Sim.sleep Sim.quote fuel name None
            (Some devices) None w).2)
  = <[name := Instance (i_name live) (i_status live) (i_config live)
                (Some (merge_devices Dv devices)) (i_profiles live)]>
      (Sim.instances (env w)).
Proof.
  intros Hname Hlive HDv Hdevices. unfold instance_update.
  unfold bind at 1.
  rewrite (instance_get_found Sim.http Sim.quote name w _ _
             (sim_get_instance name (env w) live Hname Hlive) eq_refl).
  cbn [Sim.ok e_metadata as_instance].
  unfold bind at 1. rewrite (update_fields_devices live devices _ Dv HDv Hdevices).
  rewrite bind_world
    by (intros r w'; destruct (failed r); [apply failure_of_world|reflexivity]).
  rewrite (sim_sync_request_store Sim.instances) by done.
  cbn [env].
  by rewrite (sim_put_instance name (env w) live _ Hname Hlive).
Qed.

Local Abbreviation sim_volume_attached test :=
  (volume_attached Sim.http Sim.clock Sim.sleep Sim.quote test).

(** X13. [volume_attached] converges in one run, and it never looks at
    the mount path of a volume that is attached: after a real run on an
    instance that has its [devices] member, a second run, real or dry and
    with any [path], the same or another, reads the instance once, finds
    the volume attached and changes nothing. *)
Theorem volume_attached_converges test fuel fuel' name pool instance device_name
    path path' s live Dv :
  Sim.split_at_slash instance = (instance, EmptyString) →
  Sim.instances s !! instance = Some live →
  i_devices live = Some Dv →
  let w1 :=
    (sim_volume_attached false fuel name pool instance device_name path
       (Sim.start s)).2 in
  sim_volume_attached test fuel' name pool instance device_name path' w1
  = (Returns (StateRet name (Some true) None
                (Text ("Volume " +:+ name +:+ " already attached to instance "
                       +:+ instance))),
     World (env w1)
       (trace w1 ++ [Request GET ("/instances/" +:+ Sim.quote instance) None None])).
Proof.
  intros Hname Hlive HDv w1.
  set (dev := match device_name with
              | Some d => if bool_decide (d = EmptyString) then name else d
              | None => name
              end).
  assert (∃ live' device,
            Sim.instances (env w1) !! instance = Some live'
            ∧ dict_get (i_devices live') ∅ !! dev = Some device
            ∧ device !! "type" = Some (SStr "disk")
            ∧ device !! "pool" = Some (SStr pool)
            ∧ device !! "source" = Some (SStr name)) as (live' & device & Hlive' & Hdev & Ht & Hp & Hs).
  { assert (∀ nd : config_map, ({[ dev := nd ]} : device_map) ≠ ∅) as Hne
      by (intros nd; apply insert_non_empty).
    subst w1. unfold volume_attached. fold dev.
    unfold bind at 1.
    rewrite (instance_get_found Sim.http Sim.quote instance (Sim.start s) _ _
               (sim_get_instance instance s live Hname Hlive) eq_refl).
    cbn [Sim.ok e_metadata as_instance]. rewrite HDv. cbn [dict_get].
    destruct (Dv !! dev) as [device|] eqn:Hdevice.
    - destruct (bool_decide (device !! "type" = Some (SStr "disk"))
                && bool_decide (device !! "pool" = Some (SStr pool))
                && bool_decide (device !! "source" = Some (SStr name))) eqn:Hatt.
      + apply andb_prop in Hatt as [Hatt Hs]. apply andb_prop in Hatt as [Ht Hp].
        apply bool_decide_eq_true_1 in Ht, Hp, Hs.
        exists live, device. cbn [env snd]. rewrite HDv. by repeat split.
      + rewrite bind_world by (intros [msg|error] w'; reflexivity).
        match goal with
        | |- context [instance_update _ _ _ _ _ _ _ (Some {[ dev := ?nd ]}) _ ?w] =>
            rewrite (instance_update_devices fuel instance {[ dev := nd ]} w live Dv
                       Hname Hlive HDv (Hne nd));
              set (new_device := nd)
        end.
        eexists _, (dict_update device new_device).
        split; [apply lookup_insert_eq|]. cbn [i_devices dict_get].
        split; [by rewrite merge_devices_lookup, lookup_singleton_eq, Hdevice|].
        rewrite !dict_update_lookup. subst new_device.
        destruct path as [p|]; [destruct (bool_decide (p = EmptyString))|];
        by repeat split.
    - rewrite bind_world by (intros [msg|error] w'; reflexivity).
      match goal with
      | |- context [instance_update _ _ _ _ _ _ _ (Some {[ dev := ?nd ]}) _ ?w] =>
          rewrite (instance_update_devices fuel instance {[ dev := nd ]} w live Dv
                     Hname Hlive HDv (Hne nd));
            set (new_device := nd)
      end.
      eexists _, new_device.
      split; [apply lookup_insert_eq|]. cbn [i_devices dict_get].
      split; [by rewrite merge_devices_lookup, lookup_singleton_eq, Hdevice|].
      subst new_device.
      destruct path as [p|]; [destruct (bool_decide (p = EmptyString))|];
        by repeat split. }
  unfold volume_attached. fold dev. unfold bind at 1.
  rewrite (instance_get_found Sim.http Sim.quote instance w1 _ _
             (sim_get_instance instance (env w1) live' Hname Hlive') eq_refl).
  cbn [Sim.ok e_metadata as_instance]. rewrite Hdev.
  by rewrite !bool_decide_eq_true_2.
Qed.

Lemma sim_split_at_slash_app name rest :
  Sim.split_at_slash name = (name, EmptyString) →
  Sim.split_at_slash (name +:+ String "/" rest) = (name, String "/" rest).
Proof.
  induction name as [|c name IH]; simpl; [done|].
  destruct (Ascii.eqb c "/"); [intros; simplify_eq|].
  destruct (Sim.split_at_slash name) as [name' rest'].
  intros Hname. simplify_eq. by rewrite IH.
Qed.

Lemma sim_route_of_snapshots name :
  Sim.split_at_slash name = (name, EmptyString) →
  Sim.route_of ("/instances/" +:+ name +:+ "/snapshots") = Sim.Snapshots name.
Proof.
  intros Hname. unfold Sim.route_of.
  rewrite bool_decide_eq_false_2 by done.
  rewrite bool_decide_eq_false_2
    by (destruct name; simpl; intros H; by simplify_eq).
  rewrite sim_strip_prefix_app.
  change (name +:+ "/snapshots") with (name +:+ String "/" "snapshots").
  by rewrite (sim_split_at_slash_app name "snapshots" Hname).
Qed.

Lemma sim_route_of_snapshot name snap :
  Sim.split_at_slash name = (name, EmptyString) →
  Sim.route_of ("/instances/" +:+ name +:+ "/snapshots/" +:+ snap)
  = Sim.ASnapshot name snap.
Proof.
  intros Hname. unfold Sim.route_of.
  rewrite bool_decide_eq_false_2 by done.
  rewrite bool_decide_eq_false_2
    by (destruct name; simpl; intros H; by simplify_eq).
  rewrite sim_strip_prefix_app.
  change (name +:+ "/snapshots/" +:+ snap)
    with (name +:+ String "/" ("snapshots/" +:+ snap)).
  rewrite (sim_split_at_slash_app name ("snapshots/" +:+ snap) Hname).
  cbv beta iota. rewrite bool_decide_eq_false_2 by done.
  change (String "/" ("snapshots/" +:+ snap)) with ("/snapshots" +:+ "/" +:+ snap).
  rewrite sim_strip_prefix_app.
  rewrite bool_decide_eq_false_2 by done.
  change ("/" +:+ snap) with (String "/" snap). simpl.
  reflexivity.
Qed.

Lemma sim_get_snapshots name recursion s live :
  Sim.split_at_slash name = (name, EmptyString) →
  Sim.instances s !! name = Some live →
  Sim.http (Request GET ("/instances/" +:+ Sim.quote name +:+ "/snapshots")
              None recursion) s
  = (Sim.ok (Some (MSnapshots (dict_get (Sim.snapshots s !! name) []))), s).
Proof.
  intros Hname Hlive. unfold Sim.http, Sim.quote. cbn [r_method r_endpoint r_data].
  by rewrite sim_route_of_snapshots, Hlive.
Qed.

Lemma sim_delete_snapshot name snap s :
  Sim.split_at_slash name = (name, EmptyString) →
  snap ∉ Sim.locked s →
  (Sim.http (Request DELETE ("/instances/" +:+ Sim.quote name +:+ "/snapshots/"
                             +:+ Sim.quote snap) None None) s).2
  = Sim.with_snapshots s
      (<[name := List.filter (λ x, negb (String.eqb (snap_name x) snap))
                   (dict_get (Sim.snapshots s !! name) [])]> (Sim.snapshots s)).
Proof.
  intros Hname Hfree. unfold Sim.http, Sim.quote. cbn [r_method r_endpoint r_data].
  rewrite sim_route_of_snapshot by done.
  by rewrite bool_decide_eq_false_2.
Qed.

Lemma existsb_filter_negb {A} (f : A → bool) (l : list A) :
  existsb f (List.filter (λ x, negb (f x)) l) = false.
Proof.
  induction l as [|x l IH]; simpl; [done|].
  destruct (f x) eqn:Hx; simpl; [done|]. by rewrite Hx.
Qed.

Lemma filter_negb_id {A} (f : A → bool) (l : list A) :
  existsb f l = false → List.filter (λ x, negb (f x)) l = l.
Proof.
  induction l as [|x l IH]; simpl; [done|].
  destruct (f x); simpl; [done|]. intros Hl. by rewrite IH.
Qed.

Local Abbreviation sim_snapshot_absent test :=
  (instance_snapshot_absent Sim.http Sim.clock Sim.sleep Sim.quote test).

(** The state once the instance and its listing are read. *)
Lemma sim_snapshot_absent_read test fuel instance name (w : world) live :
  Sim.split_at_slash instance = (instance, EmptyString) →
  Sim.instances (env w) !! instance = Some live →
  sim_snapshot_absent test fuel instance name w
  = let ret_name := instance +:+ "/" +:+ name in
    let w1 :=
      World (env w)
        (trace w
         ++ [Request GET ("/instances/" +:+ Sim.quote instance) None None;
             Request GET ("/instances/" +:+ Sim.quote instance +:+ "/snapshots")
               None (Some 1)]) in
    if negb (existsb (λ x, String.eqb (snap_name x) name)
               (dict_get (Sim.snapshots (env w) !! instance) []))
    then (Returns (StateRet ret_name (Some true) None
                     (Text ("Snapshot " +:+ name +:+ " already absent from instance "
                            +:+ instance))), w1)
    else if test
    then (Returns (StateRet ret_name None (Some name)
                     (Text ("Snapshot " +:+ name +:+ " would be deleted from instance "
                            +:+ instance))), w1)
    else
      bind (instance_snapshot_delete Sim.http Sim.clock Sim.sleep Sim.quote fuel
              instance name)
        (λ delete_result,
           match delete_result with
           | Success _ =>
               ret (StateRet ret_name (Some true) (Some name)
                      (Text ("Snapshot " +:+ name +:+ " deleted from instance "
                             +:+ instance)))
           | Failure error =>
               ret (StateRet ret_name (Some false) None
                      (Text ("Failed to delete snapshot " +:+ name +:+ ": " +:+ error)))
           end)
        w1.
Proof.
  intros Hname Hlive. unfold instance_snapshot_absent.
  unfold bind at 1.
  rewrite (instance_get_found Sim.http Sim.quote instance w _ _
             (sim_get_instance instance (env w) live Hname Hlive) eq_refl).
  cbn [succeeded negb].
  unfold bind at 1. rewrite instance_snapshot_list_spec. cbv zeta. cbn [env trace].
  rewrite (sim_get_snapshots instance (Some 1) (env w) live Hname Hlive).
  cbn [fst snd Sim.ok request_result failed get_error_code e_error_code dict_get
         py_ne0 get_metadata e_metadata as_snapshots].
  rewrite <- app_assoc. cbn [app].
  destruct (negb _); [reflexivity|]. by destruct test.
Qed.

(** X14. [instance_snapshot_absent] converges in one run: after a real
    run on an instance that exists, for a snapshot that the server lets
    go, the listing is the one before without the snapshots of that name,
    the others in their order; a second run, real or dry, reads the
    instance and the listing and changes nothing. *)
Theorem snapshot_absent_converges test fuel fuel' instance name s live :
  Sim.split_at_slash instance = (instance, EmptyString) →
  Sim.instances s !! instance = Some live →
  name ∉ Sim.locked s →
  let w1 := (sim_snapshot_absent false fuel instance name (Sim.start s)).2 in
  dict_get (Sim.snapshots (env w1) !! instance) []
  = List.filter (λ x, negb (String.eqb (snap_name x) name))
      (dict_get (Sim.snapshots s !! instance) [])
  ∧ sim_snapshot_absent test fuel' instance name w1
    = (Returns (StateRet (instance +:+ "/" +:+ name) (Some true) None
                  (Text ("Snapshot " +:+ name +:+ " already absent from instance "
                         +:+ instance))),
       World (env w1)
         (trace w1
          ++ [Request GET ("/instances/" +:+ Sim.quote instance) None None;
              Request GET ("/instances/" +:+ Sim.quote instance +:+ "/snapshots")
                None (Some 1)])).
Proof.
  intros Hname Hlive Hfree w1.
  assert (Sim.instances (env w1) !! instance = Some live
          ∧ dict_get (Sim.snapshots (env w1) !! instance) []
            = List.filter (λ x, negb (String.eqb (snap_name x) name))
                (dict_get (Sim.snapshots s !! instance) [])) as [Hlive1 Hsnaps1].
  { subst w1.
    rewrite (sim_snapshot_absent_read false fuel instance name (Sim.start s) live
               Hname Hlive).
    cbv zeta. cbn [Sim.start env trace].
    destruct (existsb (λ x, String.eqb (snap_name x) name)
                (dict_get (Sim.snapshots s !! instance) [])) eqn:Hex;
      cbn [negb].
    - rewrite bind_world by (intros [msg|error] w'; reflexivity).
      unfold instance_snapshot_delete.
      rewrite bind_world
        by (intros r w'; destruct (failed r); [apply failure_of_world|reflexivity]).
      rewrite (sim_sync_request_store Sim.instances) by done.
      rewrite (sim_sync_request_store Sim.snapshots) by done.
      cbn [env]. rewrite sim_delete_snapshot by done.
      split; [exact Hlive|]. simpl. by rewrite lookup_insert_eq.
    - split; [exact Hlive|]. simpl. by rewrite filter_negb_id. }
  split; [exact Hsnaps1|].
  rewrite (sim_snapshot_absent_read test fuel' instance name w1 live Hname Hlive1).
  cbv zeta. by rewrite Hsnaps1, existsb_filter_negb.
Qed.

(** ** The client configuration *)

Lemma merged_value_dict b o :
  merged_value (Some (VDict b)) (VDict o) = VDict (deep_merge b o).
Proof. reflexivity. Qed.

Lemma merged_value_over_not_dict current v :
  (∀ b, current ≠ Some (VDict b)) → merged_value current v = v.
Proof.
  intros Hc. destruct current as [[|flag|str|b]|]; try by destruct v.
  by destruct (Hc b).
Qed.

(** The loop of [deep_merge], key by key. *)
Lemma deep_merge_at base override k :
  deep_merge base override !! k
  = match override !! k with
    | Some v => Some (merged_value (base !! k) v)
    | None => base !! k
    end.
Proof.
  unfold deep_merge.
  induction override as [|key v override Hfresh Hfold IH] using map_first_key_ind.
  - by rewrite map_fold_empty, lookup_empty.
  - rewrite map_fold_insert_first_key by done.
    set (acc := map_fold _ base override) in *.
    destruct (decide (key = k)) as [->|Hne].
    + rewrite !lookup_insert_eq. rewrite Hfresh in IH. by rewrite IH.
    + rewrite (lookup_insert_ne override) by done. rewrite <- IH.
      by rewrite lookup_insert_ne.
Qed.

(** X15. [deep_merge] key by key: a key that the override does not have
    keeps the value of the base; a key at which both hold a dict gets the
    merge of the two dicts; at any other key of the override its value
    replaces what the base had, a dict by a scalar and a scalar by a dict
    as well. The keys of the result are those of the base and those of
    the override. *)
Theorem deep_merge_lookup base override k :
  deep_merge base override !! k
  = match override !! k, base !! k with
    | None, current => current
    | Some (VDict o), Some (VDict b) => Some (VDict (deep_merge b o))
    | Some v, _ => Some v
    end
  ∧ dom (deep_merge base override) = dom base ∪ dom override.
Proof.
  split.
  - rewrite deep_merge_at.
    destruct (override !! k) as [v|]; [|done].
    by destruct v as [|flag|str|o], (base !! k) as [[|flag'|str'|b]|].
  - apply set_eq. intros key.
    rewrite elem_of_union, !elem_of_dom, deep_merge_at.
    destruct (override !! key) as [v|].
    + split; [intros _; right|]; by eexists.
    + split; [by left|]. intros [Hbase|[v Hv]]; [done|discriminate].
Qed.

Lemma value_size_lookup d k v :
  d !! k = Some v → (value_size v < value_size (VDict d))%nat.
Proof.
  intros Hk. cbn [value_size].
  rewrite (map_fold_delete_L _ _ k v d); [lia| |done].
  intros. lia.
Qed.

(** Induction on a value, with the property at hand for every member of
    a dict. *)
Lemma value_members_ind (P : value → Prop) :
  P VNone →
  (∀ flag, P (VBool flag)) →
  (∀ str, P (VStr str)) →
  (∀ d, (∀ k v, d !! k = Some v → P v) → P (VDict d)) →
  ∀ v, P v.
Proof.
  intros Hnone Hbool Hstr Hdict v.
  remember (value_size v) as n eqn:Hn. revert v Hn.
  induction (lt_wf n) as [n _ IH]. intros v ->.
  destruct v as [|flag|str|d]; auto.
  apply Hdict. intros k v Hk. eapply IH; [|reflexivity].
  by eapply value_size_lookup.
Qed.

Lemma merged_value_self v : merged_value (Some v) v = v.
Proof.
  induction v as [|flag|str|d IH] using value_members_ind; cbv beta;
    try reflexivity.
  rewrite (merged_value_dict d d). f_equal. apply map_eq. intros k.
  rewrite deep_merge_at.
  destruct (d !! k) as [v|] eqn:Hk; [|done]. f_equal. by eapply IH.
Qed.

Lemma merged_value_idempotent v :
  ∀ current, merged_value (Some (merged_value current v)) v = merged_value current v.
Proof.
  induction v as [|flag|str|o IH] using value_members_ind; cbv beta;
    intros current; try (by destruct current as [[]|]).
  assert ((∃ b, current = Some (VDict b)) ∨ (∀ b, current ≠ Some (VDict b)))
    as [[b ->]|Hnot]
    by (destruct current as [[|flag|str|b]|]; try (by right); left; by eexists).
  - rewrite !merged_value_dict. f_equal. apply map_eq. intros k.
    rewrite !deep_merge_at.
    destruct (o !! k) as [v|] eqn:Hk; [|done]. f_equal. by eapply IH.
  - rewrite (merged_value_over_not_dict current (VDict o) Hnot).
    apply merged_value_self.
Qed.

(** X16. Merging the same override a second time changes nothing, at any
    depth. *)
Theorem deep_merge_idempotent base override :
  deep_merge (deep_merge base override) override = deep_merge base override.
Proof.
  apply map_eq. intros k. rewrite !deep_merge_at.
  destruct (override !! k) as [v|]; [|done].
  f_equal. apply merged_value_idempotent.
Qed.

(** X17. What a load merges into a nested dict of [DEFAULT_CFG] stays
    there: after a load with a pillar that overrides members of the dict
    under [k], the configuration of a later load, with a pillar that does
    not mention [k], still has the overridden members under [k], where a
    load on the untouched defaults has the defaults. *)
Theorem load_config_keeps_overrides pillar_cfg later default_cfg k b o :
  default_cfg !! k = Some (VDict b) →
  pillar_cfg !! k = Some (VDict o) →
  later !! k = None →
  (_load_config later (_load_config pillar_cfg default_cfg).2).1 !! k
  = Some (VDict (deep_merge b o))
  ∧ (_load_config later default_cfg).1 !! k = Some (VDict b).
Proof.
  intros Hdefault Hpillar Hlater. unfold _load_config. cbn [fst snd].
  rewrite !deep_merge_at, Hlater. split; [|done].
  by rewrite map_lookup_imap, Hdefault, Hpillar.
Qed.

(** X18. A load leaves [DEFAULT_CFG] such that a second load with the
    same pillar returns the same configuration. *)
Theorem load_config_stable pillar_cfg default_cfg :
  (_load_config pillar_cfg (_load_config pillar_cfg default_cfg).2).1
  = (_load_config pillar_cfg default_cfg).1.
Proof.
  unfold _load_config. cbn [fst snd]. apply map_eq. intros k.
  rewrite !deep_merge_at, map_lookup_imap.
  destruct (pillar_cfg !! k) as [v|] eqn:Hv.
  - f_equal. destruct (default_cfg !! k) as [[|flag|str|b]|] eqn:Hd; simpl;
      try done.
    destruct v as [|flag|str|o]; try done.
    rewrite !merged_value_dict.
    exact (merged_value_idempotent (VDict o) (Some (VDict b))).
  - destruct (default_cfg !! k) as [[|flag|str|b]|]; simpl; done.
Qed.

Lemma rstrip_slash_app url : rstrip_slash (url +:+ "/") = rstrip_slash url.
Proof.
  induction url as [|c url IH]; [reflexivity|].
  simpl. by rewrite IH.
Qed.

Lemma rstrip_slash_end url rest : rstrip_slash url ≠ rest +:+ "/".
Proof.
  revert rest. induction url as [|c url IH]; intros rest; simpl.
  - destruct rest; simpl; intros H; discriminate H.
  - destruct (Ascii.eqb c "/" && bool_decide (rstrip_slash url = EmptyString))
      eqn:Hstrip.
    + destruct rest; simpl; intros H; discriminate H.
    + destruct rest as [|c' rest]; simpl; intros H.
      * injection H as -> Hurl. rewrite Hurl in Hstrip. discriminate Hstrip.
      * injection H as -> Hurl. by eapply IH.
Qed.


(** X20. A pillar that does not set the connection type gets the local
    socket, whatever else it sets: on the defaults as the module defines
    them, the base URL of the loaded configuration is the one of the unix
    socket when the pillar has no [connection] member or one that is a
    dict without a [type]. *)
Theorem missing_type_means_unix_socket pillar_cfg :
  match pillar_cfg !! "connection" with
  | None => True
  | Some (VDict o) => o !! "type" = None
  | Some _ => False
  end →
  _get_base_url (_load_config pillar_cfg DEFAULT_CFG).1 = inr "http://localhost/1.0".
Proof.
  intros Hpillar. unfold _load_config, _get_base_url. cbn [fst].
  rewrite deep_merge_at.
  destruct (pillar_cfg !! "connection") as [v|]; [|reflexivity].
  destruct v as [|flag|str|o]; try done.
  change (DEFAULT_CFG !! "connection") with
    (Some (VDict {[ "type" := VStr "unix";
                    "socket" := VStr INCUS_SOCKET_PATH;
                    "url" := VNone;
                    "cert" := VNone;
                    "key" := VNone;
                    "verify" := VBool true ]})).
  rewrite merged_value_dict. cbn [dict_get].
  by rewrite deep_merge_at, Hpillar.
Qed.

(** ** Creation and rotation on the reference control plane *)

Lemma sim_get_instance_absent name s :
  Sim.split_at_slash name = (name, EmptyString) →
  Sim.instances s !! name = None →
  Sim.http (Request GET ("/instances/" +:+ Sim.quote name) None None) s
  = (Sim.not_found, s).
Proof.
  intros Hname Hnone. unfold Sim.http, Sim.quote. cbn [r_method r_endpoint r_data].
  by rewrite sim_route_of_instance, Hnone.
Qed.

Lemma config_diff_self (config : config_map) :
  (∀ k v, config !! k = Some v → ∃ str, v = SStr str) →
  config_diff config config = ∅.
Proof.
  intros Hstr. pose proof (config_diff_merged config config Hstr) as Hdiff.
  unfold dict_update in Hdiff.
  by replace (config ∪ config) with config in Hdiff by (symmetry; apply (idemp _)).
Qed.

Lemma device_diff_self (devices : device_map) : device_diff devices devices = ∅.
Proof.
  apply map_eq. intros d. unfold device_diff.
  rewrite map_lookup_imap, lookup_empty.
  destruct (devices !! d) as [conf|] eqn:Hd; simpl; [|done].
  by rewrite bool_decide_eq_true_2.
Qed.

(** Nothing is left to change on the instance that the control plane
    makes of the creation payload, when the desired config values are
    strings. *)
Lemma compute_changes_after_create name status config devices profiles :
  (∀ k v, dict_get config ∅ !! k = Some v → ∃ str, v = SStr str) →
  compute_changes
    (Instance name status
       (Some (dict_get (truthy config) ∅))
       (Some (dict_get (truthy devices) ∅))
       (Some (dict_get (truthy_list profiles) [])))
    config devices profiles
  = no_changes.
Proof.
  intros Hstr. unfold compute_changes, no_changes. cbn [i_config i_devices i_profiles].
  f_equal.
  - destruct (truthy config) as [c|] eqn:Hc; [|done].
    apply truthy_Some in Hc as [-> Hne]. cbn [dict_get] in *.
    rewrite config_diff_self by done. simpl.
    by rewrite bool_decide_eq_true_2.
  - destruct profiles as [[|p profiles]|]; [| |done]; simpl;
      by rewrite bool_decide_eq_true_2.
  - destruct (truthy devices) as [dv|] eqn:Hd; [|done].
    cbn [dict_get]. rewrite device_diff_self. simpl.
    by rewrite bool_decide_eq_true_2.
Qed.

(** X21. Creation converges too: on a control plane that has no
    instance of the name, after the real run of [instance_present] the
    instance is there as desired, and a second run, real or dry, with the
    same specification reads it once, reports no changes and sends
    nothing, when the desired config values are strings. *)
Theorem create_then_converge_is_noop test fuel fuel' name source instance_type config
    devices profiles ephemeral s :
  Sim.split_at_slash name = (name, EmptyString) →
  Sim.instances s !! name = None →
  (∀ k v, dict_get config ∅ !! k = Some v → ∃ str, v = SStr str) →
  let w1 :=
    (instance_present Sim.http Sim.clock Sim.sleep Sim.quote false fuel name source
       instance_type config devices profiles ephemeral (Sim.start s)).2 in
  is_Some (Sim.instances (env w1) !! name)
  ∧ instance_present Sim.http Sim.clock Sim.sleep Sim.quote test fuel' name source
      instance_type config devices profiles ephemeral w1
    = (Returns (StateRet name (Some true) no_changes
                  (Text ("Instance " +:+ name +:+ " already in desired state"))),
       World (env w1)
         (trace w1 ++ [Request GET ("/instances/" +:+ Sim.quote name) None None])).
Proof.
  intros Hname Hnone Hstr w1.
  assert (Sim.instances (env w1) !! name
          = Some (Instance (Some name) (Some "Stopped")
                    (Some (dict_get (truthy config) ∅))
                    (Some (dict_get (truthy devices) ∅))
                    (Some (dict_get (truthy_list profiles) [])))) as Hlive.
  { subst w1. unfold instance_present.
    unfold bind at 1. rewrite instance_get_spec. cbv zeta. cbn [Sim.start env trace].
    rewrite (sim_get_instance_absent name s Hname Hnone).
    cbn [fst snd Sim.not_found request_result error_dict failed get_error_code
           e_error_code dict_get py_ne0 get_error e_error].
    rewrite bind_world by (intros [msg|error] w'; reflexivity).
    unfold instance_create.
    rewrite bind_world
      by (intros r w'; destruct (failed r); [apply failure_of_world|reflexivity]).
    rewrite (sim_sync_request_store Sim.instances) by done.
    cbn [env]. unfold Sim.http. cbn [r_method r_endpoint r_data Sim.route_of c_name].
    change (Sim.route_of "/instances") with Sim.Instances. cbv iota.
    rewrite Hnone. cbn [snd Sim.with_instances Sim.instances c_name c_config
                          c_devices c_profiles].
    apply lookup_insert_eq. }
  split; [by eexists|].
  apply (sim_present_converged test fuel' name source instance_type config devices
           profiles ephemeral w1 _ Hname Hlive).
  by apply compute_changes_after_create.
Qed.

Lemma list_filter_perm {A} (f : A → bool) (l1 l2 : list A) :
  l1 ≡ₚ l2 → List.filter f l1 ≡ₚ List.filter f l2.
Proof.
  induction 1 as [|x l1 l2 _ IH|x y l|l1 l2 l3 _ IH1 _ IH2]; simpl.
  - done.
  - destruct (f x); by rewrite IH.
  - destruct (f x), (f y); try done. apply Permutation_swap.
  - by rewrite IH1.
Qed.

Lemma list_filter_comm {A} (f g : A → bool) (l : list A) :
  List.filter f (List.filter g l) = List.filter g (List.filter f l).
Proof.
  induction l as [|x l IH]; simpl; [done|].
  destruct (f x) eqn:Hf, (g x) eqn:Hg; simpl; rewrite ?Hf, ?Hg, IH; done.
Qed.

Lemma list_filter_length {A} (f : A → bool) (l : list A) :
  (length (List.filter f l) ≤ length l)%nat.
Proof. induction l as [|x l IH]; simpl; [done|]. destruct (f x); simpl; lia. Qed.

Lemma left_after_cons snap rest (l : list snapshot) :
  List.filter (left_after rest)
    (List.filter (λ x, negb (String.eqb (snap_name x) (snap_name snap))) l)
  = List.filter (left_after (snap :: rest)) l.
Proof.
  induction l as [|x l IH]; simpl; [done|].
  unfold left_after at 2. cbn [existsb].
  destruct (String.eqb (snap_name x) (snap_name snap)); simpl; [exact IH|].
  fold (left_after rest x). destruct (left_after rest x); by rewrite IH.
Qed.

Lemma sim_delete_attempts_store fuel instance (w w' : world) selected attempts :
  Sim.split_at_slash instance = (instance, EmptyString) →
  delete_attempts Sim.http Sim.clock Sim.sleep Sim.quote fuel instance w selected
    attempts w' →
  Sim.locked (env w) = ∅ →
  Sim.instances (env w') = Sim.instances (env w)
  ∧ dict_get (Sim.snapshots (env w') !! instance) []
    = List.filter (left_after selected)
        (dict_get (Sim.snapshots (env w) !! instance) []).
Proof.
  intros Hname. induction 1 as [w|w w1 w' snap rest o attempts Hrun _ IH];
    intros Hfree.
  - split; [done|].
    induction (dict_get (Sim.snapshots (env w) !! instance) []) as [|x l IHl];
      simpl; [done|]. by rewrite <- IHl.
  - assert (env w1
            = Sim.with_snapshots (env w1)
                (<[instance := List.filter
                                 (λ x, negb (String.eqb (snap_name x) (snap_name snap)))
                                 (dict_get (Sim.snapshots (env w) !! instance) [])]>
                   (Sim.snapshots (env w)))
            ∧ Sim.instances (env w1) = Sim.instances (env w)
            ∧ Sim.locked (env w1) = Sim.locked (env w)) as (Hsnaps & Hinst & Hlocked).
    { apply (f_equal snd) in Hrun. cbn [snd] in Hrun. subst w1.
      unfold instance_snapshot_delete.
      rewrite bind_world
        by (intros r w0; destruct (failed r); [apply failure_of_world|reflexivity]).
      pose proof (sim_sync_request_store Sim.instances fuel DELETE
                    ("/instances/" +:+ Sim.quote instance +:+ "/snapshots/"
                     +:+ Sim.quote (snap_name snap)) None None w
                    ltac:(done)) as Hi.
      pose proof (sim_sync_request_store Sim.locked fuel DELETE
                    ("/instances/" +:+ Sim.quote instance +:+ "/snapshots/"
                     +:+ Sim.quote (snap_name snap)) None None w
                    ltac:(done)) as Hl.
      pose proof (sim_sync_request_store Sim.snapshots fuel DELETE
                    ("/instances/" +:+ Sim.quote instance +:+ "/snapshots/"
                     +:+ Sim.quote (snap_name snap)) None None w
                    ltac:(done)) as Hs.
      rewrite sim_delete_snapshot in Hi, Hl, Hs
        by (try done; rewrite Hfree; apply not_elem_of_empty).
      cbn [Sim.with_snapshots Sim.instances Sim.locked Sim.snapshots] in Hi, Hl, Hs.
      split; [|by split].
      rewrite <- Hs.
      by destruct (env (_sync_request _ _ _ _ _ _ _ _ _).2). }
    destruct IH as [IHinst IHsnaps]; [by rewrite Hlocked|].
    split; [by rewrite IHinst|].
    rewrite IHsnaps, Hsnaps. cbn [Sim.with_snapshots Sim.snapshots].
    rewrite lookup_insert_eq. cbn [dict_get].
    apply left_after_cons.
Qed.

(** What the rotation leaves is within the retention count. *)
Lemma matching_after_rotation fnmatch pattern keep (l : list snapshot) :
  0 <= keep →
  Z.of_nat (length (matching_snapshots fnmatch pattern
                      (List.filter (left_after (to_delete fnmatch pattern keep l)) l)))
  <= keep.
Proof.
  intros Hkeep. rewrite to_delete_take by done.
  set (M := matching_snapshots fnmatch pattern l).
  set (n := (length M - Z.to_nat keep)%nat).
  unfold matching_snapshots at 1.
  rewrite sort_by_created_perm, list_filter_comm.
  assert (List.filter (λ s, fnmatch (snap_name s) pattern) l ≡ₚ M) as Hperm
    by (subst M; unfold matching_snapshots; by rewrite sort_by_created_perm).
  rewrite (list_filter_perm _ _ _ Hperm).
  rewrite <- (take_drop n M) at 2. rewrite List.filter_app, length_app.
  assert (List.filter (left_after (take n M)) (take n M) = []) as ->.
  { generalize (take n M). intros T.
    assert (∀ T', (∀ x, x ∈ T' → x ∈ T) → List.filter (left_after T) T' = [])
      as Hall; [|by apply Hall].
    induction T' as [|x T' IH]; intros Hsub; simpl; [done|].
    assert (left_after T x = false) as ->.
    { unfold left_after. apply negb_false_iff, existsb_exists.
      exists x. split; [|apply String.eqb_refl].
      apply list_elem_of_In, Hsub. by left. }
    apply IH. intros y Hy. apply Hsub. by right. }
  pose proof (list_filter_length (left_after (take n M)) (drop n M)) as Hle.
  rewrite length_drop in Hle. simpl. lia.
Qed.

Lemma sim_rotation_reads instance (w : world) live :
  Sim.split_at_slash instance = (instance, EmptyString) →
  Sim.instances (env w) !! instance = Some live →
  let get := Request GET ("/instances/" +:+ Sim.quote instance) None None in
  let list := Request GET ("/instances/" +:+ Sim.quote instance +:+ "/snapshots")
                None (Some 1) in
  instance_get Sim.http Sim.quote instance w
  = (Returns (Success live), World (env w) (trace w ++ [get]))
  ∧ instance_snapshot_list Sim.http Sim.quote instance 1
      (World (env w) (trace w ++ [get]))
    = (Returns (Success (dict_get (Sim.snapshots (env w) !! instance) [])),
       World (env w) (trace w ++ [get; list])).
Proof.
  intros Hname Hlive get list. split.
  - by rewrite (instance_get_found Sim.http Sim.quote instance w _ _
                  (sim_get_instance instance (env w) live Hname Hlive) eq_refl).
  - rewrite instance_snapshot_list_spec. cbv zeta. cbn [env trace].
    rewrite (sim_get_snapshots instance (Some 1) (env w) live Hname Hlive).
    cbn [fst snd Sim.ok request_result failed get_error_code e_error_code dict_get
           py_ne0 get_metadata e_metadata as_snapshots].
    by rewrite <- app_assoc.
Qed.

(** X22. A rotation converges: on a control plane that deletes what it
    is asked to delete, after the real run of [instance_snapshots_rotated]
    the matches of the pattern that are left number at most [keep], and a
    second run, real or dry, reads the instance and the listing, finds
    nothing to rotate and sends nothing. *)
Theorem rotation_converges fnmatch test fuel fuel' instance pattern keep s live :
  Sim.split_at_slash instance = (instance, EmptyString) →
  Sim.instances s !! instance = Some live →
  Sim.locked s = ∅ →
  (302 ≤ fuel)%nat →
  0 <= keep →
  let w1 :=
    (instance_snapshots_rotated Sim.http Sim.clock Sim.sleep Sim.quote fnmatch false
       fuel instance pattern keep (Sim.start s)).2 in
  Z.of_nat (length (matching_snapshots fnmatch pattern
                      (dict_get (Sim.snapshots (env w1) !! instance) [])))
  <= keep
  ∧ ∃ r2,
      instance_snapshots_rotated Sim.http Sim.clock Sim.sleep Sim.quote fnmatch test
        fuel' instance pattern keep w1
      = (Returns r2,
         World (env w1)
           (trace w1
            ++ [Request GET ("/instances/" +:+ Sim.quote instance) None None;
                Request GET ("/instances/" +:+ Sim.quote instance +:+ "/snapshots")
                  None (Some 1)]))
      ∧ ret_result r2 = Some true
      ∧ ret_changes r2 = None.
Proof.
  intros Hname Hlive Hfree Hfuel Hkeep w1.
  destruct (sim_rotation_reads instance (Sim.start s) live Hname Hlive)
    as [Hget Hlist].
  destruct (rotated_real_run Sim.http Sim.clock Sim.sleep Sim.quote fnmatch
              sim_sleep_advances sim_http_takes_time sim_polls_are_sync
              sim_errors_are_named fuel instance pattern keep _ _ _ _ _
              Hfuel Hget Hlist)
    as (r & attempts & w' & Hrun & Hattempts & _).
  assert (w1 = w') as -> by (subst w1; by rewrite Hrun).
  destruct (sim_delete_attempts_store fuel instance _ w' _ attempts Hname Hattempts
              Hfree) as [Hinst Hsnaps].
  cbn [env Sim.start] in Hinst, Hsnaps.
  assert (Z.of_nat (length (matching_snapshots fnmatch pattern
                              (dict_get (Sim.snapshots (env w') !! instance) [])))
          <= keep) as Hcount.
  { rewrite Hsnaps. by apply matching_after_rotation. }
  split; [exact Hcount|].
  destruct (sim_rotation_reads instance w' live Hname) as [Hget' Hlist'];
    [by rewrite Hinst|].
  unfold instance_snapshots_rotated.
  unfold bind at 1. rewrite Hget'. cbn [succeeded negb].
  unfold bind at 1. rewrite Hlist'.
  rewrite (proj2 (Z.leb_le _ _) Hcount).
  eexists. split; [reflexivity|]. split; reflexivity.
Qed.

(** ** Dry runs *)

Section DryRuns.

Context {W : Type}.
Variable http : request → W → transport_outcome * W.
Variable clock : W → Z.
Variable sleep : Z → W → W.
Variable quote : string → string.

(** X23. The dry runs of the four settings states issue the one read of
    the settings and nothing else, whatever the read returns and whatever
    is desired. *)
Theorem settings_dry_runs_read_only fuel name config key value (w : world) :
  let read :=
    World (http (Request GET EmptyString None None) (env w)).2
      (trace w ++ [Request GET EmptyString None None]) in
  (settings_present http clock sleep true fuel name config w).2 = read
  ∧ (settings_config http clock sleep true fuel name key value w).2 = read
  ∧ (settings_absent http clock sleep true fuel name key w).2 = read
  ∧ (settings_managed http clock sleep true fuel name config w).2 = read.
Proof.
  intros read. subst read.
  split; [|split; [|split]].
  - unfold settings_present. rewrite bind_world; [by rewrite settings_get_spec|].
    intros [live|error] w'; [|reflexivity]. cbv zeta. by case_bool_decide.
  - unfold settings_config. rewrite bind_world; [by rewrite settings_get_spec|].
    intros [live|error] w'; [|reflexivity]. cbv zeta. by case_bool_decide.
  - unfold settings_absent. rewrite bind_world; [by rewrite settings_get_spec|].
    intros [live|error] w'; [|reflexivity]. cbv zeta. by destruct (_ !! key).
  - unfold settings_managed. rewrite bind_world; [by rewrite settings_get_spec|].
    intros [live|error] w'; [|reflexivity]. cbv zeta. by case_bool_decide.
Qed.

(** X24. The dry runs of [volume_attached] and of
    [instance_snapshot_absent] issue no create, update or delete:
    [volume_attached] reads the instance and nothing else,
    [instance_snapshot_absent] only reads. *)
Theorem attach_and_absent_dry_runs_read_only fuel name pool instance device_name path
    (w : world) :
  (volume_attached http clock sleep quote true fuel name pool instance device_name
     path w).2
  = World (http (Request GET ("/instances/" +:+ quote instance) None None) (env w)).2
      (trace w ++ [Request GET ("/instances/" +:+ quote instance) None None])
  ∧ mutations
      (trace (instance_snapshot_absent http clock sleep quote true fuel instance
                name w).2)
    = mutations (trace w).
Proof.
  split.
  - unfold volume_attached. rewrite bind_world; [by rewrite instance_get_spec|].
    intros [live|error] w'; [|reflexivity]. cbv zeta.
    by destruct (match _ !! _ with Some _ => _ | None => false end).
  - unfold instance_snapshot_absent.
    pose proof (instance_get_mutations http quote instance w) as Hget.
    unfold bind at 1.
    destruct (instance_get http quote instance w) as [[info| |] w1];
      cbn [snd] in *; try done.
    destruct (negb (succeeded info)); [done|].
    pose proof (instance_snapshot_list_mutations http quote instance 1 w1) as Hlist.
    unfold bind at 1.
    destruct (instance_snapshot_list http quote instance 1 w1) as [[listing| |] w2];
      cbn [snd] in *; try congruence.
    destruct listing as [l|error]; [|cbn; congruence].
    destruct (negb _); cbn; congruence.
Qed.

End DryRuns.

(** ** Detaching *)

Section Detach.

Context {W : Type}.
Variable http : request → W → transport_outcome * W.
Variable clock : W → Z.
Variable sleep : Z → W → W.
Variable quote : string → string.

(** X25. [volume_detached] never detaches: when the instance is read
    with the device of the volume among its devices, and read again the
    same by [instance_update], the one mutation of the real run is the
    [PUT] of the instance exactly as it was read, the device and all its
    properties included. *)
Theorem detach_sends_instance_unchanged fuel name pool instance device_name
    (w : world) e env1 env2 Dv device :
  http (Request GET ("/instances/" +:+ quote instance) None None) (env w)
  = (Json e, env1) →
  http (Request GET ("/instances/" +:+ quote instance) None None) env1
  = (Json e, env2) →
  failed (Response e) = false →
  i_devices (as_instance (e_metadata e)) = Some Dv →
  Dv !! match device_name with
        | Some d => if bool_decide (d = EmptyString) then name else d
        | None => name
        end = Some device →
  device !! "pool" = Some (SStr pool) →
  device !! "source" = Some (SStr name) →
  mutations
    (trace (volume_detached http clock sleep quote false fuel name pool instance
              device_name w).2)
  = mutations (trace w)
    ++ [Request PUT ("/instances/" +:+ quote instance)
          (Some (BInstance (as_instance (e_metadata e)))) None].
Proof.
  intros Hget Hget' Hok HDv Hdev Hpool Hsource.
  set (dev := match device_name with
              | Some d => if bool_decide (d = EmptyString) then name else d
              | None => name
              end) in *.
  unfold volume_detached. fold dev.
  unfold bind at 1. rewrite (instance_get_found http quote instance w e env1 Hget Hok).
  rewrite HDv. cbn [dict_get]. rewrite Hdev.
  rewrite !bool_decide_eq_true_2 by done. cbn [negb orb].
  rewrite bind_world by (intros [msg|error] w'; reflexivity).
  unfold instance_update. unfold bind at 1.
  match goal with
  | |- context [instance_get http quote instance ?w1] =>
      rewrite (instance_get_found http quote instance w1 e env2 Hget' Hok)
  end.
  unfold bind at 1.
  rewrite (update_fields_devices _ {[ dev := ∅ ]} _ Dv HDv)
    by apply insert_non_empty.
  rewrite (merge_devices_empty_map Dv dev device Hdev).
  rewrite bind_world
    by (intros r w'; destruct (failed r); [apply failure_of_world|reflexivity]).
  rewrite sync_request_mutations. cbn [trace].
  rewrite !mutations_app. cbn [mutations List.filter is_mutation r_method].
  rewrite !app_nil_r.
  destruct (as_instance (e_metadata e)) as [n st c d p]. simpl in HDv. by subst d.
Qed.

End Detach.

(** ** Worked cases of the further properties *)

(** A wait of at most 3 ticks on an operation that keeps running. *)
Lemma wait_polls_within_budget_witness :
  ∃ n,
    trace (_wait_for_operation Stuck.http Down.clock Down.sleep 10
             "/1.0/operations/abc" 3 1 (World 0 [])).2
    = [] ++ replicate n (Request GET (py_replace "/1.0/" "/" "/1.0/operations/abc")
                           None None)
    ∧ Z.of_nat n <= Z.max 0 (3 + 1)
    ∧ (String.prefix "/1.0/operations/" "/1.0/operations/abc" = false → n = 0%nat).
Proof.
  apply (wait_polls_within_budget Stuck.http Down.clock Down.sleep 10
           "/1.0/operations/abc" 3 1 (World 0 [])).
  - intros d e. unfold Down.clock, Down.sleep. lia.
  - intros r e. unfold Down.clock. simpl. lia.
  - intros url e. simpl. discriminate.
  - lia.
Defined.

(** A poll that cannot reach the control plane. *)
Lemma failed_poll_ends_wait_witness :
  _wait_for_operation Down.http Down.clock Down.sleep 1 "/1.0/operations/abc" 3 1
    (World 0 [])
  = (Returns (WaitFailure "Connection refused"
                (PolledResult (error_dict "Connection refused" SNone))),
     World 0 [Request GET "/operations/abc" None None]).
Proof.
  apply (failed_poll_ends_wait Down.http Down.clock Down.sleep 0
           "/1.0/operations/abc" 3 1 (World 0 [])
           (TransportError "Connection refused") 0);
    [reflexivity | lia | reflexivity | reflexivity].
Defined.

(** The settings of [Sim.one_instance] are [{a: 1, b: 2}]. *)
Lemma unset_removes_one_key_witness :
  settings_unset Sim.http Sim.clock Sim.sleep 5 "c" (Sim.start Sim.one_instance)
  = (Returns (Failure ("Configuration key " +:+ double_quote +:+ "c"
                       +:+ double_quote +:+ " not found")),
     World Sim.one_instance [Request GET EmptyString None None])
  ∧ mutations
      (trace (settings_unset Sim.http Sim.clock Sim.sleep 5 "a"
                (Sim.start Sim.one_instance)).2)
    = [Request PUT EmptyString
         (Some (BSettings
                  (Settings (Some (delete "a" {[ "a" := SStr "1"; "b" := SStr "2" ]}))
                     ∅))) None].
Proof.
  split.
  - apply (proj1 (unset_removes_one_key Sim.http Sim.clock Sim.sleep 5 "c"
                    (Sim.start Sim.one_instance)
                    (Envelope (Some "sync") (Some (SInt 0)) (Some EmptyString)
                       (Some EmptyString)
                       (Some (MSettings (Sim.server_settings Sim.one_instance))))
                    Sim.one_instance eq_refl eq_refl));
      [discriminate | reflexivity].
  - apply (proj1 (proj2 (unset_removes_one_key Sim.http Sim.clock Sim.sleep 5 "a"
                           (Sim.start Sim.one_instance)
                           (Envelope (Some "sync") (Some (SInt 0)) (Some EmptyString)
                              (Some EmptyString)
                              (Some (MSettings (Sim.server_settings Sim.one_instance))))
                           Sim.one_instance eq_refl eq_refl)));
      [discriminate | by eexists].
Defined.

Lemma set_then_unset_restores_witness :
  let s := Sim.one_instance in
  let w1 := (settings_set Sim.http Sim.clock Sim.sleep 5 "c" (SInt 3) (Sim.start s)).2 in
  let w2 := (settings_unset Sim.http Sim.clock Sim.sleep 5 "c" w1).2 in
  Sim.server_settings (env w1)
  = Settings (Some (<["c" := SStr (py_str (SInt 3))]>
                      {[ "a" := SStr "1"; "b" := SStr "2" ]})) ∅
  ∧ Sim.server_settings (env w2) = Sim.server_settings s.
Proof.
  intros s w1 w2.
  destruct (set_then_unset_restores 5 5 "c" (SInt 3) s
              {[ "a" := SStr "1"; "b" := SStr "2" ]}
              ltac:(discriminate) eq_refl) as [Hset Hunset].
  split; [exact Hset|]. apply Hunset. reflexivity.
Defined.

Lemma settings_config_converges_witness :
  let w1 :=
    (settings_config Sim.http Sim.clock Sim.sleep false 5 "n" "a" (SInt 9)
       (Sim.start Sim.one_instance)).2 in
  dict_get (s_config (Sim.server_settings (env w1))) ∅ !! "a"
  = Some (SStr (py_str (SInt 9)))
  ∧ settings_config Sim.http Sim.clock Sim.sleep true 5 "n" "a" (SInt 9) w1
    = (Returns (StateRet "n" (Some true) ∅
                  (Text ("Setting " +:+ "a" +:+ " already has value "
                         +:+ py_str (SInt 9)))),
       World (env w1) (trace w1 ++ [Request GET EmptyString None None])).
Proof.
  apply (settings_config_converges true 5 5 "n" "a" (SInt 9) Sim.one_instance).
  discriminate.
Defined.

Lemma settings_present_converges_witness :
  let config : option config_map := Some {[ "b" := SStr "3" ]} in
  let w1 :=
    (settings_present Sim.http Sim.clock Sim.sleep false 5 "n" config
       (Sim.start Sim.one_instance)).2 in
  settings_present Sim.http Sim.clock Sim.sleep false 5 "n" config w1
  = (Returns (StateRet "n" (Some true) None
                (Text "Server settings already in desired state")),
     World (env w1) (trace w1 ++ [Request GET EmptyString None None])).
Proof.
  intros config.
  apply (settings_present_converges false 5 5 "n" config Sim.one_instance).
  intros k v Hk. subst config. cbn [dict_get] in Hk.
  apply lookup_singleton_Some in Hk as [_ <-]. by eexists.
Defined.

Lemma settings_managed_converges_exactly_witness :
  let config : config_map := {[ "b" := SInt 3 ]} in
  let w1 :=
    (settings_managed Sim.http Sim.clock Sim.sleep false 5 "n" (Some config)
       (Sim.start Sim.one_instance)).2 in
  s_config (Sim.server_settings (env w1)) = Some (SStr <$> (py_str <$> config))
  ∧ settings_managed Sim.http Sim.clock Sim.sleep false 5 "n" (Some config) w1
    = (Returns (StateRet "n" (Some true) None
                  (Text "Server settings already match desired state exactly")),
       World (env w1) (trace w1 ++ [Request GET EmptyString None None])).
Proof.
  intros config.
  apply (settings_managed_converges_exactly false 5 5 "n" config Sim.one_instance).
  apply insert_non_empty.
Defined.

Lemma managed_cannot_empty_witness :
  settings_managed Sim.http Sim.clock Sim.sleep false 5 "n" None
    (Sim.start Sim.one_instance)
  = (Returns (StateRet "n" (Some false) None
                (Text ("Failed to replace server settings: "
                       +:+ "config parameter must be a dictionary"))),
     World Sim.one_instance [Request GET EmptyString None None])
  ∧ settings_managed Sim.http Sim.clock Sim.sleep true 5 "n" (Some ∅)
      (Sim.start Sim.one_instance)
    = (Returns (StateRet "n" None
                  (Some ((λ v, (v, None))
                           <$> ({[ "a" := SStr "1"; "b" := SStr "2" ]} : config_map)))
                  (Text "Server settings would be replaced")),
       World Sim.one_instance [Request GET EmptyString None None]).
Proof.
  split.
  - apply (managed_cannot_empty Sim.http Sim.clock Sim.sleep false 5 "n" None
             (Sim.start Sim.one_instance)
             (Envelope (Some "sync") (Some (SInt 0)) (Some EmptyString)
                (Some EmptyString)
                (Some (MSettings (Sim.server_settings Sim.one_instance))))
             Sim.one_instance {[ "a" := SStr "1"; "b" := SStr "2" ]});
      [reflexivity | reflexivity | reflexivity | apply insert_non_empty | reflexivity].
  - apply (managed_cannot_empty Sim.http Sim.clock Sim.sleep true 5 "n" (Some ∅)
             (Sim.start Sim.one_instance)
             (Envelope (Some "sync") (Some (SInt 0)) (Some EmptyString)
                (Some EmptyString)
                (Some (MSettings (Sim.server_settings Sim.one_instance))))
             Sim.one_instance {[ "a" := SStr "1"; "b" := SStr "2" ]});
      [reflexivity | reflexivity | reflexivity | apply insert_non_empty | reflexivity].
Defined.

Lemma settings_absent_converges_witness :
  let w1 :=
    (settings_absent Sim.http Sim.clock Sim.sleep false 5 "n" "a"
       (Sim.start Sim.one_instance)).2 in
  dict_get (s_config (Sim.server_settings (env w1))) ∅
  = delete "a" (dict_get (s_config (Sim.server_settings Sim.one_instance)) ∅)
  ∧ settings_absent Sim.http Sim.clock Sim.sleep false 5 "n" "a" w1
    = (Returns (StateRet "n" (Some true) ∅
                  (Text ("Setting " +:+ "a" +:+ " already absent"))),
       World (env w1) (trace w1 ++ [Request GET EmptyString None None])).
Proof.
  apply (settings_absent_converges false 5 5 "n" "a" Sim.one_instance).
  discriminate.
Defined.

(** A pool served in an envelope as the reference control plane builds
    them, with the error code 0 and an empty [error]. *)
Lemma error_member_blocks_update_witness :
  let pool := Resource (Some {[ "size" := SStr "10GiB" ]}) (Some "fast") ∅ in
  let http := λ (_ : request) (t : Z), (Sim.ok (Some (MResource pool)), t) in
  let get := Request GET ("/storage-pools/" +:+ Sim.quote "p") None None in
  storage_pool_update http Down.clock Down.sleep Sim.quote 5 "p"
    (Some {[ "size" := SStr "20GiB" ]}) None (World 0 [])
  = (Returns (Failure EmptyString), World 0 [get])
  ∧ storage_pool_get http Sim.quote "p" (World 0 [])
    = (Returns (Success pool), World 0 [get]).
Proof.
  intros pool http get.
  destruct (proj1 (error_member_blocks_update http Down.clock Down.sleep Sim.quote 5
                     (Some {[ "size" := SStr "20GiB" ]}) None (World 0 [])
                     (Envelope (Some "sync") (Some (SInt 0)) (Some EmptyString)
                        (Some EmptyString) (Some (MResource pool)))
                     0 EmptyString eq_refl) "p" eq_refl) as [Hupdate Hget].
  split; [exact Hupdate|]. apply Hget. reflexivity.
Defined.

(** The disk [data] of [c1], updated with another path. *)
Lemma update_keeps_devices_witness :
  ∃ sent merged both,
    mutations
      (trace (instance_update Sim.http Sim.clock Sim.sleep Sim.quote 5 "c1" None
                (Some {[ "data" := {[ "path" := SStr "/srv" ]} ]}) None
                (Sim.start Sim.one_instance)).2)
    = [Request PUT "/instances/c1" (Some (BInstance sent)) None]
    ∧ i_devices sent = Some merged
    ∧ merged !! "data" = Some both
    ∧ both !! "path" = Some (SStr "/srv")
    ∧ both !! "pool" = Some (SStr "default").
Proof.
  destruct (update_keeps_devices Sim.http Sim.clock Sim.sleep Sim.quote 5 "c1" None
              {[ "data" := {[ "path" := SStr "/srv" ]} ]} None
              (Sim.start Sim.one_instance)
              (Envelope (Some "sync") (Some (SInt 0)) (Some EmptyString)
                 (Some EmptyString) (Some (MInstance Sim.c1)))
              Sim.one_instance
              {[ "a" := SStr "1"; "b" := SStr "2" ]} {[ "data" := Sim.disk ]}
              eq_refl eq_refl eq_refl eq_refl)
    as (sent & merged & Hsent & Hmerged & _ & _ & Hboth & _).
  destruct (Hboth "data" {[ "path" := SStr "/srv" ]} Sim.disk eq_refl eq_refl)
    as (both & Hdata & Hprops).
  exists sent, merged, both.
  split; [exact Hsent|]. split; [exact Hmerged|]. split; [exact Hdata|].
  split; rewrite Hprops; reflexivity.
Defined.

Lemma failed_read_is_taken_for_absence_witness :
  mutations
    (trace (instance_present Down.http Down.clock Down.sleep Sim.quote false 5 "c1"
              None "container" None None None false (World 0 [])).2)
  = [Request POST "/instances"
       (Some (BCreate (CreateData "c1" "container" false None None None None))) None].
Proof.
  apply (failed_read_is_taken_for_absence Down.http Down.clock Down.sleep Sim.quote 5
           "c1" None "container" None None None false (World 0 [])
           (TransportError "Connection refused") 0);
    [reflexivity | reflexivity | by eexists].
Defined.

Lemma volume_attached_converges_witness :
  let w1 :=
    (volume_attached Sim.http Sim.clock Sim.sleep Sim.quote false 5 "vol2" "default"
       "c1" None (Some "/mnt/2") (Sim.start Sim.one_instance)).2 in
  volume_attached Sim.http Sim.clock Sim.sleep Sim.quote false 5 "vol2" "default"
    "c1" None (Some "/mnt/elsewhere") w1
  = (Returns (StateRet "vol2" (Some true) None
                (Text ("Volume " +:+ "vol2" +:+ " already attached to instance "
                       +:+ "c1"))),
     World (env w1)
       (trace w1 ++ [Request GET ("/instances/" +:+ Sim.quote "c1") None None])).
Proof.
  apply (volume_attached_converges false 5 5 "vol2" "default" "c1" None
           (Some "/mnt/2") (Some "/mnt/elsewhere") Sim.one_instance Sim.c1
           {[ "data" := Sim.disk ]});
    reflexivity.
Defined.

Lemma snapshot_absent_converges_witness :
  let w1 :=
    (instance_snapshot_absent Sim.http Sim.clock Sim.sleep Sim.quote false 5 "c1"
       "daily-1" (Sim.start Sim.one_instance)).2 in
  dict_get (Sim.snapshots (env w1) !! "c1") []
  = List.filter (λ x, negb (String.eqb (snap_name x) "daily-1"))
      (dict_get (Sim.snapshots Sim.one_instance !! "c1") [])
  ∧ instance_snapshot_absent Sim.http Sim.clock Sim.sleep Sim.quote false 5 "c1"
      "daily-1" w1
    = (Returns (StateRet ("c1" +:+ "/" +:+ "daily-1") (Some true) None
                  (Text ("Snapshot " +:+ "daily-1"
                         +:+ " already absent from instance " +:+ "c1"))),
       World (env w1)
         (trace w1
          ++ [Request GET ("/instances/" +:+ Sim.quote "c1") None None;
              Request GET ("/instances/" +:+ Sim.quote "c1" +:+ "/snapshots")
                None (Some 1)])).
Proof.
  apply (snapshot_absent_converges false 5 5 "c1" "daily-1" Sim.one_instance Sim.c1);
    [reflexivity | reflexivity | apply not_elem_of_empty].
Defined.

(** A pillar that selects a remote control plane, and a later load
    without it. *)
Lemma load_config_keeps_overrides_witness :
  let remote : gmap string value :=
    {[ "type" := VStr "https"; "url" := VStr "https://incus.example.com:8443" ]} in
  let pillar_cfg : gmap string value := {[ "connection" := VDict remote ]} in
  ∃ b,
    DEFAULT_CFG !! "connection" = Some (VDict b)
    ∧ (_load_config ∅ (_load_config pillar_cfg DEFAULT_CFG).2).1 !! "connection"
      = Some (VDict (deep_merge b remote))
    ∧ (_load_config ∅ DEFAULT_CFG).1 !! "connection" = Some (VDict b).
Proof.
  intros remote pillar_cfg. eexists. split; [reflexivity|].
  apply (load_config_keeps_overrides pillar_cfg ∅ DEFAULT_CFG "connection" _ remote);
    reflexivity.
Defined.


Lemma missing_type_means_unix_socket_witness :
  _get_base_url
    (_load_config
       {[ "connection" := VDict {[ "url" := VStr "https://incus.example.com:8443" ]} ]}
       DEFAULT_CFG).1
  = inr "http://localhost/1.0".
Proof.
  apply (missing_type_means_unix_socket
           {[ "connection" := VDict {[ "url" := VStr "https://incus.example.com:8443" ]} ]}).
  reflexivity.
Defined.

Lemma create_then_converge_is_noop_witness :
  let converge test :=
    instance_present Sim.http Sim.clock Sim.sleep Sim.quote test 5 "c1" None
      "container" Sim.two_cpus None (Some ["default"]) false in
  let w1 := (converge false (Sim.start Sim.empty)).2 in
  is_Some (Sim.instances (env w1) !! "c1")
  ∧ converge true w1
    = (Returns (StateRet "c1" (Some true) no_changes
                  (Text ("Instance " +:+ "c1" +:+ " already in desired state"))),
       World (env w1)
         (trace w1 ++ [Request GET ("/instances/" +:+ Sim.quote "c1") None None])).
Proof.
  intros converge.
  apply (create_then_converge_is_noop true 5 5 "c1" None "container" Sim.two_cpus
           None (Some ["default"]) false Sim.empty);
    [reflexivity | reflexivity |].
  intros k v Hk. unfold Sim.two_cpus in Hk. cbn [dict_get] in Hk.
  apply lookup_singleton_Some in Hk as [_ <-]. by eexists.
Defined.

(** The rotation of the matches of [daily-*] on [c1], keeping two. *)
Lemma rotation_converges_witness :
  let rotate test :=
    instance_snapshots_rotated Sim.http Sim.clock Sim.sleep Sim.quote Sim.fnmatch
      test 302 "c1" "daily-*" 2 in
  let w1 := (rotate false (Sim.start Sim.one_instance)).2 in
  Z.of_nat (length (matching_snapshots Sim.fnmatch "daily-*"
                      (dict_get (Sim.snapshots (env w1) !! "c1") [])))
  <= 2
  ∧ ∃ r2,
      rotate true w1
      = (Returns r2,
         World (env w1)
           (trace w1
            ++ [Request GET ("/instances/" +:+ Sim.quote "c1") None None;
                Request GET ("/instances/" +:+ Sim.quote "c1" +:+ "/snapshots")
                  None (Some 1)]))
      ∧ ret_result r2 = Some true
      ∧ ret_changes r2 = None.
Proof.
  intros rotate.
  apply (rotation_converges Sim.fnmatch true 302 302 "c1" "daily-*" 2
           Sim.one_instance Sim.c1);
    [reflexivity | reflexivity | reflexivity | lia | lia].
Defined.

(** The volume [vol1] of [c1], attached as the device [data]. *)
Lemma detach_sends_instance_unchanged_witness :
  mutations
    (trace (volume_detached Sim.http Sim.clock Sim.sleep Sim.quote false 5 "vol1"
              "default" "c1" (Some "data") (Sim.start Sim.one_instance)).2)
  = [Request PUT ("/instances/" +:+ Sim.quote "c1") (Some (BInstance Sim.c1)) None].
Proof.
  apply (detach_sends_instance_unchanged Sim.http Sim.clock Sim.sleep Sim.quote 5
           "vol1" "default" "c1" (Some "data") (Sim.start Sim.one_instance)
           (Envelope (Some "sync") (Some (SInt 0)) (Some EmptyString)
              (Some EmptyString) (Some (MInstance Sim.c1)))
           Sim.one_instance Sim.one_instance {[ "data" := Sim.disk ]} Sim.disk);
    reflexivity.
Defined.
